(** * SD-WAN site extraction with reverse geocoding

    A shallow embedding of [sdwan_geocoding_clean.py]: the geocoding
    service with its cache, the controller client, the site aggregation
    loop, the location summary and the top-level driver, together with
    the properties the specification states about them.

    Python values decoded from JSON are an inductive type; the program's
    effects (standard output, the geocoder cache, the HTTP calls, the
    one-second pauses, the exported file) are threaded through an explicit
    world; exceptions and [sys.exit] are results of a small monad. *)

From Stdlib Require Import ZArith String Ascii List.
From stdpp Require Import base option strings list gmap pretty sorting.

Set Warnings "-register-all".
Local Open Scope Z_scope.
Local Open Scope string_scope.

(** ** The interpreter's built-ins that are not part of the program

    IEEE doubles, their conversions from and to text, and the Unicode
    operations on [str] belong to CPython, not to the repository.  They are
    an interface; every theorem below holds for every implementation
    of it. *)

Class PyRuntime := {
  pyfloat : Type;
  (** [float(s)] on a [str]; [None] is [ValueError]. *)
  float_of_str : string -> option pyfloat;
  (** [float(n)] on an [int]; [None] is [OverflowError]. *)
  float_of_int : Z -> option pyfloat;
  (** [repr(x)], which is also [str(x)] and [format(x, '')]. *)
  float_repr : pyfloat -> string;
  (** [bool(x)]: [x != 0.0]. *)
  float_nonzero : pyfloat -> bool;
  (** [Some n] when [x == n] for the integer [n] (then [hash(x) == hash(n)]). *)
  float_as_int : pyfloat -> option Z;
  (** [a < b] on numbers when at least one of them is a float. *)
  float_lt : Z + pyfloat -> Z + pyfloat -> bool;
  (** [s.upper()]. *)
  str_upper : string -> string;
  (** [repr(s)] on a [str]. *)
  str_repr : string -> string;
  (** the one-character strings [iter(s)] yields. *)
  str_chars : string -> list string;
  (** [''.upper() == ''] *)
  str_upper_empty : str_upper "" = ""
}.

(** ** Exceptions *)

Inductive pyexc : Type :=
  | AttributeError (ty attr : string)
  | TypeError (msg : string)
  | ValueError (msg : string)
  | KeyError (key : string)
  | OverflowError (msg : string)
  | RequestException (msg : string)
  | JSONDecodeError (msg : string)
  | OSError (msg : string).

#[global] Instance pyexc_eq_dec : EqDecision pyexc.
Proof. solve_decision. Defined.

Definition squote (s : string) : string := "'" +:+ s +:+ "'".

(** [str(e)] *)
Definition exc_str (e : pyexc) : string :=
  match e with
  | AttributeError ty attr =>
      squote ty +:+ " object has no attribute " +:+ squote attr
  | TypeError msg | ValueError msg | OverflowError msg
  | RequestException msg | JSONDecodeError msg | OSError msg => msg
  | KeyError key => squote key
  end.

(** Pure computations that may raise. *)
Definition exn (A : Type) : Type := pyexc + A.

Definition exn_bind {A B} (x : exn A) (f : A -> exn B) : exn B :=
  match x with inl e => inl e | inr a => f a end.

#[global] Instance exn_ret : MRet exn := fun A a => inr a.
#[global] Instance exn_mbind : MBind exn := fun A B f x => exn_bind x f.
#[global] Instance exn_fmap : FMap exn := fun A B f x =>
  match x with inl e => inl e | inr a => inr (f a) end.

(** How a computation of the program ends: with a value, with an
    exception, or in [sys.exit(code)]. *)
Inductive outcome (A : Type) : Type :=
  | Ret (a : A)
  | Raise (e : pyexc)
  | Exit (code : Z).
Arguments Ret {A} a.
Arguments Raise {A} e.
Arguments Exit {A} code.

Definition join_str (sep : string) (l : list string) : string :=
  String.concat sep l.

Fixpoint str_mul (s : string) (n : nat) : string :=
  match n with O => "" | S n => s +:+ str_mul s n end.

(** [needle in hay] on two [str]. *)
Fixpoint is_substring (needle hay : string) : bool :=
  String.prefix needle hay
  || match hay with
     | EmptyString => false
     | String _ hay' => is_substring needle hay'
     end.

Definition nl : string := String (ascii_of_nat 10) "".
Definition dq : string := String (ascii_of_nat 34) "".

Section Model.
Context `{PyRuntime}.

(** ** Python values decoded from JSON *)

Inductive pyval : Type :=
  | PNone
  | PBool (b : bool)
  | PInt (n : Z)
  | PFloat (x : pyfloat)
  | PStr (s : string)
  | PList (l : list pyval)
  | PDict (d : list (string * pyval)).

Definition type_name (v : pyval) : string :=
  match v with
  | PNone => "NoneType" | PBool _ => "bool" | PInt _ => "int"
  | PFloat _ => "float" | PStr _ => "str" | PList _ => "list"
  | PDict _ => "dict"
  end.

(** [bool(v)] *)
Definition truthy (v : pyval) : bool :=
  match v with
  | PNone => false
  | PBool b => b
  | PInt n => negb (Z.eqb n 0)
  | PFloat x => float_nonzero x
  | PStr s => negb (String.eqb s "")
  | PList l => match l with [] => false | _ => true end
  | PDict d => match d with [] => false | _ => true end
  end.

(** [x == 'literal'] for a string literal on the right. *)
Definition eq_str (v : pyval) (s : string) : bool :=
  match v with PStr t => String.eqb t s | _ => false end.

Fixpoint assoc {A} (k : string) (d : list (string * A)) : option A :=
  match d with
  | [] => None
  | (k', v) :: d' => if String.eqb k' k then Some v else assoc k d'
  end.

(** [v.get(k, dflt)]: only a dict has the method. *)
Definition py_get (v : pyval) (k : string) (dflt : pyval) : exn pyval :=
  match v with
  | PDict d => inr (default dflt (assoc k d))
  | _ => inl (AttributeError (type_name v) "get")
  end.

(** [v.get(k)] *)
Definition py_get_none (v : pyval) (k : string) : exn pyval :=
  py_get v k PNone.

(** [a or b], where [b] is only evaluated when [a] is falsy. *)
Definition py_or (a b : exn pyval) : exn pyval :=
  exn_bind a (fun x => if truthy x then inr x else b).

(** [v.upper()]: only a [str] has the method. *)
Definition py_upper (v : pyval) : exn pyval :=
  match v with
  | PStr s => inr (PStr (str_upper s))
  | _ => inl (AttributeError (type_name v) "upper")
  end.

(** [sep.join(items)]: every item must be a [str]. *)
Fixpoint py_join_items (i : nat) (items : list pyval) : exn (list string) :=
  match items with
  | [] => inr []
  | PStr s :: rest =>
      exn_bind (py_join_items (S i) rest) (fun ss => inr (s :: ss))
  | v :: _ =>
      inl (TypeError ("sequence item " +:+ pretty i
                      +:+ ": expected str instance, "
                      +:+ type_name v +:+ " found"))
  end.

Definition py_join (sep : string) (items : list pyval) : exn pyval :=
  exn_bind (py_join_items 0 items) (fun ss => inr (PStr (join_str sep ss))).

(** [repr(v)] and [str(v)], as f-strings and [print] use them. *)
Fixpoint py_repr (v : pyval) : string :=
  match v with
  | PNone => "None"
  | PBool true => "True"
  | PBool false => "False"
  | PInt n => pretty n
  | PFloat x => float_repr x
  | PStr s => str_repr s
  | PList l => "[" +:+ join_str ", " (map py_repr l) +:+ "]"
  | PDict d =>
      "{" +:+ join_str ", "
                (map (fun kv => str_repr (fst kv) +:+ ": " +:+ py_repr (snd kv)) d)
          +:+ "}"
  end.

Definition py_str (v : pyval) : string :=
  match v with PStr s => s | _ => py_repr v end.

(** [float(v)] *)
Definition py_float (v : pyval) : exn pyfloat :=
  match v with
  | PFloat x => inr x
  | PInt n =>
      match float_of_int n with
      | Some x => inr x
      | None => inl (OverflowError "int too large to convert to float")
      end
  | PBool b =>
      match float_of_int (if b then 1 else 0) with
      | Some x => inr x
      | None => inl (OverflowError "int too large to convert to float")
      end
  | PStr s =>
      match float_of_str s with
      | Some x => inr x
      | None =>
          inl (ValueError ("could not convert string to float: " +:+ str_repr s))
      end
  | PNone | PList _ | PDict _ =>
      inl (TypeError ("float() argument must be a string or a real number, not "
                      +:+ squote (type_name v)))
  end.

(** ['literal' in v] *)
Definition py_contains (v : pyval) (item : string) : exn bool :=
  match v with
  | PDict d => inr (bool_decide (is_Some (assoc item d)))
  | PList l => inr (existsb (fun x => eq_str x item) l)
  | PStr s => inr (is_substring item s)
  | _ => inl (TypeError ("argument of type " +:+ squote (type_name v)
                         +:+ " is not iterable"))
  end.

(** [v['literal']] *)
Definition py_getitem (v : pyval) (k : string) : exn pyval :=
  match v with
  | PDict d =>
      match assoc k d with
      | Some x => inr x
      | None => inl (KeyError k)
      end
  | PList _ => inl (TypeError "list indices must be integers or slices, not str")
  | PStr _ => inl (TypeError "string indices must be integers, not 'str'")
  | _ => inl (TypeError (squote (type_name v) +:+ " object is not subscriptable"))
  end.

(** The items a [for] loop over [v] visits. *)
Definition py_iter (v : pyval) : exn (list pyval) :=
  match v with
  | PList l => inr l
  | PDict d => inr (map (fun kv => PStr (fst kv)) d)
  | PStr s => inr (map PStr (str_chars s))
  | _ => inl (TypeError (squote (type_name v) +:+ " object is not iterable"))
  end.

(** *** Dictionary keys

    Two values are the same key when they are equal and hash alike:
    [True], [1] and [1.0] are one key.  Lists and dicts are unhashable.
    A float that is not an integer is identified by its [repr]; NaN,
    which CPython tells apart by object identity, is not modelled apart. *)
Inductive hkey : Type :=
  | KNone
  | KInt (n : Z)
  | KFloat (repr : string)
  | KStr (s : string).

#[global] Instance hkey_eq_dec : EqDecision hkey.
Proof. solve_decision. Defined.

Definition dict_key (v : pyval) : exn hkey :=
  match v with
  | PNone => inr KNone
  | PBool b => inr (KInt (if b then 1 else 0))
  | PInt n => inr (KInt n)
  | PFloat x =>
      inr (match float_as_int x with
           | Some n => KInt n
           | None => KFloat (float_repr x)
           end)
  | PStr s => inr (KStr s)
  | PList _ | PDict _ =>
      inl (TypeError ("unhashable type: " +:+ squote (type_name v)))
  end.

(** [stored] is the key [k]. *)
Definition same_key (k : hkey) (stored : pyval) : bool :=
  match dict_key stored with
  | inr k' => bool_decide (k' = k)
  | inl _ => false
  end.

(** ** The aggregated structure *)

(** [location_info] of [extract_sites_with_geocoding]. *)
Record location_info := {
  latitude : pyfloat;
  longitude : pyfloat;
  is_device_gps : pyval;
  geocoded : pyval
}.

(** One entry of a device's ['tloc_info'] list. *)
Record tloc_summary := {
  color : pyval;
  control_connections_up : pyval;
  bfd_sessions_up : pyval
}.

(** [device_info]; ['location'] and ['tloc_info'] are keys that may be
    missing from the dict. *)
Record device_info := {
  hostname : pyval;
  system_ip : pyval;
  device_type : pyval;
  device_model : pyval;
  reachability : pyval;
  version : pyval;
  platform : pyval;
  dev_location : option location_info;
  tloc_info : option (list tloc_summary)
}.

(** A value of the [sites] mapping. *)
Record site := {
  devices : list device_info;
  location : option location_info;
  geocoded_location : option pyval;
  site_type : string
}.

(** The [sites] mapping: insertion ordered, keyed by the site-id value that
    created the entry. *)
Definition site_map : Type := list (pyval * site).

(** ** The world the program acts on *)

Record world := {
  stdout : list string;          (* one entry per [print], oldest first *)
  cache : gmap string pyval;     (* [GeocodeService.cache] *)
  geo_calls : nat;               (* [requests.get] calls sent to Nominatim *)
  slept : nat;                   (* seconds spent in [time.sleep] *)
  token : option string;         (* [self.token] and the session header *)
  written : list (string * site_map) (* files written by [json.dump] *)
}.

Definition initial_world : world :=
  {| stdout := []; cache := ∅; geo_calls := 0; slept := 0;
     token := None; written := [] |}.

(** What an HTTP call does: it raises, or it returns a response with a
    status code, a text and the outcome of [response.json()]. *)
Inductive http_result : Type :=
  | HttpRaises (e : pyexc)
  | HttpResponse (status_code : Z) (text : string) (json : exn pyval).

(** The servers and the file system the run talks to.  The reverse
    geocoding answer may depend on how many calls were made before. *)
Record network := {
  nominatim : nat -> pyfloat -> pyfloat -> http_result;
  login_response : http_result;
  token_response : http_result;
  devices_response : http_result;
  tloc_response : http_result;
  open_output : option pyexc
}.

(** ** Computations: state, exceptions and [sys.exit] *)

Definition M (A : Type) : Type := world -> outcome A * world.

#[global] Instance M_ret : MRet M := fun A a w => (Ret a, w).
#[global] Instance M_bind : MBind M := fun A B f m w =>
  match m w with
  | (Ret a, w') => f a w'
  | (Raise e, w') => (Raise e, w')
  | (Exit c, w') => (Exit c, w')
  end.

Definition raise {A} (e : pyexc) : M A := fun w => (Raise e, w).
Definition sys_exit {A} (code : Z) : M A := fun w => (Exit code, w).

(** A pure computation that may raise, run inside [M]. *)
Definition lift {A} (x : exn A) : M A :=
  match x with inl e => raise e | inr a => mret a end.

(** [try: body except Exception as e: handler(e)]; [SystemExit] is not an
    [Exception] and passes through. *)
Definition try_except {A} (body : M A) (handler : pyexc -> M A) : M A :=
  fun w =>
    match body w with
    | (Raise e, w') => handler e w'
    | r => r
    end.

Definition print (line : string) : M unit := fun w =>
  (Ret tt, {| stdout := stdout w ++ [line]; cache := cache w;
              geo_calls := geo_calls w; slept := slept w;
              token := token w; written := written w |}).

Definition sleep (seconds : nat) : M unit := fun w =>
  (Ret tt, {| stdout := stdout w; cache := cache w;
              geo_calls := geo_calls w; slept := slept w + seconds;
              token := token w; written := written w |}).

Definition cache_lookup (key : string) : M (option pyval) := fun w =>
  (Ret (cache w !! key), w).

Definition cache_store (key : string) (v : pyval) : M unit := fun w =>
  (Ret tt, {| stdout := stdout w; cache := <[key := v]> (cache w);
              geo_calls := geo_calls w; slept := slept w;
              token := token w; written := written w |}).

Definition set_token (t : string) : M unit := fun w =>
  (Ret tt, {| stdout := stdout w; cache := cache w;
              geo_calls := geo_calls w; slept := slept w;
              token := Some t; written := written w |}).

Definition write_file (path : string) (content : site_map) : M unit := fun w =>
  (Ret tt, {| stdout := stdout w; cache := cache w;
              geo_calls := geo_calls w; slept := slept w;
              token := token w; written := written w ++ [(path, content)] |}).

Section Program.
Variable net : network.

(** [requests.get(url, ...)] / [session.get] / [session.post]: the call
    raises or hands back the response. *)
Definition http (r : http_result) : M (Z * string * exn pyval) :=
  match r with
  | HttpRaises e => raise e
  | HttpResponse status text json => mret (status, text, json)
  end.

(** [requests.get] on the reverse-geocoding endpoint. *)
Definition requests_get_nominatim (lat lon : pyfloat)
  : M (Z * string * exn pyval) := fun w =>
  http (nominatim net (geo_calls w) lat lon)
       {| stdout := stdout w; cache := cache w;
          geo_calls := S (geo_calls w); slept := slept w;
          token := token w; written := written w |}.

(** *** [GeocodeService] *)

(** The cache key [f"{lat},{lon}"]. *)
Definition cache_key (lat lon : pyfloat) : string :=
  float_repr lat +:+ "," +:+ float_repr lon.

(** [_format_address(address)] *)
Definition _format_address (address : pyval) : exn pyval :=
  city ← py_or (py_get_none address "city")
         (py_or (py_get_none address "town")
         (py_or (py_get_none address "village")
                (py_get_none address "hamlet")));
  let components := if truthy city then [city] else [] in
  state ← py_or (py_get_none address "state") (py_get_none address "province");
  let components := if truthy state then (components ++ [state])%list else components in
  country ← py_get_none address "country";
  components ← (if truthy country
                then c ← py_get_none address "country"; mret (components ++ [c])%list
                else mret components);
  match components with
  | [] => mret (PStr "Unknown Location")
  | _ => py_join ", " components
  end.

(** The dict literal built from a successful response (lines 43-58). *)
Definition build_location_info (data : pyval) : exn pyval :=
  address ← py_get data "address" (PDict []);
  display_name ← py_get data "display_name" (PStr "Unknown Location");
  city ← py_or (py_get_none address "city")
         (py_or (py_get_none address "town")
         (py_or (py_get_none address "village")
                (py_get address "hamlet" (PStr "Unknown City"))));
  state ← py_or (py_get_none address "state")
                (py_get address "province" (PStr "Unknown State"));
  country ← py_get address "country" (PStr "Unknown Country");
  country_code ← py_get address "country_code" (PStr "") ≫= py_upper;
  postcode ← py_get address "postcode" (PStr "");
  formatted_address ← _format_address address;
  mret (PDict [("display_name", display_name);
               ("city", city);
               ("state", state);
               ("country", country);
               ("country_code", country_code);
               ("postcode", postcode);
               ("formatted_address", formatted_address)]).

(** The dict returned when the lookup did not succeed (lines 66-74). *)
Definition fallback_location (lat lon : pyfloat) : pyval :=
  PDict [("display_name",
          PStr ("Location at " +:+ float_repr lat +:+ ", " +:+ float_repr lon));
         ("city", PStr "Unknown City");
         ("state", PStr "Unknown State");
         ("country", PStr "Unknown Country");
         ("country_code", PStr "");
         ("postcode", PStr "");
         ("formatted_address",
          PStr (float_repr lat +:+ ", " +:+ float_repr lon))].

Definition geocoding_warning (lat lon : pyfloat) (e : pyexc) : string :=
  "WARNING: Geocoding failed for " +:+ float_repr lat +:+ "," +:+ float_repr lon
  +:+ ": " +:+ exc_str e.

(** [reverse_geocode_nominatim(lat, lon)].  The [try] body yields
    [Some location_info] when it returns at line 61 and [None] when it
    falls through to line 66. *)
Definition reverse_geocode_nominatim (lat lon : pyfloat) : M pyval :=
  hit ← cache_lookup (cache_key lat lon);
  match hit with
  | Some v => mret v
  | None =>
      returned ← try_except
        (response ← requests_get_nominatim lat lon;
         _ ← sleep 1;
         let '(status_code, _, json) := response in
         if Z.eqb status_code 200 then
           data ← lift json;
           location_info ← lift (build_location_info data);
           _ ← cache_store (cache_key lat lon) location_info;
           mret (Some location_info)
         else mret None)
        (fun e => _ ← print (geocoding_warning lat lon e); mret None);
      match returned with
      | Some location_info => mret location_info
      | None => mret (fallback_location lat lon)
      end
  end.

(** *** [SDWANSiteExtractorWithGeo]: the controller client *)

(** [authenticate()] *)
Definition authenticate : M bool :=
  response ← http (login_response net);
  let '(status_code, _, _) := response in
  if Z.eqb status_code 200 then
    token_reply ← http (token_response net);
    let '(token_status, token_text, _) := token_reply in
    if Z.eqb token_status 200 then
      _ ← set_token token_text;
      mret true
    else mret false
  else mret false.

(** [get_devices()]: the decoded body, or [None]. *)
Definition get_devices : M pyval :=
  response ← http (devices_response net);
  let '(status_code, _, json) := response in
  if Z.eqb status_code 200 then lift json else mret PNone.

(** [get_tloc_data()] *)
Definition get_tloc_data : M pyval :=
  response ← http (tloc_response net);
  let '(status_code, _, json) := response in
  if Z.eqb status_code 200 then lift json else mret PNone.

(** *** The [sites] defaultdict *)

Definition default_site : site :=
  {| devices := []; location := None; geocoded_location := None;
     site_type := "unknown" |}.

Fixpoint sites_find (k : hkey) (sites : site_map) : option site :=
  match sites with
  | [] => None
  | (stored, s) :: rest =>
      if same_key k stored then Some s else sites_find k rest
  end.

Fixpoint sites_alter (f : site -> site) (k : hkey) (sites : site_map) : site_map :=
  match sites with
  | [] => []
  | (stored, s) :: rest =>
      if same_key k stored then (stored, f s) :: rest
      else (stored, s) :: sites_alter f k rest
  end.

(** [sites[site_id]]: hashes the key, and creates the default entry at the
    end of the mapping when the key is new. *)
Definition sites_getitem (sites : site_map) (site_id : pyval)
  : exn (hkey * site * site_map) :=
  k ← dict_key site_id;
  match sites_find k sites with
  | Some s => mret (k, s, sites)
  | None => mret (k, default_site, (sites ++ [(site_id, default_site)])%list)
  end.

Definition set_location (l : location_info) (g : pyval) (s : site) : site :=
  {| devices := devices s; location := Some l; geocoded_location := Some g;
     site_type := site_type s |}.

Definition set_site_type (t : string) (s : site) : site :=
  {| devices := devices s; location := location s;
     geocoded_location := geocoded_location s; site_type := t |}.

Definition append_device (d : device_info) (s : site) : site :=
  {| devices := devices s ++ [d]; location := location s;
     geocoded_location := geocoded_location s; site_type := site_type s |}.

Definition is_control_type (v : pyval) : bool :=
  eq_str v "vmanage" || eq_str v "vsmart" || eq_str v "vbond".

(** [device.get('latitude') and device.get('longitude')], as a condition. *)
Definition has_coordinates (device : pyval) : exn bool :=
  lat ← py_get_none device "latitude";
  if truthy lat then
    lon ← py_get_none device "longitude";
    mret (truthy lon)
  else mret false.

(** The location branch of the loop body (lines 178-198): the updated
    mapping and the device's ['location'] entry, if any. *)
Definition process_location (sites : site_map) (site_id device : pyval)
  : M (site_map * option location_info) :=
  coords ← lift (has_coordinates device);
  if (coords : bool) then
    lat ← lift (py_get_none device "latitude" ≫= py_float);
    lon ← lift (py_get_none device "longitude" ≫= py_float);
    gps ← lift (py_get device "isDeviceGeoData" (PBool false));
    _ ← print ("   Geocoding " +:+ float_repr lat +:+ ", " +:+ float_repr lon
               +:+ "...");
    geocoded ← reverse_geocode_nominatim lat lon;
    let location_info :=
      {| latitude := lat; longitude := lon; is_device_gps := gps;
         geocoded := geocoded |} in
    '(k, s, sites) ← lift (sites_getitem sites site_id);
    let sites :=
      match location s with
      | None => sites_alter (set_location location_info geocoded) k sites
      | Some _ => sites
      end in
    mret (sites, Some location_info)
  else mret (sites, None).

(** The site type branch (lines 200-204). *)
Definition classify_site (sites : site_map) (site_id device : pyval)
  : exn site_map :=
  ty ← py_get_none device "device-type";
  if is_control_type ty then
    '(k, _, sites) ← sites_getitem sites site_id;
    mret (sites_alter (set_site_type "control_plane") k sites)
  else
    '(k, s, sites) ← sites_getitem sites site_id;
    if String.eqb (site_type s) "unknown"
    then mret (sites_alter (set_site_type "branch") k sites)
    else mret sites.

(** One iteration of the device loop (lines 162-206); [i] counts from 0. *)
Definition process_device (total : nat) (sites : site_map) (i : nat)
    (device : pyval) : M site_map :=
  site_id ← lift (py_get device "site-id" (PStr "unknown"));
  shown ← lift (py_get device "host-name" (PStr "Unknown"));
  _ ← print ("Processing device " +:+ pretty (S i) +:+ "/" +:+ pretty total
             +:+ ": " +:+ py_str shown);
  hostname ← lift (py_get device "host-name" (PStr "N/A"));
  system_ip ← lift (py_get device "system-ip" (PStr "N/A"));
  device_type ← lift (py_get device "device-type" (PStr "N/A"));
  device_model ← lift (py_get device "device-model" (PStr "N/A"));
  reachability ← lift (py_get device "reachability" (PStr "N/A"));
  version ← lift (py_get device "version" (PStr "N/A"));
  platform ← lift (py_get device "platform" (PStr "N/A"));
  '(sites, loc) ← process_location sites site_id device;
  let device_info :=
    {| hostname := hostname; system_ip := system_ip;
       device_type := device_type; device_model := device_model;
       reachability := reachability; version := version;
       platform := platform; dev_location := loc; tloc_info := None |} in
  sites ← lift (classify_site sites site_id device);
  '(k, _, sites) ← lift (sites_getitem sites site_id);
  mret (sites_alter (append_device device_info) k sites).

(** The device loop, from index [i] on. *)
Fixpoint process_devices (total : nat) (sites : site_map) (i : nat)
    (items : list pyval) : M site_map :=
  match items with
  | [] => mret sites
  | device :: rest =>
      sites ← process_device total sites i device;
      process_devices total sites (S i) rest
  end.

(** *** Topology links (lines 208-227) *)

(** [tloc_by_system_ip], keyed by the hashed system IP. *)
Definition tloc_index : Type := list (hkey * list tloc_summary).

Fixpoint tloc_find (k : hkey) (index : tloc_index) : option (list tloc_summary) :=
  match index with
  | [] => None
  | (k', l) :: rest => if bool_decide (k' = k) then Some l else tloc_find k rest
  end.

Fixpoint tloc_append (k : hkey) (t : tloc_summary) (index : tloc_index)
  : tloc_index :=
  match index with
  | [] => [(k, [t])]
  | (k', l) :: rest =>
      if bool_decide (k' = k) then (k', (l ++ [t])%list) :: rest
      else (k', l) :: tloc_append k t rest
  end.

(** One iteration of the loop over [tloc_data['data']]. *)
Definition index_tloc (index : tloc_index) (tloc : pyval) : exn tloc_index :=
  ip ← py_get_none tloc "system-ip";
  if truthy ip then
    k ← dict_key ip;
    c ← py_get tloc "color" (PStr "N/A");
    cc ← py_get tloc "controlConnectionsUp" (PInt 0);
    bfd ← py_get tloc "bfdSessionsUp" (PInt 0);
    mret (tloc_append k {| color := c; control_connections_up := cc;
                           bfd_sessions_up := bfd |} index)
  else mret index.

Fixpoint index_tlocs (index : tloc_index) (items : list pyval) : exn tloc_index :=
  match items with
  | [] => mret index
  | tloc :: rest => index ← index_tloc index tloc; index_tlocs index rest
  end.

Definition build_tloc_index (tloc_data : pyval) : exn tloc_index :=
  present ← (if truthy tloc_data then py_contains tloc_data "data"
             else mret false);
  if (present : bool) then
    data ← py_getitem tloc_data "data";
    items ← py_iter data;
    index_tlocs [] items
  else mret [].

(** [if system_ip in tloc_by_system_ip: device['tloc_info'] = ...] *)
Definition attach_tloc (index : tloc_index) (d : device_info) : exn device_info :=
  k ← dict_key (system_ip d);
  match tloc_find k index with
  | Some l =>
      mret {| hostname := hostname d; system_ip := system_ip d;
              device_type := device_type d; device_model := device_model d;
              reachability := reachability d; version := version d;
              platform := platform d; dev_location := dev_location d;
              tloc_info := Some l |}
  | None => mret d
  end.

Fixpoint attach_tloc_devices (index : tloc_index) (ds : list device_info)
  : exn (list device_info) :=
  match ds with
  | [] => mret []
  | d :: rest =>
      d' ← attach_tloc index d;
      rest' ← attach_tloc_devices index rest;
      mret (d' :: rest')
  end.

Fixpoint attach_tloc_sites (index : tloc_index) (sites : site_map)
  : exn site_map :=
  match sites with
  | [] => mret []
  | (k, s) :: rest =>
      ds ← attach_tloc_devices index (devices s);
      rest' ← attach_tloc_sites index rest;
      mret ((k, {| devices := ds; location := location s;
                   geocoded_location := geocoded_location s;
                   site_type := site_type s |}) :: rest')
  end.

(** [extract_sites_with_geocoding()]: [None] or the mapping. *)
Definition extract_sites_with_geocoding : M (option site_map) :=
  _ ← print "Getting device data...";
  devices_data ← get_devices;
  unusable ← lift (if negb (truthy devices_data) then mret true
                   else negb <$> py_contains devices_data "data");
  if (unusable : bool) then
    _ ← print "ERROR: Failed to get device data";
    mret None
  else
    _ ← print "Getting TLOC data...";
    tloc_data ← get_tloc_data;
    _ ← print "Processing devices and geocoding locations...";
    data ← lift (py_getitem devices_data "data");
    items ← lift (py_iter data);
    sites ← process_devices (length items) [] 0 items;
    index ← lift (build_tloc_index tloc_data);
    sites ← lift (attach_tloc_sites index sites);
    mret (Some sites).

(** *** [print_geocoded_site_report(sites)] *)

Definition device_lines (d : device_info) : list string :=
  let status := if eq_str (reachability d) "reachable" then "ONLINE"
                else "OFFLINE" in
  [ "   [" +:+ status +:+ "] " +:+ py_str (hostname d)
      +:+ " (" +:+ py_str (device_type d) +:+ ")";
    "      System IP: " +:+ py_str (system_ip d)
      +:+ ", Model: " +:+ py_str (device_model d);
    "      Version: " +:+ py_str (version d)
      +:+ ", Platform: " +:+ py_str (platform d) ].

Definition tloc_lines (d : device_info) : list string :=
  match tloc_info d with
  | Some links =>
      "      Network Connections:"
      :: map (fun t => "        " +:+ py_str (color t) +:+ ": "
                       +:+ py_str (control_connections_up t) +:+ " control, "
                       +:+ py_str (bfd_sessions_up t) +:+ " BFD") links
  | None => []
  end.

(** [site_info['location']], subscripted. *)
Definition site_location (s : site) : exn location_info :=
  match location s with
  | Some l => inr l
  | None => inl (TypeError "'NoneType' object is not subscriptable")
  end.

Fixpoint print_all (lines : list string) : M unit :=
  match lines with
  | [] => mret tt
  | l :: rest => _ ← print l; print_all rest
  end.

(** The city, postal code lines shared by both groups (lines 257-259 and
    281-283). *)
Definition print_city (geo : pyval) : M unit :=
  city ← lift (py_getitem geo "city");
  state ← lift (py_getitem geo "state");
  country ← lift (py_getitem geo "country");
  code ← lift (py_getitem geo "country_code");
  _ ← print ("   City: " +:+ py_str city +:+ ", " +:+ py_str state +:+ ", "
             +:+ py_str country +:+ " " +:+ py_str code);
  postcode ← lift (py_getitem geo "postcode");
  if truthy postcode
  then postcode ← lift (py_getitem geo "postcode");
       print ("   Postal Code: " +:+ py_str postcode)
  else mret tt.

Definition print_site_header (k : pyval) (s : site) : M unit :=
  print (nl +:+ "Site " +:+ py_str k +:+ " (" +:+ pretty (length (devices s))
         +:+ " devices)").

(** The body of the loop over [control_sites.items()]. *)
Definition print_control_site (entry : pyval * site) : M unit :=
  let '(k, s) := entry in
  _ ← print_site_header k s;
  _ ← match geocoded_location s with
      | Some geo =>
          if truthy geo then
            formatted ← lift (py_getitem geo "formatted_address");
            _ ← print ("   Location: " +:+ py_str formatted);
            _ ← print_city geo;
            loc ← lift (site_location s);
            print ("   Coordinates: " +:+ float_repr (latitude loc) +:+ ", "
                   +:+ float_repr (longitude loc))
          else mret tt
      | None => mret tt
      end;
  print_all (concat (map device_lines (devices s))).

(** The body of the loop over [branch_sites.items()]. *)
Definition print_branch_site (entry : pyval * site) : M unit :=
  let '(k, s) := entry in
  _ ← print_site_header k s;
  _ ← match geocoded_location s with
      | Some geo =>
          if truthy geo then
            loc ← lift (site_location s);
            let gps_type := if truthy (is_device_gps loc) then "Device GPS"
                            else "Site Location" in
            formatted ← lift (py_getitem geo "formatted_address");
            _ ← print ("   " +:+ gps_type +:+ ": " +:+ py_str formatted);
            _ ← print_city geo;
            print ("   Coordinates: " +:+ float_repr (latitude loc) +:+ ", "
                   +:+ float_repr (longitude loc))
          else mret tt
      | None => mret tt
      end;
  print_all (concat (map (fun d => device_lines d ++ tloc_lines d)%list
                         (devices s))).

Fixpoint for_each {A} (body : A -> M unit) (items : list A) : M unit :=
  match items with
  | [] => mret tt
  | x :: rest => _ ← body x; for_each body rest
  end.

Definition print_geocoded_site_report (sites : site_map) : M unit :=
  _ ← print (nl +:+ str_mul "=" 80);
  _ ← print "CISCO SD-WAN SITES WITH GEOCODED LOCATIONS";
  _ ← print (str_mul "=" 80);
  _ ← print (nl +:+ "Summary: " +:+ pretty (length sites) +:+ " sites discovered");
  let control_sites :=
    filter (fun e => String.eqb (site_type (snd e)) "control_plane" = true) sites in
  let branch_sites :=
    filter (fun e => String.eqb (site_type (snd e)) "branch" = true) sites in
  _ ← print ("   Control Plane Sites: " +:+ pretty (length control_sites));
  _ ← print ("   Branch Sites: " +:+ pretty (length branch_sites));
  _ ← match control_sites with
      | [] => mret tt
      | _ =>
          _ ← print (nl +:+ "CONTROL PLANE SITES");
          _ ← print (str_mul "-" 40);
          for_each print_control_site control_sites
      end;
  match branch_sites with
  | [] => mret tt
  | _ =>
      _ ← print (nl +:+ "BRANCH SITES");
      _ ← print (str_mul "-" 40);
      for_each print_branch_site branch_sites
  end.

(** *** [generate_location_summary(sites)] *)

(** A [defaultdict(list)] of site labels: insertion ordered, keyed by the
    value that created the group. *)
Definition groups : Type := list (pyval * list string).

(** [g[key].append(label)] where [k] is the hash key of [key]. *)
Fixpoint group_append (k : hkey) (key : pyval) (label : string) (g : groups)
  : groups :=
  match g with
  | [] => [(key, [label])]
  | (stored, labels) :: rest =>
      if same_key k stored then (stored, (labels ++ [label])%list) :: rest
      else (stored, labels) :: group_append k key label rest
  end.

Definition is_number (v : pyval) : option (Z + pyfloat) :=
  match v with
  | PBool b => Some (inl (if b then 1 else 0))
  | PInt n => Some (inl n)
  | PFloat x => Some (inr x)
  | _ => None
  end.

(** [a < b]; strings compare by code point, which is the byte order of
    their UTF-8 encoding. *)
Definition py_lt (a b : pyval) : exn bool :=
  match a, b with
  | PStr s, PStr t => inr (String.ltb s t)
  | _, _ =>
      match is_number a, is_number b with
      | Some (inl m), Some (inl n) => inr (Z.ltb m n)
      | Some x, Some y => inr (float_lt x y)
      | _, _ =>
          inl (TypeError ("'<' not supported between instances of "
                          +:+ squote (type_name a) +:+ " and "
                          +:+ squote (type_name b)))
      end
  end.

(** [sorted(g.items())].  The keys of a dict are pairwise different, so
    the tuples are ordered by their keys alone.  The result of a sort does
    not depend on the algorithm when the keys are totally ordered, and any
    algorithm meets two keys that do not compare when there are such. *)
Fixpoint insert_sorted (x : pyval * list string) (l : groups) : exn groups :=
  match l with
  | [] => mret [x]
  | y :: rest =>
      lt ← py_lt (fst x) (fst y);
      if (lt : bool) then mret (x :: y :: rest)
      else rest' ← insert_sorted x rest; mret (y :: rest')
  end.

Fixpoint py_sorted (l : groups) : exn groups :=
  match l with
  | [] => mret []
  | x :: rest => rest' ← py_sorted rest; insert_sorted x rest'
  end.

(** The loop over [sites.items()] (lines 307-314): the [countries] and the
    [cities] groups. *)
Fixpoint collect_groups (sites : site_map) (countries cities : groups)
  : exn (groups * groups) :=
  match sites with
  | [] => mret (countries, cities)
  | (site_id, s) :: rest =>
      match geocoded_location s with
      | Some geo =>
          if truthy geo then
            country ← py_getitem geo "country";
            city ← py_getitem geo "city";
            k ← dict_key country;
            let label := "Site " +:+ py_str site_id in
            let countries := group_append k country label countries in
            state ← py_getitem geo "state";
            let city_label := py_str city +:+ ", " +:+ py_str state +:+ ", "
                              +:+ py_str country in
            let cities := group_append (KStr city_label) (PStr city_label)
                                       label cities in
            collect_groups rest countries cities
          else collect_groups rest countries cities
      | None => collect_groups rest countries cities
      end
  end.

Definition group_line (g : pyval * list string) : string :=
  "   " +:+ py_str (fst g) +:+ ": " +:+ join_str ", " (snd g).

Definition generate_location_summary (sites : site_map) : M unit :=
  _ ← print (nl +:+ "LOCATION SUMMARY");
  _ ← print (str_mul "-" 40);
  '(countries, cities) ← lift (collect_groups sites [] []);
  _ ← print (nl +:+ "Countries (" +:+ pretty (length countries) +:+ "):");
  sorted_countries ← lift (py_sorted countries);
  _ ← print_all (map group_line sorted_countries);
  _ ← print (nl +:+ "Cities (" +:+ pretty (length cities) +:+ "):");
  sorted_cities ← lift (py_sorted cities);
  print_all (map group_line sorted_cities).

(** *** [print_api_usage_guide()] *)

Definition guide : string :=
  nl +:+ join_str nl [
  "PROBLEM: No single API endpoint provides Network Hierarchy site list";
  "";
  "SOLUTION: Multi-step API approach with geocoding enhancement";
  "";
  "REQUIRED API CALLS:";
  "";
  "1. PRIMARY: GET /dataservice/device";
  "   - Returns all devices with site-id, location, and device details";
  "   - This is your main data source for site hierarchy";
  "   - Group devices by site-id to create site structure";
  "";
  "2. SUPPLEMENTARY: GET /dataservice/device/tloc  ";
  "   - Provides network topology and connection information";
  "   - Useful for understanding site connectivity";
  "   - Links to devices via system-ip";
  "";
  "3. GEOCODING: Reverse geocode GPS coordinates to addresses";
  "   - OpenStreetMap Nominatim (free, no API key)";
  "   - Google Maps, HERE, MapBox (premium options)";
  "";
  "IMPLEMENTATION STEPS:";
  "";
  "Step 1: Authenticate and get device list";
  "Step 2: Parse device data and group by site-id";
  "Step 3: Extract location data (latitude/longitude)";
  "Step 4: Reverse geocode coordinates to city/address";
  "Step 5: Categorize sites (control plane vs branch)";
  "Step 6: Supplement with TLOC data for network topology";
  "Step 7: Build hierarchical site structure with location info";
  "";
  "KEY INSIGHTS:";
  "";
  "- Site hierarchy is implicit in the data, not explicit";
  "- site-id is the primary grouping mechanism";
  "- Location data comes from device GPS or site coordinates";
  "- Geocoding converts coordinates to human-readable addresses";
  "- Device types help categorize site purposes";
  "- Multiple API calls are required - no single endpoint solution";
  "";
  "LIMITATIONS:";
  "";
  "- No dedicated " +:+ dq +:+ "Network Hierarchy" +:+ dq +:+ " API endpoint";
  "- Site names must be inferred or manually mapped";
  "- Hierarchical relationships beyond site-id not available via API";
  "- Some site metadata may only be available in the UI";
  "- Geocoding adds external dependency and potential rate limits";
  "" ].

Definition print_api_usage_guide : M unit :=
  _ ← print (nl +:+ str_mul "=" 80);
  _ ← print "API USAGE GUIDE - EXTRACTING SITE HIERARCHY WITH GEOCODING";
  _ ← print (str_mul "=" 80);
  print guide.

(** *** [main()] *)

Definition BASE_URL : string := "https://sandbox-sdwan-2.cisco.com".
Definition output_file : string :=
  "/Users/stuartclark/Downloads/sdwan_sites_geocoded_clean.json".

(** [with open(output_file, 'w') as f: json.dump(sites, f, indent=2)]; the
    world records the structure that was serialised. *)
Definition save_results (sites : site_map) : M unit :=
  match open_output net with
  | Some e => raise e
  | None => write_file output_file sites
  end.

Definition main : M unit :=
  _ ← print "Cisco SD-WAN Site Hierarchy Extraction with Geocoding";
  _ ← print ("Target: " +:+ BASE_URL);
  _ ← print (nl +:+ "Authenticating...");
  authenticated ← authenticate;
  _ ← (if (authenticated : bool) then mret tt
       else _ ← print "ERROR: Authentication failed"; sys_exit 1);
  _ ← print "SUCCESS: Authentication successful";
  _ ← print (nl +:+ "Extracting sites with location mapping...");
  sites ← extract_sites_with_geocoding;
  match sites with
  | Some (entry :: entries) =>
      let sites := entry :: entries in
      _ ← print_geocoded_site_report sites;
      _ ← generate_location_summary sites;
      _ ← save_results sites;
      _ ← print (nl +:+ "Sites with geocoded locations saved to: " +:+ output_file);
      _ ← print_api_usage_guide;
      print (nl +:+ "CONCLUSION: Site locations successfully mapped to cities and addresses!")
  | _ => print "ERROR: Failed to extract site hierarchy"
  end.


(** *** Notions used in the statements *)

(** The ways a reverse-geocoding lookup fails, with the exception the
    handler receives when there is one: a transport error, a status that
    is not 200, a body that does not decode, or a decoded body from which
    the location cannot be built. *)
Inductive lookup_failure : http_result -> option pyexc -> Prop :=
  | transport_error e :
      lookup_failure (HttpRaises e) (Some e)
  | non_success_status status text json :
      status <> 200 ->
      lookup_failure (HttpResponse status text json) None
  | undecodable_body text e :
      lookup_failure (HttpResponse 200 text (inl e)) (Some e)
  | unusable_body text data e :
      build_location_info data = inl e ->
      lookup_failure (HttpResponse 200 text (inr data)) (Some e).

(** The lookup succeeds and resolves to [info]. *)
Definition lookup_success (r : http_result) (info : pyval) : Prop :=
  exists text data,
    r = HttpResponse 200 text (inr data) /\ build_location_info data = inr info.

Definition geo_fields : list string :=
  ["display_name"; "city"; "state"; "country"; "country_code"; "postcode";
   "formatted_address"].

(** A dict with exactly the seven GeoLocation fields. *)
Definition populated (v : pyval) : Prop :=
  exists d, v = PDict d /\ map fst d = geo_fields.

Definition cache_populated (w : world) : Prop :=
  forall k v, cache w !! k = Some v -> populated v.

(** The key [k] is missing from the dict [v]. *)
Definition lacks (v : pyval) (k : string) : Prop :=
  exists d, v = PDict d /\ assoc k d = None.

(** The hashed site key of a raw device. *)
Definition device_key (device : pyval) : exn hkey :=
  py_get device "site-id" (PStr "unknown") ≫= dict_key.

(** The raw device carries one of the three control-plane types. *)
Definition is_control (device : pyval) : bool :=
  match py_get_none device "device-type" with
  | inr ty => is_control_type ty
  | inl _ => false
  end.

(** [d] is the normalized record of the raw [device]: its seven
    attributes, and a location exactly when the coordinate test passes. *)
Definition records (device : pyval) (d : device_info) : Prop :=
  py_get device "host-name" (PStr "N/A") = inr (hostname d)
  /\ py_get device "system-ip" (PStr "N/A") = inr (system_ip d)
  /\ py_get device "device-type" (PStr "N/A") = inr (device_type d)
  /\ py_get device "device-model" (PStr "N/A") = inr (device_model d)
  /\ py_get device "reachability" (PStr "N/A") = inr (reachability d)
  /\ py_get device "version" (PStr "N/A") = inr (version d)
  /\ py_get device "platform" (PStr "N/A") = inr (platform d)
  /\ match dev_location d with
     | None => has_coordinates device = inr false
     | Some l =>
         has_coordinates device = inr true
         /\ py_get_none device "latitude" ≫= py_float = inr (latitude l)
         /\ py_get_none device "longitude" ≫= py_float = inr (longitude l)
         /\ py_get device "isDeviceGeoData" (PBool false) = inr (is_device_gps l)
     end.

(** What an iteration on [device], recorded as [d], makes of the entry
    [s] of its site. *)
Definition step_site (device : pyval) (d : device_info) (s : site) : site :=
  {| devices := devices s ++ [d];
     location := match location s with
                 | Some l => Some l
                 | None => dev_location d
                 end;
     geocoded_location := match location s, dev_location d with
                          | None, Some l => Some (geocoded l)
                          | _, _ => geocoded_location s
                          end;
     site_type := if is_control device then "control_plane"
                  else if String.eqb (site_type s) "unknown" then "branch"
                  else site_type s |}.

(** The devices recorded for the key [k]. *)
Definition devices_of (k : hkey) (sites : site_map) : list device_info :=
  match sites_find k sites with
  | Some s => devices s
  | None => []
  end.

(** The raw device belongs to the site of key [k]. *)
Definition of_site (k : hkey) (device : pyval) : bool :=
  match device_key device with
  | inr k' => bool_decide (k' = k)
  | inl _ => false
  end.

(** The record [d] without its topology links. *)
Definition without_tloc (d : device_info) : device_info :=
  {| hostname := hostname d; system_ip := system_ip d;
     device_type := device_type d; device_model := device_model d;
     reachability := reachability d; version := version d;
     platform := platform d; dev_location := dev_location d;
     tloc_info := None |}.

(** The devices the inventory fetch hands to the loop, when it does. *)
Definition fetched_devices : option (list pyval) :=
  match devices_response net with
  | HttpResponse status _ (inr data) =>
      if Z.eqb status 200 then
        match py_getitem data "data" ≫= py_iter with
        | inr items => Some items
        | inl _ => None
        end
      else None
  | _ => None
  end.

(** The site entry is consistent with its device list: its location is
    that of the first recorded device that has one. *)
Definition first_wins (s : site) : Prop :=
  location s = head (omap dev_location (devices s))
  /\ geocoded_location s = geocoded <$> location s.

Definition all_first_wins (sites : site_map) : Prop :=
  forall k s, sites_find k sites = Some s -> first_wins s.

(** The device lists follow the input: for every key, the records of
    the site are those of the processed devices of that key, in order. *)
Definition follows_input (processed : list pyval) (sites : site_map) : Prop :=
  forall k,
    Forall2 records (filter (fun dv => of_site k dv = true) processed)
            (devices_of k sites).

(** The dict without the key [k]. *)
Fixpoint dict_remove (k : string) (d : list (string * pyval))
  : list (string * pyval) :=
  match d with
  | [] => []
  | (k', v) :: rest =>
      if String.eqb k' k then dict_remove k rest
      else (k', v) :: dict_remove k rest
  end.

(** The raw device without its two coordinate fields. *)
Definition strip_coordinates (d : list (string * pyval)) : list (string * pyval) :=
  dict_remove "latitude" (dict_remove "longitude" d).


(** The call was answered with status 200. *)
Definition status_ok (r : http_result) : Prop :=
  exists text json, r = HttpResponse 200 text json.

(** The call was answered with another status. *)
Definition status_not_ok (r : http_result) : Prop :=
  exists status text json, r = HttpResponse status text json /\ status <> 200.

(** What a run prints up to the inventory fetch when authentication
    succeeds. *)
Definition banner : list string :=
  ["Cisco SD-WAN Site Hierarchy Extraction with Geocoding";
   "Target: " +:+ BASE_URL;
   nl +:+ "Authenticating...";
   "SUCCESS: Authentication successful";
   nl +:+ "Extracting sites with location mapping...";
   "Getting device data..."].


(** The geocoded location the summary reads, for a site that has one. *)
Definition summary_geo (s : site) : option pyval :=
  match geocoded_location s with
  | Some geo => if truthy geo then Some geo else None
  | None => None
  end.

(** The label of the city group of a geocoded location. *)
Definition city_label (geo : pyval) : exn string :=
  city ← py_getitem geo "city";
  state ← py_getitem geo "state";
  country ← py_getitem geo "country";
  mret (py_str city +:+ ", " +:+ py_str state +:+ ", " +:+ py_str country).







Definition string_keyed (g : groups) : Prop :=
  Forall (fun e => exists label, fst e = PStr label) g.

(** The type the loop gives the site of key [k] after the devices
    [processed]: control_plane when one of the site's devices carries a
    control-plane type, branch otherwise. *)
Definition expected_type (k : hkey) (processed : list pyval) : string :=
  if existsb (fun dv => of_site k dv && is_control dv) processed
  then "control_plane" else "branch".

(** The entries of the mapping are those of the keys met so far, none is
    empty and each has the type its devices give it. *)
Definition typed_by_input (processed : list pyval) (sites : site_map) : Prop :=
  forall k,
    match sites_find k sites with
    | None => filter (fun dv => of_site k dv = true) processed = []
    | Some s => devices s <> [] /\ site_type s = expected_type k processed
    end.

(** The summary a topology record contributes and the key it is filed
    under; a record without a truthy system-ip contributes nothing. *)
Definition tloc_entry (tloc : pyval) : option (hkey * tloc_summary) :=
  match tloc with
  | PDict d =>
      let ip := default PNone (assoc "system-ip" d) in
      if truthy ip then
        match dict_key ip with
        | inr k =>
            Some (k, {| color := default (PStr "N/A") (assoc "color" d);
                        control_connections_up :=
                          default (PInt 0) (assoc "controlConnectionsUp" d);
                        bfd_sessions_up :=
                          default (PInt 0) (assoc "bfdSessionsUp" d) |})
        | inl _ => None
        end
      else None
  | _ => None
  end.

(** The summaries of the topology records of the system IP [k], in the
    order of the records. *)
Definition links_of (k : hkey) (entries : list pyval) : list tloc_summary :=
  omap (fun tloc => match tloc_entry tloc with
                    | Some (k', t) => if decide (k' = k) then Some t else None
                    | None => None
                    end) entries.

(** Every device of the mapping has a system IP that can be hashed. *)
Definition hashable_ips (sites : site_map) : Prop :=
  Forall (fun e => Forall (fun d => exists k, dict_key (system_ip d) = inr k)
                          (devices (snd e))) sites.

(** [d'] is the record [d] after the topology phase with [index]: the
    same record, with the links of its system IP when the index has
    some. *)
Definition linked (index : tloc_index) (d d' : device_info) : Prop :=
  without_tloc d' = without_tloc d
  /\ exists k, dict_key (system_ip d) = inr k
       /\ tloc_info d' = match tloc_find k index with
                         | Some links => Some links
                         | None => tloc_info d
                         end.

(** The entry [e'] is the entry [e] after the topology phase. *)
Definition site_linked (index : tloc_index) (e e' : pyval * site) : Prop :=
  fst e' = fst e
  /\ location (snd e') = location (snd e)
  /\ geocoded_location (snd e') = geocoded_location (snd e)
  /\ site_type (snd e') = site_type (snd e)
  /\ Forall2 (linked index) (devices (snd e)) (devices (snd e')).

(** The world in which [main], started in [w], calls the extraction
    after an authentication that stored the token [text]. *)
Definition extraction_start (w : world) (text : string) : world :=
  {| stdout := stdout w ++
       ["Cisco SD-WAN Site Hierarchy Extraction with Geocoding";
        "Target: " +:+ BASE_URL;
        nl +:+ "Authenticating...";
        "SUCCESS: Authentication successful";
        nl +:+ "Extracting sites with location mapping..."];
     cache := cache w; geo_calls := geo_calls w; slept := slept w;
     token := Some text; written := written w |}.

(** Where a run of [main] started in [w] may end, as far as the files
    are concerned: nothing was written, or the run returned and wrote to
    the output file the mapping, which is not empty, that its own call
    of the extraction returned. *)
Definition exported (w : world) (r : outcome unit * world) : Prop :=
  written (snd r) = written w
  \/ (fst r = Ret tt
      /\ open_output net = None
      /\ exists t1 j1 text json sites w1,
           login_response net = HttpResponse 200 t1 j1
           /\ token_response net = HttpResponse 200 text json
           /\ extract_sites_with_geocoding (extraction_start w text)
              = (Ret (Some sites), w1)
           /\ sites <> []
           /\ written (snd r) = (written w ++ [(output_file, sites)])%list).

(** The report can print the site: its geocoded location, when it has
    one, has the seven fields and comes with a location. *)
Definition reportable (s : site) : Prop :=
  match geocoded_location s with
  | Some geo => populated geo /\ is_Some (location s)
  | None => True
  end.

(** The summary can file the site: its geocoded location, when the
    summary reads it, has the seven fields and a text as country. *)
Definition summarisable (s : site) : Prop :=
  match summary_geo s with
  | Some geo =>
      populated geo /\ exists name, py_getitem geo "country" = inr (PStr name)
  | None => True
  end.

(** The hashed keys of the entries of the mapping, in its order. *)
Definition site_keys (sites : site_map) : list (exn hkey) :=
  map (fun e => dict_key (fst e)) sites.

(** The mapping is a dict: its keys are hashable and pairwise different. *)
Definition well_keyed (sites : site_map) : Prop :=
  NoDup (site_keys sites)
  /\ Forall (fun e => exists k, dict_key (fst e) = inr k) sites.

(** The first truthy value among the entries [keys] of a dict. *)
Fixpoint first_truthy (d : list (string * pyval)) (keys : list string)
  : option pyval :=
  match keys with
  | [] => None
  | k :: rest =>
      match assoc k d with
      | Some v => if truthy v then Some v else first_truthy d rest
      | None => first_truthy d rest
      end
  end.

(** The components an address contributes to its formatted form: the
    place, the region and the country, each when it has one. *)
Definition address_parts (d : list (string * pyval)) : list pyval :=
  omap (first_truthy d)
       [["city"; "town"; "village"; "hamlet"]; ["state"; "province"];
        ["country"]].

(** The raw device carries coordinates: the loop geocodes it. *)
Definition geocodable (device : pyval) : bool :=
  bool_decide (has_coordinates device = inr true).

(** What a computation that took the world from [w] to [w'] may have
    done: at most [n] calls to the geocoding service, one second of sleep
    at most for each call, and without sleeping when no call was made;
    entries added to the cache, none changed or dropped; lines added to
    the output; the session token and the written files left alone. *)
Definition paced (n : nat) (w w' : world) : Prop :=
  (geo_calls w <= geo_calls w' <= geo_calls w + n)%nat
  /\ (slept w <= slept w')%nat
  /\ (slept w' + geo_calls w <= slept w + geo_calls w')%nat
  /\ cache w ⊆ cache w'
  /\ stdout w `prefix_of` stdout w'
  /\ token w' = token w
  /\ written w' = written w.

(** The world after a series of reverse-geocoding calls. *)
Fixpoint run_calls (calls : list (pyfloat * pyfloat)) (w : world) : world :=
  match calls with
  | [] => w
  | (lat, lon) :: rest =>
      run_calls rest (snd (reverse_geocode_nominatim lat lon w))
  end.

End Program.
End Model.

(** ** A runtime to execute the model

    Floats as decimal fractions [mantissa / 10^scale], kept without
    trailing zeros.  On inputs written as [-?digits.digits] with at most
    fifteen significant digits this prints what CPython prints; it is used
    to run the model on examples and plays no part in the general
    theorems. *)
Module Decimal.

Definition t : Type := Z * nat.

Definition is_digit (c : ascii) : bool :=
  let n := nat_of_ascii c in (48 <=? n)%nat && (n <=? 57)%nat.

Definition digit_value (c : ascii) : Z := Z.of_nat (nat_of_ascii c) - 48.

Fixpoint digits_value (acc : Z) (cs : list ascii) : Z :=
  match cs with
  | [] => acc
  | c :: rest => digits_value (10 * acc + digit_value c) rest
  end.

Fixpoint normalise (fuel : nat) (m : Z) (scale : nat) : t :=
  match fuel, scale with
  | S fuel, S scale' =>
      if Z.eqb (m mod 10) 0 then normalise fuel (m / 10) scale' else (m, scale)
  | _, _ => (m, scale)
  end.

Fixpoint split_dot (cs : list ascii) : option (list ascii * list ascii) :=
  match cs with
  | [] => None
  | c :: rest =>
      if Ascii.eqb c "." then Some ([], rest)
      else match split_dot rest with
           | Some (a, b) => Some (c :: a, b)
           | None => None
           end
  end.

Definition parse_unsigned (cs : list ascii) : option t :=
  match split_dot cs with
  | Some (a, b) =>
      match a, b with
      | _ :: _, _ :: _ =>
          if forallb is_digit a && forallb is_digit b
          then Some (normalise (length b) (digits_value 0 (a ++ b)) (length b))
          else None
      | _, _ => None
      end
  | None => None
  end.

Definition of_str (s : string) : option t :=
  match list_ascii_of_string s with
  | c :: rest =>
      if Ascii.eqb c "-"
      then match parse_unsigned rest with
           | Some (m, k) => Some (- m, k)
           | None => None
           end
      else parse_unsigned (c :: rest)
  | [] => None
  end.

Fixpoint pad_zeros (n : nat) (s : string) : string :=
  match n with O => s | S n => pad_zeros n ("0" +:+ s) end.

Definition repr (x : t) : string :=
  let '(m, k) := x in
  let sign := if Z.ltb m 0 then "-" else "" in
  let ds := pretty (Z.abs m) in
  let ds := pad_zeros (S k - String.length ds) ds in
  let n := (String.length ds - k)%nat in
  sign +:+ substring 0 n ds +:+ "."
  +:+ (match k with O => "0" | _ => substring n k ds end).

Definition value_lt (a b : Z + t) : bool :=
  let scaled (x : Z + t) : Z * nat :=
    match x with inl n => (n, O) | inr y => y end in
  let '(m, j) := scaled a in
  let '(n, k) := scaled b in
  Z.ltb (m * 10 ^ Z.of_nat k) (n * 10 ^ Z.of_nat j).

Definition ascii_upper (c : ascii) : ascii :=
  let n := nat_of_ascii c in
  if (97 <=? n)%nat && (n <=? 122)%nat then ascii_of_nat (n - 32) else c.

Definition upper (s : string) : string :=
  string_of_list_ascii (map ascii_upper (list_ascii_of_string s)).

End Decimal.

(** ASCII text only for [upper], [repr] and [iter]. *)
#[global] Instance example_runtime : PyRuntime := {|
  pyfloat := Decimal.t;
  float_of_str := Decimal.of_str;
  float_of_int := fun n => Some (n, O);
  float_repr := Decimal.repr;
  float_nonzero := fun x => negb (Z.eqb (fst x) 0);
  float_as_int := fun x => match snd x with O => Some (fst x) | _ => None end;
  float_lt := Decimal.value_lt;
  str_upper := Decimal.upper;
  str_repr := squote;
  str_chars := fun s => map (fun c => String c "") (list_ascii_of_string s);
  str_upper_empty := eq_refl
|}.

(** ** Inputs for the examples *)
Module Examples.

Definition obj (fields : list (string * pyval)) : pyval := PDict fields.

Definition ok (body : pyval) : http_result := HttpResponse 200 "" (inr body).

Definition no_body : exn pyval := inl (JSONDecodeError "Expecting value").

(** San Francisco. *)
Definition sf_lat : pyfloat := (377749, 4%nat).
Definition sf_lon : pyfloat := (-1224194, 4%nat).

Definition sf_body : pyval :=
  obj [("display_name", PStr "San Francisco, California, United States");
       ("address", obj [("city", PStr "San Francisco");
                        ("state", PStr "California");
                        ("country", PStr "United States");
                        ("country_code", PStr "us")])].

(** An answer whose address has no component at all. *)
Definition bare_body : pyval := obj [("address", obj [])].

Definition rome_body : pyval :=
  obj [("display_name", PStr "Roma");
       ("address", obj [("city", PStr "Roma"); ("state", PStr "Lazio");
                        ("country", PStr "Italia");
                        ("country_code", PStr "it");
                        ("postcode", PStr "00100")])].

Definition r1 : pyval :=
  obj [("site-id", PStr "100"); ("host-name", PStr "r1");
       ("device-type", PStr "vedge");
       ("latitude", PStr "37.7749"); ("longitude", PStr "-122.4194")].

Definition r2 : pyval :=
  obj [("site-id", PStr "100"); ("host-name", PStr "r2");
       ("device-type", PStr "vedge")].

Definition manager : pyval :=
  obj [("site-id", PStr "100"); ("host-name", PStr "vm1");
       ("device-type", PStr "vmanage")].

Definition r3 : pyval :=
  obj [("site-id", PStr "100"); ("host-name", PStr "r3");
       ("device-type", PStr "vedge");
       ("latitude", PStr "41.9028"); ("longitude", PStr "12.4964")].

(** A device on the equator: its latitude is the number 0. *)
Definition equator : pyval :=
  obj [("site-id", PStr "7"); ("host-name", PStr "buoy");
       ("device-type", PStr "vedge");
       ("latitude", PInt 0); ("longitude", PStr "-122.4194")].


Definition milan : pyval :=
  obj [("site-id", PStr "200"); ("host-name", PStr "mi1");
       ("latitude", PStr "45.4642"); ("longitude", PStr "9.19")].

Definition rome : pyval :=
  obj [("site-id", PStr "100"); ("host-name", PStr "rm1");
       ("latitude", PStr "41.9028"); ("longitude", PStr "12.4964")].

Definition inventory (items : list pyval) : http_result :=
  ok (obj [("data", PList items)]).

(** A controller and a geocoder that answer every call. *)
Definition healthy (items : list pyval) (geo : pyval) : network :=
  {| nominatim := fun _ _ _ => ok geo;
     login_response := HttpResponse 200 "" no_body;
     token_response := HttpResponse 200 "A1B2C3" no_body;
     devices_response := inventory items;
     tloc_response := ok (obj [("data", PList [])]);
     open_output := None |}.

Definition with_geocoder (answer : http_result) (n : network) : network :=
  {| nominatim := fun _ _ _ => answer;
     login_response := login_response n; token_response := token_response n;
     devices_response := devices_response n; tloc_response := tloc_response n;
     open_output := open_output n |}.

Definition with_login (answer : http_result) (n : network) : network :=
  {| nominatim := nominatim n;
     login_response := answer; token_response := token_response n;
     devices_response := devices_response n; tloc_response := tloc_response n;
     open_output := open_output n |}.

Definition with_devices (answer : http_result) (n : network) : network :=
  {| nominatim := nominatim n;
     login_response := login_response n; token_response := token_response n;
     devices_response := answer; tloc_response := tloc_response n;
     open_output := open_output n |}.

Definition with_tloc (answer : http_result) (n : network) : network :=
  {| nominatim := nominatim n;
     login_response := login_response n; token_response := token_response n;
     devices_response := devices_response n; tloc_response := answer;
     open_output := open_output n |}.

Definition sf_net : network := healthy [r1; r2] sf_body.

Definition geocoder_503 : network :=
  with_geocoder (HttpResponse 503 "Service Unavailable" no_body) sf_net.

Definition geocoder_timeout : network :=
  with_geocoder (HttpRaises (RequestException "Read timed out.")) sf_net.

Definition geocoder_bare : network := with_geocoder (ok bare_body) sf_net.

Definition login_refused : network :=
  with_login (HttpRaises (RequestException "Connection refused")) sf_net.

Definition login_denied : network :=
  with_login (HttpResponse 401 "" no_body) sf_net.


Definition inventory_refused : network :=
  with_devices (HttpRaises (RequestException "Connection refused")) sf_net.

Definition tloc_refused : network :=
  with_tloc (HttpRaises (RequestException "Connection refused")) sf_net.


Definition italy_net : network := healthy [milan; rome] rome_body.

(** The mapping [extract_sites_with_geocoding] returns on [italy_net]. *)
Definition italy_sites : site_map :=
  Eval vm_compute in
    match fst (extract_sites_with_geocoding italy_net initial_world) with
    | Ret (Some sites) => sites
    | _ => []
    end.

(** *** What the model computes on these inputs *)

(** The loop over two routers, a manager and a third router of site 100. *)
Definition mixed_run : outcome site_map * world :=
  Eval vm_compute in
    process_devices sf_net 4 [] 0 ([r1; r2] ++ manager :: [r3]) initial_world.

Definition mixed_sites : site_map :=
  Eval vm_compute in match fst mixed_run with Ret sites => sites | _ => [] end.

(** The scenario of the specification: [r1] with coordinates, then [r2]. *)
Definition sf_run : outcome (option site_map) * world :=
  Eval vm_compute in extract_sites_with_geocoding sf_net initial_world.

Definition sf_sites : site_map :=
  Eval vm_compute in
    match fst sf_run with Ret (Some sites) => sites | _ => [] end.

Definition sf_site : site :=
  Eval vm_compute in
    default default_site (sites_find (KStr "100") sf_sites).

Definition sf_info : pyval :=
  Eval vm_compute in
    match build_location_info sf_body with inr info => info | inl _ => PNone end.

Definition bare_info : pyval :=
  Eval vm_compute in
    match build_location_info bare_body with inr info => info | inl _ => PNone end.

Definition rome_lat : pyfloat := (419028, 4%nat).
Definition rome_lon : pyfloat := (124964, 4%nat).

Definition loop_run : outcome site_map * world :=
  Eval vm_compute in process_devices sf_net 2 [] 0 [r1; r2] initial_world.


Definition equator_fields : list (string * pyval) :=
  [("site-id", PStr "7"); ("host-name", PStr "buoy");
   ("device-type", PStr "vedge");
   ("latitude", PInt 0); ("longitude", PStr "-122.4194")].

(** *** A run with topology links *)

Definition edge1 : pyval :=
  obj [("site-id", PStr "300"); ("host-name", PStr "edge1");
       ("system-ip", PStr "10.0.0.1"); ("device-type", PStr "vedge")].

Definition edge2 : pyval :=
  obj [("site-id", PStr "300"); ("host-name", PStr "edge2");
       ("system-ip", PStr "10.0.0.2"); ("device-type", PStr "vedge")].

(** Two links of [edge1], one record without a system IP, one link of a
    device that is not in the inventory. *)
Definition link_records : list pyval :=
  [obj [("system-ip", PStr "10.0.0.1"); ("color", PStr "mpls");
        ("controlConnectionsUp", PInt 2); ("bfdSessionsUp", PInt 4)];
   obj [("color", PStr "lte")];
   obj [("system-ip", PStr "10.0.0.9"); ("color", PStr "gold")];
   obj [("system-ip", PStr "10.0.0.1"); ("color", PStr "biz-internet")]].

Definition topology : pyval := obj [("data", PList link_records)].

Definition topology_net : network :=
  with_tloc (ok topology) (healthy [edge1; edge2] sf_body).

Definition topology_index : tloc_index :=
  Eval vm_compute in
    match build_tloc_index topology with inr index => index | inl _ => [] end.

(** The mapping after the device loop, before the topology phase. *)
Definition edge_sites : site_map :=
  Eval vm_compute in
    match fst (process_devices topology_net 2 [] 0 [edge1; edge2] initial_world)
    with Ret sites => sites | _ => [] end.

Definition edge_linked : site_map :=
  Eval vm_compute in
    match attach_tloc_sites topology_index edge_sites with
    | inr sites => sites
    | inl _ => []
    end.

(** A router, a manager of the same site and a router of another site. *)
Definition campus_net : network := healthy [r1; manager; milan] sf_body.

Definition campus_run : outcome (option site_map) * world :=
  Eval vm_compute in extract_sites_with_geocoding campus_net initial_world.

Definition campus_sites : site_map :=
  Eval vm_compute in
    match fst campus_run with Ret (Some sites) => sites | _ => [] end.

(** The address of the San Francisco answer. *)
Definition sf_address : pyval :=
  obj [("city", PStr "San Francisco"); ("state", PStr "California");
       ("country", PStr "United States"); ("country_code", PStr "us")].

(** A controller that manages no device. *)
Definition empty_net : network := healthy [] sf_body.

Definition empty_run : outcome unit * world :=
  Eval vm_compute in main empty_net initial_world.

(** The whole run on the two routers of San Francisco. *)
Definition sf_main : outcome unit * world :=
  Eval vm_compute in main sf_net initial_world.

End Examples.

(** * Properties *)

(** Unfolding the monads. *)
Ltac run_M :=
  unfold mbind, mret, M_bind, M_ret, try_except, cache_lookup, cache_store,
    requests_get_nominatim, http, lift, raise, print, sleep; simpl.

Ltac run_exn :=
  unfold mbind, mret, exn_mbind, exn_ret, exn_bind in *.

Ltac split_exn :=
  repeat match goal with
         | |- context [match ?x with inl _ => _ | inr _ => _ end] =>
             destruct x eqn:?; try discriminate
         end.

Ltac run_agg :=
  unfold mbind, mret, M_bind, M_ret, lift, raise, print; simpl.


Section Monad.
Context `{PyRuntime}.

(** A bind that returns went through a first part that returned. *)
Lemma bind_Ret_inv {A B} (m : M A) (f : A -> M B) w b w' :
  (m ≫= f) w = (Ret b, w') ->
  exists a w0, m w = (Ret a, w0) /\ f a w0 = (Ret b, w').
Proof.
  unfold mbind, M_bind. destruct (m w) as [[a|e|c] w0]; [eauto|done..].
Qed.

Lemma lift_Ret_inv {A} (x : exn A) w a w' :
  lift x w = (Ret a, w') -> x = inr a /\ w' = w.
Proof. destruct x; simpl; [done|]. by intros [= <- <-]. Qed.

Lemma lift_inr {A} (a : A) w : lift (inr a) w = (Ret a, w).
Proof. done. Qed.

End Monad.

Section Geocoding.
Context `{PyRuntime}.
Variable net : network.

(** A cache hit returns the stored value and leaves the world alone. *)
Lemma geocode_hit lat lon w v :
  cache w !! cache_key lat lon = Some v ->
  reverse_geocode_nominatim net lat lon w = (Ret v, w).
Proof.
  intros Hhit. unfold reverse_geocode_nominatim. run_M. by rewrite Hhit.
Qed.

(** A successful lookup on a miss returns the location and stores it. *)
Lemma geocode_miss_success lat lon w info :
  cache w !! cache_key lat lon = None ->
  lookup_success (nominatim net (geo_calls w) lat lon) info ->
  reverse_geocode_nominatim net lat lon w =
    (Ret info,
     {| stdout := stdout w;
        cache := <[cache_key lat lon := info]> (cache w);
        geo_calls := S (geo_calls w); slept := slept w + 1;
        token := token w; written := written w |}).
Proof.
  intros Hmiss (text & data & Hr & Hbuild).
  unfold reverse_geocode_nominatim. run_M. rewrite Hmiss, Hr. simpl.
  by rewrite Hbuild.
Qed.

(** A failed lookup on a miss returns the placeholder; the cache is left as
    it was, and the warning is printed exactly when an exception was
    caught. *)
Lemma geocode_miss_failure lat lon w oe :
  cache w !! cache_key lat lon = None ->
  lookup_failure (nominatim net (geo_calls w) lat lon) oe ->
  exists w',
    reverse_geocode_nominatim net lat lon w = (Ret (fallback_location lat lon), w')
    /\ cache w' = cache w
    /\ geo_calls w' = S (geo_calls w)
    /\ stdout w' = (stdout w ++
          match oe with
          | Some e => [geocoding_warning lat lon e]
          | None => []
          end)%list.
Proof.
  intros Hmiss Hfail.
  unfold reverse_geocode_nominatim. run_M. rewrite Hmiss.
  inversion Hfail as [e He|status text json Hne He|text e He|text data e Hb He];
    subst oe; simpl.
  - eexists; split; [reflexivity|]. by simpl.
  - destruct (Z.eqb_spec status 200) as [->|_]; [done|].
    eexists; split; [reflexivity|]. simpl. by rewrite app_nil_r.
  - eexists; split; [reflexivity|]. by simpl.
  - rewrite Hb. eexists; split; [reflexivity|]. by simpl.
Qed.

Lemma lookup_classify (r : http_result) :
  (exists info, lookup_success r info) \/ (exists oe, lookup_failure r oe).
Proof.
  destruct r as [e|status text [e|data]].
  - right. eexists. constructor.
  - destruct (decide (status = 200)) as [->|Hne]; right; eexists;
      by constructor.
  - destruct (decide (status = 200)) as [->|Hne].
    + destruct (build_location_info data) as [e|info] eqn:Hb.
      * right. eexists. by constructor.
      * left. exists info, text, data. by split.
    + right. eexists. by constructor.
Qed.

(** A miss always sends exactly one request. *)
Lemma geocode_miss_calls lat lon w :
  cache w !! cache_key lat lon = None ->
  geo_calls (snd (reverse_geocode_nominatim net lat lon w)) = S (geo_calls w).
Proof.
  intros Hmiss.
  destruct (lookup_classify (nominatim net (geo_calls w) lat lon))
    as [[info Hs]|[oe Hf]].
  - by rewrite (geocode_miss_success _ _ _ _ Hmiss Hs).
  - destruct (geocode_miss_failure _ _ _ _ Hmiss Hf) as (w' & -> & _ & Hc & _).
    done.
Qed.

(** No call removes or replaces an entry of the cache. *)
Lemma geocode_cache_mono lat lon w k v :
  cache w !! k = Some v ->
  cache (snd (reverse_geocode_nominatim net lat lon w)) !! k = Some v.
Proof.
  intros Hk.
  destruct (cache w !! cache_key lat lon) as [v'|] eqn:Hc.
  - by rewrite (geocode_hit _ _ _ _ Hc).
  - destruct (lookup_classify (nominatim net (geo_calls w) lat lon))
      as [[info Hs]|[oe Hf]].
    + rewrite (geocode_miss_success _ _ _ _ Hc Hs). simpl.
      rewrite lookup_insert_ne; [done|]. intros <-. congruence.
    + destruct (geocode_miss_failure _ _ _ _ Hc Hf) as (w' & -> & Hsame & _).
      simpl. by rewrite Hsame.
Qed.

Lemma run_calls_cache_mono calls w k v :
  cache w !! k = Some v ->
  cache (run_calls net calls w) !! k = Some v.
Proof.
  revert w. induction calls as [|[lat lon] calls IH]; intros w Hk; simpl.
  - done.
  - apply IH. by apply geocode_cache_mono.
Qed.

(** C4: when a coordinate pair was resolved successfully, any later call
    for the same pair in the run, whatever calls came in between, returns
    the same result from the cache and leaves the world untouched: the
    count of network calls does not move.  No call ever removes or
    replaces a cache entry. *)
Theorem cache_hit_after_success lat lon w info calls :
  cache w !! cache_key lat lon = None ->
  lookup_success (nominatim net (geo_calls w) lat lon) info ->
  let first := reverse_geocode_nominatim net lat lon w in
  let w2 := run_calls net calls (snd first) in
  fst first = Ret info
  /\ reverse_geocode_nominatim net lat lon w2 = (Ret info, w2)
  /\ geo_calls (snd (reverse_geocode_nominatim net lat lon w2)) = geo_calls w2
  /\ (forall w0 lat' lon' k v,
        cache w0 !! k = Some v ->
        cache (snd (reverse_geocode_nominatim net lat' lon' w0)) !! k = Some v)
  /\ (forall w0 k v,
        cache w0 !! k = Some v -> cache (run_calls net calls w0) !! k = Some v).
Proof.
  intros Hmiss Hs first w2.
  assert (Hhit : cache w2 !! cache_key lat lon = Some info).
  { subst w2 first. apply run_calls_cache_mono.
    rewrite (geocode_miss_success _ _ _ _ Hmiss Hs). simpl.
    apply lookup_insert_eq. }
  repeat split.
  - subst first. by rewrite (geocode_miss_success _ _ _ _ Hmiss Hs).
  - by apply geocode_hit.
  - by rewrite (geocode_hit _ _ _ _ Hhit).
  - intros. by apply geocode_cache_mono.
  - intros. by apply run_calls_cache_mono.
Qed.

(** C3 (amended): when the lookup fails, no exception escapes and the
    result is the placeholder built from the raw coordinates, with
    formatted_address ["{lat}, {lon}"] and city ["Unknown City"]; the cache
    is unchanged, so the next call for the same pair goes to the network
    again.  A warning naming the pair and the error is printed when the
    failure is an exception (transport error, undecodable or unusable
    body); a status other than 200 prints nothing. *)
Theorem geocode_failure_absorbed lat lon w oe :
  cache w !! cache_key lat lon = None ->
  lookup_failure (nominatim net (geo_calls w) lat lon) oe ->
  exists w',
    reverse_geocode_nominatim net lat lon w = (Ret (fallback_location lat lon), w')
    /\ py_getitem (fallback_location lat lon) "formatted_address"
        = inr (PStr (float_repr lat +:+ ", " +:+ float_repr lon))
    /\ py_getitem (fallback_location lat lon) "city" = inr (PStr "Unknown City")
    /\ stdout w' = (stdout w ++
          match oe with
          | Some e =>
              ["WARNING: Geocoding failed for " +:+ float_repr lat +:+ ","
               +:+ float_repr lon +:+ ": " +:+ exc_str e]
          | None => []
          end)%list
    /\ cache w' = cache w
    /\ geo_calls (snd (reverse_geocode_nominatim net lat lon w'))
        = S (geo_calls w').
Proof.
  intros Hmiss Hf.
  destruct (geocode_miss_failure _ _ _ _ Hmiss Hf) as (w' & Hrun & Hc & _ & Hout).
  exists w'. repeat split; try done.
  apply geocode_miss_calls. by rewrite Hc.
Qed.

Lemma build_location_info_populated data info :
  build_location_info data = inr info -> populated info.
Proof.
  unfold build_location_info. run_exn. split_exn.
  intros [= <-]. eexists. split; reflexivity.
Qed.

Lemma fallback_location_populated lat lon : populated (fallback_location lat lon).
Proof. eexists. split; reflexivity. Qed.

Lemma initial_cache_populated : cache_populated initial_world.
Proof. intros k v. simpl. by rewrite lookup_empty. Qed.

Lemma py_get_lacks v k dflt : lacks v k -> py_get v k dflt = inr dflt.
Proof. intros (d & -> & Hk). simpl. by rewrite Hk. Qed.

(** The value each field takes when its address components are missing
    from a response that is otherwise usable. *)
Lemma build_location_info_fallbacks data address info :
  build_location_info data = inr info ->
  py_get data "address" (PDict []) = inr address ->
  (lacks data "display_name" ->
     py_getitem info "display_name" = inr (PStr "Unknown Location"))
  /\ (lacks address "city" -> lacks address "town" ->
      lacks address "village" -> lacks address "hamlet" ->
      py_getitem info "city" = inr (PStr "Unknown City"))
  /\ (lacks address "state" -> lacks address "province" ->
      py_getitem info "state" = inr (PStr "Unknown State"))
  /\ (lacks address "country" ->
      py_getitem info "country" = inr (PStr "Unknown Country"))
  /\ (lacks address "country_code" ->
      py_getitem info "country_code" = inr (PStr ""))
  /\ (lacks address "postcode" ->
      py_getitem info "postcode" = inr (PStr ""))
  /\ (lacks address "city" -> lacks address "town" ->
      lacks address "village" -> lacks address "hamlet" ->
      lacks address "state" -> lacks address "province" ->
      lacks address "country" ->
      py_getitem info "formatted_address" = inr (PStr "Unknown Location")).
Proof.
  unfold build_location_info. intros Hb Ha. rewrite Ha in Hb.
  run_exn. repeat split; intros.
  all: unfold _format_address, py_or, py_get_none in Hb; run_exn.
  all: repeat match goal with
              | Hl : lacks _ _ |- _ =>
                  rewrite ?(py_get_lacks _ _ PNone Hl) in Hb;
                  rewrite ?(py_get_lacks _ _ (PStr "Unknown City") Hl) in Hb;
                  rewrite ?(py_get_lacks _ _ (PStr "Unknown State") Hl) in Hb;
                  rewrite ?(py_get_lacks _ _ (PStr "Unknown Country") Hl) in Hb;
                  rewrite ?(py_get_lacks _ _ (PStr "Unknown Location") Hl) in Hb;
                  rewrite ?(py_get_lacks _ _ (PStr "") Hl) in Hb;
                  clear Hl
              end.
  all: simpl in Hb; rewrite ?str_upper_empty in Hb.
  all: revert Hb; split_exn; intros [= <-]; reflexivity.
Qed.

(** C5 (amended): on every path (cache hit, successful lookup, failure)
    the call returns, without raising, a dict that has exactly the seven
    fields display_name, city, state, country, country_code, postcode and
    formatted_address.  When the components of a field are missing from
    the response, display_name, city, state, country and formatted_address
    take their literal fallbacks ("Unknown Location", "Unknown City",
    "Unknown State", "Unknown Country", "Unknown Location"), while
    country_code and postcode fall back to the empty string; the
    placeholder returned on failure has the same empty country_code and
    postcode. *)
Theorem geocode_result_populated lat lon w :
  cache_populated w ->
  (exists v w',
     reverse_geocode_nominatim net lat lon w = (Ret v, w')
     /\ populated v /\ cache_populated w')
  /\ (forall data address info,
        build_location_info data = inr info ->
        py_get data "address" (PDict []) = inr address ->
        (lacks data "display_name" ->
           py_getitem info "display_name" = inr (PStr "Unknown Location"))
        /\ (lacks address "city" -> lacks address "town" ->
            lacks address "village" -> lacks address "hamlet" ->
            py_getitem info "city" = inr (PStr "Unknown City"))
        /\ (lacks address "state" -> lacks address "province" ->
            py_getitem info "state" = inr (PStr "Unknown State"))
        /\ (lacks address "country" ->
            py_getitem info "country" = inr (PStr "Unknown Country"))
        /\ (lacks address "country_code" ->
            py_getitem info "country_code" = inr (PStr ""))
        /\ (lacks address "postcode" ->
            py_getitem info "postcode" = inr (PStr ""))
        /\ (lacks address "city" -> lacks address "town" ->
            lacks address "village" -> lacks address "hamlet" ->
            lacks address "state" -> lacks address "province" ->
            lacks address "country" ->
            py_getitem info "formatted_address" = inr (PStr "Unknown Location")))
  /\ py_getitem (fallback_location lat lon) "country_code" = inr (PStr "")
  /\ py_getitem (fallback_location lat lon) "postcode" = inr (PStr "").
Proof.
  intros Hw. split; [|split; [|split; reflexivity]].
  - destruct (cache w !! cache_key lat lon) as [v|] eqn:Hc.
    { exists v, w. rewrite (geocode_hit _ _ _ _ Hc). eauto. }
    destruct (lookup_classify (nominatim net (geo_calls w) lat lon))
      as [[info Hs]|[oe Hf]].
    + eexists _, _. rewrite (geocode_miss_success _ _ _ _ Hc Hs).
      destruct Hs as (text & data & _ & Hb).
      split; [done|]. split; [by eapply build_location_info_populated|].
      intros k v. simpl. rewrite lookup_insert. case_decide.
      * intros [= <-]. by eapply build_location_info_populated.
      * apply Hw.
    + destruct (geocode_miss_failure _ _ _ _ Hc Hf) as (w' & Hrun & Hsame & _).
      exists (fallback_location lat lon), w'. split; [done|].
      split; [apply fallback_location_populated|].
      intros k v. rewrite Hsame. apply Hw.
  - intros data address info Hb Ha.
    by apply (build_location_info_fallbacks data address info Hb Ha).
Qed.

(** The call always returns. *)
Lemma geocode_returns lat lon w :
  exists v w', reverse_geocode_nominatim net lat lon w = (Ret v, w').
Proof.
  destruct (cache w !! cache_key lat lon) as [v|] eqn:Hc.
  { exists v, w. by apply geocode_hit. }
  destruct (lookup_classify (nominatim net (geo_calls w) lat lon))
    as [[info Hs]|[oe Hf]].
  - eexists _, _. by apply geocode_miss_success.
  - destruct (geocode_miss_failure _ _ _ _ Hc Hf) as (w' & Hrun & _). eauto.
Qed.

End Geocoding.

Section Aggregation.
Context `{PyRuntime}.
Variable net : network.

(** *** The defaultdict through its lookups *)

Lemma same_key_spec k stored :
  same_key k stored = true <-> dict_key stored = inr k.
Proof.
  unfold same_key. destruct (dict_key stored) as [e|k']; [done|].
  rewrite bool_decide_eq_true. split; [by intros ->|by intros [= ->]].
Qed.

Lemma same_key_other k k' stored :
  k <> k' -> same_key k stored = true -> same_key k' stored = false.
Proof.
  intros Hne Hk%same_key_spec. unfold same_key. rewrite Hk.
  by apply bool_decide_eq_false.
Qed.

Lemma sites_find_alter f k k' sites :
  sites_find k' (sites_alter f k sites)
  = if decide (k = k') then f <$> sites_find k sites else sites_find k' sites.
Proof.
  induction sites as [|[stored s] rest IH]; simpl.
  - by case_decide.
  - destruct (same_key k stored) eqn:Hk; simpl.
    + case_decide as Hkk.
      * subst k'. by rewrite Hk.
      * by rewrite (same_key_other _ _ _ Hkk Hk).
    + rewrite IH. case_decide as Hkk.
      * subst k'. by rewrite Hk.
      * done.
Qed.

Lemma sites_find_snoc k sites stored s :
  sites_find k (sites ++ [(stored, s)])%list
  = match sites_find k sites with
    | Some s' => Some s'
    | None => if same_key k stored then Some s else None
    end.
Proof.
  induction sites as [|[stored' s'] rest IH]; simpl; [done|].
  by destruct (same_key k stored').
Qed.

(** [sites[site_id]] reads the entry of the key, or the default entry it
    has just created, and touches no other key. *)
Lemma sites_getitem_spec sites site_id k s sites1 :
  sites_getitem sites site_id = inr (k, s, sites1) ->
  dict_key site_id = inr k
  /\ s = default default_site (sites_find k sites)
  /\ forall k', sites_find k' sites1
              = if decide (k = k') then Some s else sites_find k' sites.
Proof.
  unfold sites_getitem. unfold mbind, exn_mbind, exn_bind, mret, exn_ret.
  destruct (dict_key site_id) as [e|k0] eqn:Hk; [done|].
  destruct (sites_find k0 sites) as [s0|] eqn:Hfind; intros Heq.
  all: simplify_eq.
  - split; [done|]. split; [by rewrite Hfind|].
    intros k'. case_decide; by subst.
  - split; [done|]. split; [by rewrite Hfind|].
    intros k'. rewrite sites_find_snoc.
    case_decide as Hkk.
    + subst k'. rewrite Hfind.
      by rewrite (proj2 (same_key_spec _ _) Hk).
    + destruct (sites_find k' sites); [done|].
      destruct (same_key k' site_id) eqn:Hs; [|done].
      apply same_key_spec in Hs. congruence.
Qed.


(** The location branch: nothing happens without coordinates; with
    them, the site of the device gets the location if it had none. *)
Lemma process_location_spec sites site_id device w sites1 loc w1 :
  process_location net sites site_id device w = (Ret (sites1, loc), w1) ->
  match loc with
  | None =>
      has_coordinates device = inr false /\ sites1 = sites /\ w1 = w
  | Some l =>
      has_coordinates device = inr true
      /\ py_get_none device "latitude" ≫= py_float = inr (latitude l)
      /\ py_get_none device "longitude" ≫= py_float = inr (longitude l)
      /\ py_get device "isDeviceGeoData" (PBool false) = inr (is_device_gps l)
      /\ exists k, dict_key site_id = inr k
         /\ forall k', sites_find k' sites1
             = if decide (k = k')
               then Some (let s := default default_site (sites_find k sites) in
                          match location s with
                          | None => set_location l (geocoded l) s
                          | Some _ => s
                          end)
               else sites_find k' sites
  end.
Proof.
  unfold process_location. run_agg.
  destruct (has_coordinates device) as [e|[|]] eqn:Hc; simpl;
    [done| |by intros [= <- <- <-]].
  destruct (exn_mbind _ _ py_float (py_get_none device "latitude"))
    as [e|lat] eqn:Hlat; simpl; [done|].
  destruct (exn_mbind _ _ py_float (py_get_none device "longitude"))
    as [e|lon] eqn:Hlon; simpl; [done|].
  destruct (py_get device "isDeviceGeoData" (PBool false)) as [e|gps] eqn:Hgps;
    simpl; [done|].
  match goal with
  | |- context [reverse_geocode_nominatim net lat lon ?w0] =>
      destruct (geocode_returns net lat lon w0) as (g & w2 & ->)
  end.
  destruct (sites_getitem sites site_id) as [e|[[k s] sites0]] eqn:Hget;
    simpl; [done|].
  destruct (sites_getitem_spec _ _ _ _ _ Hget) as (Hk & Hs & Hfind).
  intros [= <- <- <-]. simpl. do 4 (split; [done|]).
  exists k. split; [done|]. intros k'. rewrite <- Hs.
  destruct (location s) eqn:Hloc.
  - apply Hfind.
  - rewrite sites_find_alter, !Hfind.
    by repeat case_decide; simplify_eq.
Qed.

(** The site-type branch. *)
Lemma classify_site_spec sites site_id device sites2 :
  classify_site sites site_id device = inr sites2 ->
  exists k, dict_key site_id = inr k
    /\ forall k', sites_find k' sites2
        = if decide (k = k')
          then Some (let s := default default_site (sites_find k sites) in
                     set_site_type
                       (if is_control device then "control_plane"
                        else if String.eqb (site_type s) "unknown" then "branch"
                        else site_type s) s)
          else sites_find k' sites.
Proof.
  unfold classify_site, is_control.
  unfold mbind, exn_mbind, exn_bind, mret, exn_ret.
  destruct (py_get_none device "device-type") as [e|ty]; [done|].
  destruct (sites_getitem sites site_id) as [e|[[k s] sites0]] eqn:Hget;
    [by destruct (is_control_type ty)|].
  destruct (sites_getitem_spec _ _ _ _ _ Hget) as (Hk & Hs & Hfind).
  destruct (is_control_type ty).
  - intros [= <-]. exists k. split; [done|]. intros k'. rewrite <- Hs.
    rewrite sites_find_alter, !Hfind.
    by repeat case_decide; simplify_eq.
  - destruct (String.eqb (site_type s) "unknown") eqn:Hu; intros [= <-];
      exists k; (split; [done|]); intros k'; rewrite <- Hs; simpl; rewrite Hu.
    + rewrite sites_find_alter, !Hfind.
      by repeat case_decide; simplify_eq.
    + rewrite Hfind. case_decide; [|done]. by destruct s.
Qed.

(** One iteration: the device is recorded, its site entry moves by
    [step_site], and every other entry stays as it is. *)
Lemma process_device_spec total sites i device w sites' w' :
  process_device net total sites i device w = (Ret sites', w') ->
  exists k d,
    device_key device = inr k
    /\ records device d
    /\ tloc_info d = None
    /\ (forall k', sites_find k' sites'
         = if decide (k = k')
           then Some (step_site device d
                        (default default_site (sites_find k sites)))
           else sites_find k' sites)
    /\ (dev_location d = None -> cache w' = cache w /\ geo_calls w' = geo_calls w).
Proof.
  unfold process_device. run_agg.
  destruct device as [| | | | | |dd]; try done. simpl.
  match goal with
  | |- context [process_location net sites ?id ?dev ?w0] =>
      destruct (process_location net sites id dev w0)
        as [[[sites1 loc]|e|c] w1] eqn:Hloc; [|done..]
  end.
  apply process_location_spec in Hloc.
  destruct (classify_site sites1 _ _) as [e|sites2] eqn:Hcls; simpl; [done|].
  apply classify_site_spec in Hcls as (k & Hk & Hfind2).
  destruct (sites_getitem sites2 _) as [e|[[k3 s3] sites3]] eqn:Hget;
    simpl; [done|].
  apply sites_getitem_spec in Hget as (Hk3 & Hs3 & Hfind3).
  assert (k3 = k) as -> by congruence.
  intros [= <- <-].
  eexists k, {| hostname := _; system_ip := _; device_type := _;
                device_model := _; reachability := _; version := _;
                platform := _; dev_location := loc; tloc_info := None |}.
  split; [by unfold device_key; simpl; run_exn|].
  split; [|split; [reflexivity|split]].
  - unfold records; simpl. do 7 (split; [done|]).
    destruct loc as [l|]; [|by destruct Hloc].
    by destruct Hloc as (? & ? & ? & ? & _).
  - assert (F1 : forall k', k <> k' -> sites_find k' sites1 = sites_find k' sites).
    { intros k' Hne. destruct loc as [l|].
      - destruct Hloc as (_ & _ & _ & _ & k0 & Hk0 & Hfind1).
        assert (k0 = k) as -> by congruence.
        by rewrite Hfind1, decide_False.
      - by destruct Hloc as (_ & -> & _). }
    assert (F2 : default default_site (sites_find k sites1)
                 = let s := default default_site (sites_find k sites) in
                   match loc, location s with
                   | Some l, None => set_location l (geocoded l) s
                   | _, _ => s
                   end).
    { destruct loc as [l|].
      - destruct Hloc as (_ & _ & _ & _ & k0 & Hk0 & Hfind1).
        assert (k0 = k) as -> by congruence.
        by rewrite Hfind1, decide_True.
      - destruct Hloc as (_ & -> & _). simpl.
        by destruct (location (default default_site (sites_find k sites))). }
    intros k'. rewrite sites_find_alter, !Hfind3.
    destruct (decide (k = k')) as [<-|Hne].
    + rewrite decide_True by done. simpl. f_equal.
      rewrite Hs3, Hfind2, decide_True by done. simpl. rewrite F2. simpl.
      unfold step_site, append_device, set_site_type, set_location. simpl.
      destruct loc as [l|];
        destruct (location (default default_site (sites_find k sites)))
          eqn:Hl; simpl; by rewrite ?Hl.
    + by rewrite Hfind2, decide_False, F1.
  - simpl. intros ->. by destruct Hloc as (_ & _ & ->).
Qed.

Lemma process_devices_app total sites i l1 l2 w sites' w' :
  process_devices net total sites i (l1 ++ l2) w = (Ret sites', w') ->
  exists sites1 w1,
    process_devices net total sites i l1 w = (Ret sites1, w1)
    /\ process_devices net total sites1 (i + length l1) l2 w1 = (Ret sites', w').
Proof.
  revert sites i w. induction l1 as [|device l1 IH]; intros sites i w; simpl.
  - intros Hrun. exists sites, w. split; [done|]. by rewrite Nat.add_0_r.
  - unfold mbind, M_bind.
    destruct (process_device net total sites i device w) as [[sites0|e|c] w0];
      [|done..].
    intros Hrun. apply IH in Hrun as (sites1 & w1 & Hrun1 & Hrun2).
    exists sites1, w1. split; [done|]. by rewrite <- Nat.add_succ_comm.
Qed.

(** *** Site type *)

Lemma process_device_keeps_control total sites i device w sites' w' k :
  process_device net total sites i device w = (Ret sites', w') ->
  site_type <$> sites_find k sites = Some "control_plane" ->
  site_type <$> sites_find k sites' = Some "control_plane".
Proof.
  intros (k0 & d & _ & _ & _ & Hfind & _)%process_device_spec Hk.
  rewrite Hfind. case_decide as Hkk; [|done]. subst k0.
  destruct (sites_find k sites) as [s|]; [|done].
  injection Hk as Hk. simpl. rewrite Hk. by destruct (is_control device).
Qed.

Lemma process_device_sets_control total sites i device w sites' w' k :
  process_device net total sites i device w = (Ret sites', w') ->
  device_key device = inr k ->
  is_control device = true ->
  site_type <$> sites_find k sites' = Some "control_plane".
Proof.
  intros (k0 & d & Hk0 & _ & _ & Hfind & _)%process_device_spec Hk Hc.
  assert (k0 = k) as -> by congruence.
  rewrite Hfind, decide_True by done. simpl. by rewrite Hc.
Qed.

Lemma process_devices_keep_control total sites i items w sites' w' k :
  process_devices net total sites i items w = (Ret sites', w') ->
  site_type <$> sites_find k sites = Some "control_plane" ->
  site_type <$> sites_find k sites' = Some "control_plane".
Proof.
  revert sites i w. induction items as [|device items IH]; intros sites i w;
    simpl.
  - by intros [= <- <-].
  - unfold mbind, M_bind.
    destruct (process_device net total sites i device w)
      as [[sites0|e|c] w0] eqn:Hstep; [|done..].
    intros Hrun Hk. eapply IH; [done|].
    by eapply process_device_keeps_control.
Qed.

(** C1: once a device with one of the control-plane types has been
    processed for a site, that site is "control_plane" after every later
    iteration of the loop, whatever the devices that follow and whatever
    the site was before (unknown, branch or not yet created): a control
    device that arrives after branch devices still turns the site into
    "control_plane". *)
Theorem control_plane_is_sticky total sites i before device after w sites' w' k :
  process_devices net total sites i (before ++ device :: after) w
    = (Ret sites', w') ->
  device_key device = inr k ->
  is_control device = true ->
  site_type <$> sites_find k sites' = Some "control_plane".
Proof.
  intros (sites1 & w1 & _ & Hrun)%process_devices_app Hk Hc.
  simpl in Hrun. unfold mbind, M_bind in Hrun.
  destruct (process_device net total sites1 _ device w1)
    as [[sites2|e|c] w2] eqn:Hstep; [|done..].
  eapply process_devices_keep_control; [done|].
  by eapply process_device_sets_control.
Qed.

(** *** Representative location *)

Lemma default_site_first_wins : first_wins default_site.
Proof. by split. Qed.

Lemma step_site_first_wins device d s :
  first_wins s -> first_wins (step_site device d s).
Proof.
  intros [Hloc Hgeo]. unfold first_wins, step_site. simpl.
  rewrite omap_app. simpl.
  destruct (location s) as [l|] eqn:Hl; simpl.
  - destruct (omap dev_location (devices s)); simplify_eq/=. by split.
  - destruct (omap dev_location (devices s)); simplify_eq/=.
    by destruct (dev_location d).
Qed.

Lemma process_device_first_wins total sites i device w sites' w' :
  process_device net total sites i device w = (Ret sites', w') ->
  all_first_wins sites -> all_first_wins sites'.
Proof.
  intros (k0 & d & _ & _ & _ & Hfind & _)%process_device_spec Hinv k s.
  rewrite Hfind. case_decide as Hkk; [|by apply Hinv].
  intros [= <-]. apply step_site_first_wins.
  destruct (sites_find k0 sites) as [s0|] eqn:Hs0; simpl.
  - by eapply Hinv.
  - apply default_site_first_wins.
Qed.

Lemma process_device_follows_input total sites i device w sites' w' processed :
  process_device net total sites i device w = (Ret sites', w') ->
  follows_input processed sites ->
  follows_input (processed ++ [device]) sites'.
Proof.
  intros (k0 & d & Hk0 & Hrec & _ & Hfind & _)%process_device_spec Hinv k.
  assert (Hof : of_site k device = bool_decide (k0 = k)).
  { unfold of_site. by rewrite Hk0. }
  rewrite filter_app, filter_cons, filter_nil. unfold devices_of.
  rewrite Hfind, Hof.
  destruct (decide (k0 = k)) as [->|Hne].
  - rewrite bool_decide_true by done. rewrite decide_True by done.
    simpl. apply Forall2_app; [|by constructor].
    specialize (Hinv k). unfold devices_of in Hinv.
    by destruct (sites_find k sites).
  - rewrite bool_decide_false by done. rewrite decide_False by done.
    rewrite app_nil_r. apply Hinv.
Qed.

Lemma process_devices_invariants total sites i items w sites' w' processed :
  process_devices net total sites i items w = (Ret sites', w') ->
  all_first_wins sites ->
  follows_input processed sites ->
  all_first_wins sites' /\ follows_input (processed ++ items) sites'.
Proof.
  revert sites i w processed.
  induction items as [|device items IH]; intros sites i w processed; simpl.
  - intros [= <- <-]. by rewrite app_nil_r.
  - unfold mbind, M_bind.
    destruct (process_device net total sites i device w)
      as [[sites0|e|c] w0] eqn:Hstep; [|done..].
    intros Hrun Hfirst Hfollow.
    change (device :: items) with ([device] ++ items)%list.
    rewrite (assoc_L app). eapply IH; [done| |].
    + by eapply process_device_first_wins.
    + by eapply process_device_follows_input.
Qed.

(** *** The topology phase leaves the rest of the structure alone *)

Lemma attach_tloc_spec index d d' :
  attach_tloc index d = inr d' -> without_tloc d' = without_tloc d.
Proof.
  unfold attach_tloc. run_exn.
  destruct (dict_key (system_ip d)) as [e|k]; [done|].
  by destruct (tloc_find k index); intros [= <-].
Qed.

Lemma attach_tloc_devices_spec index ds ds' :
  attach_tloc_devices index ds = inr ds' ->
  Forall2 (fun d d' => without_tloc d' = without_tloc d) ds ds'.
Proof.
  revert ds'. induction ds as [|d ds IH]; intros ds'; simpl; run_exn.
  - intros [= <-]. constructor.
  - destruct (attach_tloc index d) as [e|d'] eqn:Hd; [done|].
    destruct (attach_tloc_devices index ds) as [e|ds0]; [done|].
    intros [= <-]. constructor; [by eapply attach_tloc_spec|by apply IH].
Qed.

Lemma attach_tloc_sites_spec index sites sites' k :
  attach_tloc_sites index sites = inr sites' ->
  match sites_find k sites' with
  | Some s' =>
      exists s, sites_find k sites = Some s
        /\ location s' = location s
        /\ geocoded_location s' = geocoded_location s
        /\ site_type s' = site_type s
        /\ Forall2 (fun d d' => without_tloc d' = without_tloc d)
                   (devices s) (devices s')
  | None => sites_find k sites = None
  end.
Proof.
  revert sites'. induction sites as [|[stored s] rest IH]; intros sites';
    simpl; run_exn.
  - by intros [= <-].
  - destruct (attach_tloc_devices index (devices s)) as [e|ds] eqn:Hds; [done|].
    destruct (attach_tloc_sites index rest) as [e|rest']; [done|].
    intros [= <-]. simpl. destruct (same_key k stored).
    + eexists. split; [done|]. simpl. do 3 (split; [done|]).
      by apply (attach_tloc_devices_spec index).
    + by apply IH.
Qed.

Lemma same_location_list ds ds' :
  Forall2 (fun d d' => without_tloc d' = without_tloc d) ds ds' ->
  omap dev_location ds' = omap dev_location ds.
Proof.
  intros Hds. symmetry. apply list_omap_ext.
  eapply Forall2_impl; [done|]. intros d d' Hd.
  symmetry. apply (f_equal dev_location Hd).
Qed.

Lemma records_without_tloc device d d' :
  without_tloc d' = without_tloc d -> records device d -> records device d'.
Proof.
  intros Hd. unfold records.
  rewrite (f_equal hostname Hd : hostname d' = hostname d).
  rewrite (f_equal system_ip Hd : system_ip d' = system_ip d).
  rewrite (f_equal device_type Hd : device_type d' = device_type d).
  rewrite (f_equal device_model Hd : device_model d' = device_model d).
  rewrite (f_equal reachability Hd : reachability d' = reachability d).
  rewrite (f_equal version Hd : version d' = version d).
  rewrite (f_equal platform Hd : platform d' = platform d).
  by rewrite (f_equal dev_location Hd : dev_location d' = dev_location d).
Qed.

(** What a run of [extract_sites_with_geocoding] that returns a mapping
    went through. *)
Lemma extract_spec w sites w' :
  extract_sites_with_geocoding net w = (Ret (Some sites), w') ->
  exists items w0 sites0 w1 index,
    fetched_devices net = Some items
    /\ process_devices net (length items) [] 0 items w0 = (Ret sites0, w1)
    /\ attach_tloc_sites index sites0 = inr sites.
Proof.
  unfold extract_sites_with_geocoding. intros Hrun.
  apply bind_Ret_inv in Hrun as ([] & w1 & _ & Hrun).
  apply bind_Ret_inv in Hrun as (devices_data & w2 & Hdev & Hrun).
  apply bind_Ret_inv in Hrun as (unusable & w3 & Hun & Hrun).
  apply lift_Ret_inv in Hun as [Hun ->].
  destruct unusable.
  { apply bind_Ret_inv in Hrun as ([] & w4 & _ & Hrun). by inversion Hrun. }
  apply bind_Ret_inv in Hrun as ([] & w4 & _ & Hrun).
  apply bind_Ret_inv in Hrun as (tloc_data & w5 & _ & Hrun).
  apply bind_Ret_inv in Hrun as ([] & w6 & _ & Hrun).
  apply bind_Ret_inv in Hrun as (data & w7 & Hdata & Hrun).
  apply lift_Ret_inv in Hdata as [Hdata ->].
  apply bind_Ret_inv in Hrun as (items & w8 & Hitems & Hrun).
  apply lift_Ret_inv in Hitems as [Hitems ->].
  apply bind_Ret_inv in Hrun as (sites0 & w9 & Hloop & Hrun).
  apply bind_Ret_inv in Hrun as (index & w10 & Hindex & Hrun).
  apply lift_Ret_inv in Hindex as [Hindex ->].
  apply bind_Ret_inv in Hrun as (sites1 & w11 & Hatt & Hrun).
  apply lift_Ret_inv in Hatt as [Hatt ->].
  injection Hrun as <- <-.
  exists items, w6, sites0, w9, index. split; [|done].
  unfold fetched_devices. unfold get_devices in Hdev.
  apply bind_Ret_inv in Hdev as ([[status0 text0] json0] & w0 & Hhttp & Hdev).
  destruct (devices_response net) as [e|status text json]; [done|].
  injection Hhttp as <- <- <- <-.
  destruct (Z.eqb status 200).
  - apply lift_Ret_inv in Hdev as [-> _]. run_exn. by rewrite Hdata, Hitems.
  - injection Hdev as <- <-. by destruct (truthy PNone) eqn:Ht.
Qed.

(** C2: in the mapping returned by [extract_sites_with_geocoding], the
    device list of every site holds the records of the input devices of
    that site in input order, a record having a location exactly when
    the device passes the coordinate test; the location of the site is
    the location of the first record that has one, and its
    geocoded_location is the geocoded result stored in that location.
    Devices with coordinates that come later change neither. *)
Theorem site_location_first_wins w sites w' items k s :
  extract_sites_with_geocoding net w = (Ret (Some sites), w') ->
  fetched_devices net = Some items ->
  sites_find k sites = Some s ->
  Forall2 records (filter (fun dv => of_site k dv = true) items) (devices s)
  /\ location s = head (omap dev_location (devices s))
  /\ geocoded_location s = geocoded <$> location s.
Proof.
  intros (items' & w0 & sites0 & w1 & index & Hitems & Hloop & Hatt)%extract_spec
    Hfetched Hs.
  assert (items' = items) as -> by congruence.
  destruct (process_devices_invariants _ _ _ _ _ _ _ [] Hloop) as [Hfirst Hfollow].
  { by intros k0 s0. }
  { intros k0. simpl. constructor. }
  pose proof (attach_tloc_sites_spec index sites0 sites k Hatt) as Hk.
  rewrite Hs in Hk. destruct Hk as (s0 & Hs0 & Hloc & Hgeo & _ & Hds).
  destruct (Hfirst k s0 Hs0) as [Hl0 Hg0].
  split; [|split].
  - specialize (Hfollow k). simpl in Hfollow. unfold devices_of in Hfollow.
    rewrite Hs0 in Hfollow. clear -Hfollow Hds.
    revert Hds. generalize (devices s). induction Hfollow as [|dv d dvs ds Hr _ IH].
    + intros ds' Hds. inversion Hds. constructor.
    + intros ds' Hds. inversion Hds as [|? d' ? ds'' Hd Hrest]; subst.
      constructor; [by eapply records_without_tloc|by apply IH].
  - by rewrite Hloc, Hl0, (same_location_list _ _ Hds).
  - by rewrite Hgeo, Hloc.
Qed.

(** *** Devices without usable coordinates *)

Lemma assoc_remove_ne k k' dd :
  k <> k' -> assoc k' (dict_remove k dd) = assoc k' dd.
Proof.
  intros Hne. induction dd as [|[k0 v] rest IH]; simpl; [done|].
  destruct (String.eqb_spec k0 k) as [->|Hk0].
  - rewrite IH. by destruct (String.eqb_spec k k').
  - simpl. by rewrite IH.
Qed.

Lemma assoc_strip k dd :
  k <> "latitude" -> k <> "longitude" ->
  assoc k (strip_coordinates dd) = assoc k dd.
Proof.
  intros Hlat Hlon. unfold strip_coordinates.
  by rewrite !assoc_remove_ne.
Qed.

Lemma assoc_remove_eq k dd : assoc k (dict_remove k dd) = None.
Proof.
  induction dd as [|[k0 v] rest IH]; simpl; [done|].
  destruct (String.eqb_spec k0 k) as [->|Hk0]; [done|].
  simpl. by destruct (String.eqb_spec k0 k).
Qed.

Lemma has_coordinates_strip dd :
  has_coordinates (PDict (strip_coordinates dd)) = inr false.
Proof.
  unfold has_coordinates, py_get_none, strip_coordinates. simpl.
  by rewrite assoc_remove_eq.
Qed.

Lemma has_coordinates_falsy dd :
  truthy (default PNone (assoc "latitude" dd)) = false
  \/ truthy (default PNone (assoc "longitude" dd)) = false ->
  has_coordinates (PDict dd) = inr false.
Proof.
  unfold has_coordinates, py_get_none. simpl. run_exn.
  intros [->| ->]; [done|]. by destruct (truthy _).
Qed.

(** C10: a device whose latitude or longitude is present but falsy (0,
    0.0, "", null, false, an empty list or dict) is processed exactly as
    the same device without the two fields: the coordinate test fails,
    the geocoder is not called, the record gets no location and the
    location of every site stays what it was. *)
Theorem falsy_coordinates_ignored total sites i dd w :
  truthy (default PNone (assoc "latitude" dd)) = false
  \/ truthy (default PNone (assoc "longitude" dd)) = false ->
  has_coordinates (PDict dd) = inr false
  /\ process_device net total sites i (PDict dd) w
     = process_device net total sites i (PDict (strip_coordinates dd)) w
  /\ forall sites' w',
       process_device net total sites i (PDict dd) w = (Ret sites', w') ->
       geo_calls w' = geo_calls w
       /\ cache w' = cache w
       /\ (exists k d,
             device_key (PDict dd) = inr k
             /\ devices_of k sites' = (devices_of k sites ++ [d])%list
             /\ dev_location d = None)
       /\ forall k, sites_find k sites' ≫= location
                    = sites_find k sites ≫= location.
Proof.
  intros Hfalsy. pose proof (has_coordinates_falsy dd Hfalsy) as Hc.
  split; [done|]. split.
  - unfold process_device, process_location, classify_site, py_get_none.
    rewrite Hc, has_coordinates_strip. run_agg.
    by rewrite !assoc_strip by done.
  - intros sites' w' (k & d & Hk & Hrec & _ & Hfind & Hworld)%process_device_spec.
    assert (Hd : dev_location d = None).
    { destruct Hrec as (_ & _ & _ & _ & _ & _ & _ & Hloc).
      destruct (dev_location d); [|done]. destruct Hloc as [Hloc _]. congruence. }
    destruct (Hworld Hd) as [Hcache Hcalls].
    split; [done|]. split; [done|]. split.
    + exists k, d. split; [done|]. split; [|done].
      unfold devices_of. rewrite Hfind, decide_True by done. simpl.
      by destruct (sites_find k sites).
    + intros k'. rewrite Hfind. case_decide as Hkk; [|done]. subst k'.
      simpl. rewrite Hd. destruct (sites_find k sites) as [s|]; simpl; [|done].
      by destruct (location s).
Qed.

(** *** Devices the loop accepts *)






End Aggregation.

Section Controller.
Context `{PyRuntime}.
Variable net : network.

Ltac run_main :=
  unfold mbind, mret, M_bind, M_ret, http, lift, raise, print, set_token,
    sys_exit; simpl.

Lemma eqb_200_false status : status <> 200 -> Z.eqb status 200 = false.
Proof. intros Hne. by apply Z.eqb_neq. Qed.

(** C6 (amended): [authenticate] returns true only when the login call
    and the token call are both answered with status 200, and returns
    false, without raising, when either is answered with another status;
    [get_devices] and [get_tloc_data] return None on a status other than
    200.  A transport error is not turned into false or None: the
    exception raised by the HTTP call leaves the operation. *)
Theorem controller_failure_signals w :
  (forall b w',
     authenticate net w = (Ret b, w') ->
     b = true ->
     status_ok (login_response net) /\ status_ok (token_response net))
  /\ (status_not_ok (login_response net) ->
      authenticate net w = (Ret false, w))
  /\ (status_ok (login_response net) ->
      status_not_ok (token_response net) ->
      authenticate net w = (Ret false, w))
  /\ (status_not_ok (devices_response net) -> get_devices net w = (Ret PNone, w))
  /\ (status_not_ok (tloc_response net) -> get_tloc_data net w = (Ret PNone, w))
  /\ (forall e, login_response net = HttpRaises e ->
                authenticate net w = (Raise e, w))
  /\ (forall e, status_ok (login_response net) ->
                token_response net = HttpRaises e ->
                authenticate net w = (Raise e, w))
  /\ (forall e, devices_response net = HttpRaises e ->
                get_devices net w = (Raise e, w))
  /\ (forall e, tloc_response net = HttpRaises e ->
                get_tloc_data net w = (Raise e, w)).
Proof.
  unfold authenticate, get_devices, get_tloc_data, status_ok, status_not_ok.
  repeat apply conj.
  - intros b w'. run_main.
    destruct (login_response net) as [e|s1 t1 j1]; simpl; [done|].
    destruct (Z.eqb_spec s1 200) as [->|]; [|by intros [= <- <-]].
    destruct (token_response net) as [e|s2 t2 j2]; simpl; [done|].
    destruct (Z.eqb_spec s2 200) as [->|]; [|by intros [= <- <-]].
    eauto 10.
  - intros (s1 & t1 & j1 & -> & Hne). run_main.
    by rewrite (eqb_200_false _ Hne).
  - intros (t1 & j1 & ->) (s2 & t2 & j2 & -> & Hne). run_main.
    by rewrite (eqb_200_false _ Hne).
  - intros (s & t & j & -> & Hne). run_main. by rewrite (eqb_200_false _ Hne).
  - intros (s & t & j & -> & Hne). run_main. by rewrite (eqb_200_false _ Hne).
  - by intros e ->.
  - by intros e (t1 & j1 & ->) ->.
  - by intros e ->.
  - by intros e ->.
Qed.






End Controller.

Section Summary.
Context `{PyRuntime}.

(** *** Groups through their lookups *)





Lemma group_append_string_keyed k l label g :
  string_keyed g -> string_keyed (group_append k (PStr l) label g).
Proof.
  induction 1 as [|[stored labels] rest Hs Hrest IH]; simpl.
  - constructor; [by eexists|constructor].
  - destruct (same_key k stored); by constructor.
Qed.


(** *** Sorting the groups *)

Lemma insert_sorted_perm x l l' :
  insert_sorted x l = inr l' -> l' ≡ₚ x :: l.
Proof.
  revert l'. induction l as [|y rest IH]; intros l'; simpl; run_exn.
  - by intros [= <-].
  - destruct (py_lt (fst x) (fst y)) as [e|[|]]; [done|by intros [= <-]|].
    destruct (insert_sorted x rest) as [e|rest'] eqn:Hrest; [done|].
    intros [= <-]. rewrite (IH rest' eq_refl). apply Permutation_swap.
Qed.

Lemma py_sorted_perm l l' : py_sorted l = inr l' -> l' ≡ₚ l.
Proof.
  revert l'. induction l as [|x rest IH]; intros l'; simpl; run_exn.
  - by intros [= <-].
  - destruct (py_sorted rest) as [e|rest'] eqn:Hrest; [done|].
    intros Hins%insert_sorted_perm. by rewrite Hins, (IH rest' eq_refl).
Qed.





(** Groups with string keys always sort. *)
Lemma py_sorted_ok l :
  string_keyed l -> exists l', py_sorted l = inr l'.
Proof.
  induction 1 as [|x rest [lx Hx] Hrest [rest' IH]]; simpl; run_exn; [eauto|].
  rewrite IH.
  assert (Hkeys : string_keyed rest').
  { unfold string_keyed. by rewrite (py_sorted_perm _ _ IH). }
  clear IH Hrest. induction Hkeys as [|y rest'' [ly Hy] _ [r IH]]; simpl;
    run_exn; [eauto|].
  rewrite Hx, Hy. simpl. destruct (String.ltb lx ly); [eauto|].
  rewrite IH. eauto.
Qed.

Lemma print_all_spec lines w :
  print_all lines w =
    (Ret tt, {| stdout := stdout w ++ lines; cache := cache w;
                geo_calls := geo_calls w; slept := slept w;
                token := token w; written := written w |}).
Proof.
  revert w. induction lines as [|l lines IH]; intros w; simpl.
  - rewrite app_nil_r. by destruct w.
  - unfold mbind, M_bind, print. rewrite IH. simpl.
    by rewrite <- app_assoc.
Qed.






End Summary.

Section Typing.
Context `{PyRuntime}.
Variable net : network.

Lemma no_device_no_control k (processed : list pyval) :
  filter (fun dv => of_site k dv = true) processed = [] ->
  existsb (fun dv => of_site k dv && is_control dv) processed = false.
Proof.
  induction processed as [|dv rest IH]; [done|].
  rewrite filter_cons. simpl. destruct (decide (of_site k dv = true)) as [|Hne].
  - done.
  - intros Hrest. apply not_true_is_false in Hne. rewrite Hne. simpl. by apply IH.
Qed.

Lemma process_device_typed total sites i device w sites' w' processed :
  process_device net total sites i device w = (Ret sites', w') ->
  typed_by_input processed sites ->
  typed_by_input (processed ++ [device]) sites'.
Proof.
  intros (k0 & d & Hk0 & _ & _ & Hfind & _)%process_device_spec Hinv k.
  assert (Hof : of_site k device = bool_decide (k0 = k)).
  { unfold of_site. by rewrite Hk0. }
  rewrite Hfind. unfold expected_type.
  rewrite filter_app, filter_cons, filter_nil, existsb_app. simpl.
  rewrite Hof, orb_false_r. specialize (Hinv k).
  destruct (decide (k0 = k)) as [->|Hne].
  - rewrite bool_decide_true by done. simpl. split.
    + by destruct (devices (default default_site (sites_find k sites))).
    + destruct (sites_find k sites) as [s|]; simpl.
      * destruct Hinv as [_ ->]. unfold expected_type.
        destruct (existsb _ processed); simpl; [by destruct (is_control device)|].
        by destruct (is_control device).
      * rewrite (no_device_no_control _ _ Hinv). simpl.
        by destruct (is_control device).
  - rewrite bool_decide_false by done. rewrite decide_False by done.
    simpl. rewrite orb_false_r, app_nil_r. apply Hinv.
Qed.

Lemma process_devices_typed total sites i items w sites' w' processed :
  process_devices net total sites i items w = (Ret sites', w') ->
  typed_by_input processed sites ->
  typed_by_input (processed ++ items) sites'.
Proof.
  revert sites i w processed.
  induction items as [|device items IH]; intros sites i w processed; simpl.
  - intros [= <- <-]. by rewrite app_nil_r.
  - unfold mbind, M_bind.
    destruct (process_device net total sites i device w)
      as [[sites0|e|c] w0] eqn:Hstep; [|done..].
    intros Hrun Hinv.
    change (device :: items) with ([device] ++ items)%list.
    rewrite (assoc_L app). eapply IH; [done|].
    by eapply process_device_typed.
Qed.

Lemma site_keys_alter f k sites :
  map fst (sites_alter f k sites) = map fst sites.
Proof.
  induction sites as [|[stored s] rest IH]; simpl; [done|].
  destruct (same_key k stored); simpl; [done|]. by rewrite IH.
Qed.

Lemma well_keyed_fst sites sites' :
  map fst sites' = map fst sites -> well_keyed sites -> well_keyed sites'.
Proof.
  intros Heq [Hnd Hall].
  assert (Hkeys : site_keys sites' = site_keys sites).
  { unfold site_keys. rewrite <- !(map_map fst dict_key). by rewrite Heq. }
  split; [by rewrite Hkeys|].
  apply Forall_forall. intros e He.
  assert (Hin : fst e ∈ map fst sites).
  { rewrite <- Heq. apply list_elem_of_In, in_map, list_elem_of_In, He. }
  apply list_elem_of_In, in_map_iff in Hin as (e0 & Hfst & Hin).
  rewrite <- Hfst.
  exact (proj1 (Forall_forall _ _) Hall e0 (proj2 (list_elem_of_In _ _) Hin)).
Qed.

Lemma sites_alter_well_keyed f k sites :
  well_keyed sites -> well_keyed (sites_alter f k sites).
Proof. apply well_keyed_fst, site_keys_alter. Qed.

Lemma sites_find_None_keys k sites :
  sites_find k sites = None -> inr k ∉ site_keys sites.
Proof.
  induction sites as [|[stored s] rest IH]; simpl.
  - intros _ Hin. by apply elem_of_nil in Hin.
  - destruct (same_key k stored) eqn:Hk; [done|]. intros Hrest Hin.
    apply elem_of_cons in Hin as [Heq|Hin]; [|by apply IH].
    simpl in Heq. symmetry in Heq. apply same_key_spec in Heq. congruence.
Qed.

Lemma sites_getitem_well_keyed sites site_id k s sites' :
  sites_getitem sites site_id = inr (k, s, sites') ->
  well_keyed sites -> well_keyed sites'.
Proof.
  unfold sites_getitem. run_exn.
  destruct (dict_key site_id) as [e|k0] eqn:Hk; [done|]. simpl.
  destruct (sites_find k0 sites) as [s0|] eqn:Hfind; intros [= <- <- <-];
    [done|].
  intros [Hnd Hall]. split.
  - unfold site_keys. rewrite map_app. simpl. rewrite Hk.
    apply NoDup_app. split; [done|]. split; [|apply NoDup_singleton].
    intros x Hx ->%list_elem_of_singleton.
    by apply (sites_find_None_keys _ _ Hfind).
  - apply Forall_app. split; [done|]. constructor; [eauto|constructor].
Qed.

Lemma well_keyed_find sites stored s k :
  well_keyed sites -> (stored, s) ∈ sites -> dict_key stored = inr k ->
  sites_find k sites = Some s.
Proof.
  intros [Hnd _]. induction sites as [|[stored0 s0] rest IH]; simpl.
  - intros Hin. by apply elem_of_nil in Hin.
  - intros Hin Hk. simpl in Hnd. apply NoDup_cons in Hnd as [Hnotin Hnd].
    apply elem_of_cons in Hin as [[= <- <-]|Hin].
    + by rewrite (proj2 (same_key_spec _ _) Hk).
    + destruct (same_key k stored0) eqn:Hk0; [|by apply IH].
      exfalso. apply Hnotin. apply same_key_spec in Hk0. rewrite Hk0, <- Hk.
      apply list_elem_of_In. unfold site_keys.
      apply (in_map (fun e => dict_key (fst e)) rest (stored, s)).
      by apply list_elem_of_In.
Qed.

Lemma process_location_well_keyed sites site_id device w sites' loc w' :
  process_location net sites site_id device w = (Ret (sites', loc), w') ->
  well_keyed sites -> well_keyed sites'.
Proof.
  unfold process_location. intros Hrun Hsites.
  apply bind_Ret_inv in Hrun as (coords & w1 & Hc & Hrun).
  apply lift_Ret_inv in Hc as [_ ->].
  destruct coords; [|by injection Hrun as <- <- <-].
  do 3 (apply bind_Ret_inv in Hrun as (? & ? & Hx & Hrun);
        apply lift_Ret_inv in Hx as [_ ->]).
  apply bind_Ret_inv in Hrun as ([] & w1 & _ & Hrun).
  apply bind_Ret_inv in Hrun as (geo & w2 & _ & Hrun).
  apply bind_Ret_inv in Hrun as ([[k s] sites0] & w3 & Hget & Hrun).
  apply lift_Ret_inv in Hget as [Hget ->].
  pose proof (sites_getitem_well_keyed _ _ _ _ _ Hget Hsites) as Hsites0.
  injection Hrun as <- <- <-.
  destruct (location s); [done|]. by apply sites_alter_well_keyed.
Qed.

Lemma classify_site_well_keyed sites site_id device sites' :
  classify_site sites site_id device = inr sites' ->
  well_keyed sites -> well_keyed sites'.
Proof.
  unfold classify_site. run_exn. intros Hrun Hsites.
  destruct (py_get_none device "device-type") as [e|ty]; [done|]. simpl in Hrun.
  destruct (sites_getitem sites site_id) as [e|[[k s] sites0]] eqn:Hget;
    [by destruct (is_control_type ty)|].
  pose proof (sites_getitem_well_keyed _ _ _ _ _ Hget Hsites) as Hsites0.
  destruct (is_control_type ty); simpl in Hrun.
  - injection Hrun as <-. by apply sites_alter_well_keyed.
  - destruct (String.eqb (site_type s) "unknown"); injection Hrun as <-;
      [by apply sites_alter_well_keyed|done].
Qed.

Lemma process_device_well_keyed total sites i device w sites' w' :
  process_device net total sites i device w = (Ret sites', w') ->
  well_keyed sites -> well_keyed sites'.
Proof.
  unfold process_device. intros Hrun Hsites.
  do 2 (apply bind_Ret_inv in Hrun as (? & ? & Hx & Hrun);
        apply lift_Ret_inv in Hx as [_ ->]).
  apply bind_Ret_inv in Hrun as ([] & w1 & _ & Hrun).
  do 7 (apply bind_Ret_inv in Hrun as (? & ? & Hx & Hrun);
        apply lift_Ret_inv in Hx as [_ ->]).
  apply bind_Ret_inv in Hrun as ([sites1 loc] & w2 & Hloc & Hrun).
  pose proof (process_location_well_keyed _ _ _ _ _ _ _ Hloc Hsites) as Hsites1.
  apply bind_Ret_inv in Hrun as (sites2 & w3 & Hcls & Hrun).
  apply lift_Ret_inv in Hcls as [Hcls ->].
  pose proof (classify_site_well_keyed _ _ _ _ Hcls Hsites1) as Hsites2.
  apply bind_Ret_inv in Hrun as ([[k s] sites3] & w4 & Hget & Hrun).
  apply lift_Ret_inv in Hget as [Hget ->].
  pose proof (sites_getitem_well_keyed _ _ _ _ _ Hget Hsites2) as Hsites3.
  injection Hrun as <- <-. by apply sites_alter_well_keyed.
Qed.

Lemma process_devices_well_keyed total sites i items w sites' w' :
  process_devices net total sites i items w = (Ret sites', w') ->
  well_keyed sites -> well_keyed sites'.
Proof.
  revert sites i w. induction items as [|device rest IH]; intros sites i w; simpl.
  - by intros [= <- <-].
  - intros Hrun Hsites.
    apply bind_Ret_inv in Hrun as (sites1 & w1 & Hstep & Hrun).
    eapply IH; [exact Hrun|]. by eapply process_device_well_keyed.
Qed.

Lemma attach_tloc_sites_fst index sites sites' :
  attach_tloc_sites index sites = inr sites' -> map fst sites' = map fst sites.
Proof.
  revert sites'. induction sites as [|[stored s] rest IH]; intros sites';
    simpl; run_exn.
  - by intros [= <-].
  - destruct (attach_tloc_devices index (devices s)) as [e|ds]; [done|].
    destruct (attach_tloc_sites index rest) as [e|rest'] eqn:Hrest; [done|].
    intros [= <-]. simpl. f_equal. by apply IH.
Qed.

Lemma empty_well_keyed : well_keyed [].
Proof. split; constructor. Qed.

Lemma extract_well_keyed w sites w' :
  extract_sites_with_geocoding net w = (Ret (Some sites), w') ->
  well_keyed sites.
Proof.
  intros (items & w0 & sites0 & w1 & index & _ & Hloop & Hatt)%extract_spec.
  eapply well_keyed_fst; [by eapply attach_tloc_sites_fst|].
  eapply process_devices_well_keyed; [exact Hloop|apply empty_well_keyed].
Qed.

(** X1: in the mapping [extract_sites_with_geocoding] returns, a site
    exists exactly for the keys of the input devices: a key without site
    has no device in the inventory and a site has at least one.  The
    mapping is a dict, its keys are hashable and pairwise different, so
    that every entry is the site of its key.  No site is empty and no
    site is left "unknown": a site is "control_plane" when one of its
    devices has a control-plane type, whatever its position, and
    "branch" otherwise. *)
Theorem sites_typed_by_devices w sites w' items :
  extract_sites_with_geocoding net w = (Ret (Some sites), w') ->
  fetched_devices net = Some items ->
  (forall k,
     match sites_find k sites with
     | None => filter (fun dv => of_site k dv = true) items = []
     | Some s =>
         filter (fun dv => of_site k dv = true) items <> []
         /\ devices s <> []
         /\ site_type s = expected_type k items
         /\ site_type s <> "unknown"
     end)
  /\ NoDup (site_keys sites)
  /\ Forall (fun e =>
               exists k, dict_key (fst e) = inr k
                 /\ sites_find k sites = Some (snd e)
                 /\ filter (fun dv => of_site k dv = true) items <> []
                 /\ devices (snd e) <> []
                 /\ site_type (snd e) = expected_type k items
                 /\ site_type (snd e) <> "unknown") sites.
Proof.
  intros Hrun Hfetched.
  pose proof (extract_well_keyed _ _ _ Hrun) as Hkeyed.
  assert (Hper : forall k,
     match sites_find k sites with
     | None => filter (fun dv => of_site k dv = true) items = []
     | Some s =>
         filter (fun dv => of_site k dv = true) items <> []
         /\ devices s <> []
         /\ site_type s = expected_type k items
         /\ site_type s <> "unknown"
     end).
  { apply extract_spec in Hrun
      as (items' & w0 & sites0 & w1 & index & Hitems & Hloop & Hatt).
    assert (items' = items) as -> by congruence. intros k.
    pose proof (process_devices_typed _ _ _ _ _ _ _ [] Hloop) as Htyped.
    simpl in Htyped. specialize (Htyped (fun k0 => eq_refl) k).
    destruct (process_devices_invariants _ _ _ _ _ _ _ _ [] Hloop)
      as [_ Hfollow]; [by intros k0 s0|intros k0; simpl; constructor|].
    specialize (Hfollow k). simpl in Hfollow. unfold devices_of in Hfollow.
    pose proof (attach_tloc_sites_spec index sites0 sites k Hatt) as Hk.
    destruct (sites_find k sites) as [s|].
    - destruct Hk as (s0 & Hs0 & _ & _ & Htype & Hds).
      rewrite Hs0 in Htyped, Hfollow. destruct Htyped as [Hne Ht].
      split; [|split; [|split]].
      + intros Hnil. rewrite Hnil in Hfollow. inversion Hfollow. by subst.
      + intros Hnil. rewrite Hnil in Hds. inversion Hds. by subst.
      + by rewrite Htype.
      + rewrite Htype, Ht. unfold expected_type. by destruct (existsb _ _).
    - by rewrite Hk in Htyped. }
  split; [exact Hper|]. split; [apply Hkeyed|].
  apply Forall_forall. intros [stored s] He.
  destruct (proj1 (Forall_forall _ _) (proj2 Hkeyed) _ He) as [k Hk].
  simpl in Hk. exists k. simpl. split; [done|].
  pose proof (well_keyed_find _ _ _ _ Hkeyed He Hk) as Hfind.
  split; [done|]. specialize (Hper k). by rewrite Hfind in Hper.
Qed.

End Typing.

Section Topology.
Context `{PyRuntime}.

Lemma tloc_find_append k k' t index :
  tloc_find k' (tloc_append k t index)
  = if decide (k = k')
    then Some (default [] (tloc_find k index) ++ [t])%list
    else tloc_find k' index.
Proof.
  induction index as [|[k0 l] rest IH]; simpl.
  - destruct (decide (k = k')) as [->|Hne].
    + by rewrite bool_decide_true.
    + by rewrite bool_decide_false.
  - destruct (decide (k0 = k)) as [->|Hk0].
    + rewrite bool_decide_true by done. simpl.
      destruct (decide (k = k')) as [->|Hne].
      * by rewrite bool_decide_true.
      * by rewrite bool_decide_false.
    + rewrite (bool_decide_false (k0 = k)) by done. simpl. rewrite IH.
      destruct (decide (k = k')) as [<-|Hne]; [|done].
      by rewrite bool_decide_false.
Qed.

(** One record moves the index by its entry, or raises. *)
Lemma index_tloc_spec index tloc index' :
  index_tloc index tloc = inr index' ->
  index' = match tloc_entry tloc with
           | Some (k, t) => tloc_append k t index
           | None => index
           end.
Proof.
  unfold index_tloc, tloc_entry, py_get_none. run_exn.
  destruct tloc as [| | | | | |d]; try done. simpl.
  destruct (truthy (default PNone (assoc "system-ip" d))); [|by intros [= <-]].
  destruct (dict_key _) as [e|k]; [done|]. by intros [= <-].
Qed.

Lemma index_tlocs_spec index entries index' k :
  index_tlocs index entries = inr index' ->
  (forall k0 l, tloc_find k0 index = Some l -> l <> []) ->
  default [] (tloc_find k index')
  = (default [] (tloc_find k index) ++ links_of k entries)%list
  /\ (forall k0 l, tloc_find k0 index' = Some l -> l <> []).
Proof.
  revert index. induction entries as [|tloc rest IH]; intros index; simpl;
    run_exn.
  - intros [= <-] Hne. by rewrite app_nil_r.
  - destruct (index_tloc index tloc) as [e|index1] eqn:Hstep; [done|].
    apply index_tloc_spec in Hstep. intros Hrun Hne.
    destruct (IH index1 Hrun) as [Hfind Hne'].
    { subst index1. destruct (tloc_entry tloc) as [[k1 t]|]; [|done].
      intros k0 l. rewrite tloc_find_append. case_decide; [|apply Hne].
      intros [= <-]. by destruct (default [] (tloc_find k1 index)). }
    split; [|done]. rewrite Hfind. subst index1. unfold links_of. simpl.
    destruct (tloc_entry tloc) as [[k1 t]|]; [|done].
    rewrite tloc_find_append. destruct (decide (k1 = k)) as [->|Hk1]; simpl.
    + by rewrite <- app_assoc.
    + done.
Qed.

(** X2: the index built from the topology records files, under every
    system IP, the summaries of the records of that IP in the order of
    the records; records without a truthy system-ip are skipped, missing
    fields default to "N/A", 0 and 0, and a system IP has an entry only
    when a record names it. *)
Theorem tloc_index_groups_by_ip tloc_data entries index k :
  build_tloc_index tloc_data = inr index ->
  truthy tloc_data = true ->
  py_contains tloc_data "data" = inr true ->
  py_getitem tloc_data "data" ≫= py_iter = inr entries ->
  tloc_find k index
  = match links_of k entries with
    | [] => None
    | links => Some links
    end.
Proof.
  unfold build_tloc_index. intros Hbuild Htruthy Hdata Hentries.
  rewrite Htruthy, Hdata in Hbuild. run_exn.
  destruct (py_getitem tloc_data "data") as [e|data]; [done|].
  rewrite Hentries in Hbuild.
  destruct (index_tlocs_spec [] entries index k Hbuild) as [Hfind Hne]; [done|].
  simpl in Hfind. destruct (tloc_find k index) as [l|] eqn:Hk; simpl in Hfind.
  - rewrite <- Hfind. specialize (Hne k l Hk). by destruct l.
  - by rewrite <- Hfind.
Qed.

Lemma attach_tloc_linked index d d' :
  attach_tloc index d = inr d' -> linked index d d'.
Proof.
  unfold attach_tloc, linked. run_exn.
  destruct (dict_key (system_ip d)) as [e|k]; [done|]. simpl.
  destruct (tloc_find k index) as [l|] eqn:Hfind; intros [= <-];
    (split; [done|]); exists k; by rewrite Hfind.
Qed.

Lemma attach_tloc_devices_linked index ds ds' :
  attach_tloc_devices index ds = inr ds' -> Forall2 (linked index) ds ds'.
Proof.
  revert ds'. induction ds as [|d ds IH]; intros ds'; simpl; run_exn.
  - intros [= <-]. constructor.
  - destruct (attach_tloc index d) as [e|d'] eqn:Hd; [done|].
    destruct (attach_tloc_devices index ds) as [e|ds0]; [done|].
    intros [= <-]. constructor; [by apply attach_tloc_linked|by apply IH].
Qed.

(** X3: the topology phase keeps the sites, their keys and their order,
    the location, geocoded location and type of every site, and the
    devices of every site with all their attributes; the only change is
    that a device whose system IP is in the index gets the links filed
    under it. *)
Theorem topology_only_adds_links index sites sites' :
  attach_tloc_sites index sites = inr sites' ->
  Forall2 (site_linked index) sites sites'.
Proof.
  revert sites'. induction sites as [|[stored s] rest IH]; intros sites';
    simpl; run_exn.
  - intros [= <-]. constructor.
  - destruct (attach_tloc_devices index (devices s)) as [e|ds] eqn:Hds; [done|].
    destruct (attach_tloc_sites index rest) as [e|rest']; [done|].
    intros [= <-]. constructor; [|by apply IH].
    unfold site_linked. simpl. do 4 (split; [done|]).
    by apply attach_tloc_devices_linked.
Qed.

Lemma attach_tloc_devices_empty ds :
  (Forall (fun d => exists k, dict_key (system_ip d) = inr k) ds ->
   attach_tloc_devices [] ds = inr ds)
  /\ (forall ds', attach_tloc_devices [] ds = inr ds' ->
        Forall (fun d => exists k, dict_key (system_ip d) = inr k) ds).
Proof.
  induction ds as [|d ds [IH1 IH2]]; simpl; run_exn.
  - split; [done|]. intros. constructor.
  - unfold attach_tloc. run_exn. split.
    + intros [[k Hk] Hrest]%Forall_cons. rewrite Hk. simpl.
      by rewrite (IH1 Hrest).
    + intros ds'. destruct (dict_key (system_ip d)) as [e|k] eqn:Hk; [done|].
      simpl. destruct (attach_tloc_devices [] ds) as [e|ds0]; [done|].
      intros _. constructor; [eauto|by eapply IH2].
Qed.

(** X4: when the topology data is missing, empty or has no "data" entry,
    the index is empty, and the topology phase returns the mapping
    unchanged when every system IP can be hashed; when one cannot (a
    list or an object), the phase raises although there is nothing to
    attach. *)
Theorem no_topology_no_links tloc_data sites :
  truthy tloc_data = false \/ py_contains tloc_data "data" = inr false ->
  build_tloc_index tloc_data = inr []
  /\ (hashable_ips sites -> attach_tloc_sites [] sites = inr sites)
  /\ (~ hashable_ips sites -> exists e, attach_tloc_sites [] sites = inl e).
Proof.
  intros Hnone. split; [|split].
  - unfold build_tloc_index. destruct Hnone as [->| Hc]; [done|].
    rewrite Hc. by destruct (truthy tloc_data).
  - induction 1 as [|[stored s] rest Hs Hrest IH]; simpl; run_exn; [done|].
    simpl in Hs. rewrite (proj1 (attach_tloc_devices_empty _) Hs), IH.
    by destruct s.
  - intros Hnot. destruct (attach_tloc_sites [] sites) as [e|sites'] eqn:Hrun;
      [eauto|].
    exfalso. apply Hnot. clear Hnot. revert sites' Hrun.
    induction sites as [|[stored s] rest IH]; intros sites'; simpl; run_exn.
    + intros _. constructor.
    + destruct (attach_tloc_devices [] (devices s)) as [e|ds] eqn:Hds; [done|].
      destruct (attach_tloc_sites [] rest) as [e|rest'] eqn:Hrest; [done|].
      intros _. constructor.
      * by apply (proj2 (attach_tloc_devices_empty _) ds).
      * by eapply IH.
Qed.

End Topology.

Section Pacing.
Context `{PyRuntime} (net : network).

Ltac paced_leaf :=
  unfold paced; simpl; split_and!;
  try lia; try done; try (by apply insert_subseteq);
  try (by apply prefix_app_r).

Lemma paced_refl w : paced 0 w w.
Proof. paced_leaf. Qed.

Lemma paced_weaken n m w w' : (n <= m)%nat -> paced n w w' -> paced m w w'.
Proof. unfold paced. intros Hle (? & ? & ? & ? & ? & ? & ?). split_and!; try done; lia. Qed.

Lemma paced_trans n m w w1 w2 :
  paced n w w1 -> paced m w1 w2 -> paced (n + m) w w2.
Proof.
  unfold paced.
  intros (? & ? & ? & ? & ? & ? & ?) (? & ? & ? & ? & ? & ? & ?).
  split_and!; try lia; try congruence; by etrans.
Qed.

Lemma paced_bind {A B} (m : M A) (f : A -> M B) n k w :
  paced n w (snd (m w)) ->
  (forall a w1, m w = (Ret a, w1) -> paced k w1 (snd (f a w1))) ->
  paced (n + k) w (snd ((m ≫= f) w)).
Proof.
  intros Hm Hf. unfold mbind, M_bind.
  destruct (m w) as [[a|e|c] w1] eqn:Hrun; simpl in *.
  - eapply paced_trans; [exact Hm|]. by apply Hf.
  - eapply paced_weaken; [|exact Hm]. lia.
  - eapply paced_weaken; [|exact Hm]. lia.
Qed.

Lemma paced_lift {A} (x : exn A) w : paced 0 w (snd (lift x w)).
Proof. destruct x; apply paced_refl. Qed.

Lemma paced_print line w : paced 0 w (snd (print line w)).
Proof. paced_leaf. Qed.

Lemma paced_http r w : paced 0 w (snd (http r w)).
Proof. destruct r; apply paced_refl. Qed.

Lemma reverse_geocode_paced lat lon w :
  paced 1 w (snd (reverse_geocode_nominatim net lat lon w)).
Proof.
  unfold reverse_geocode_nominatim. run_M.
  destruct (cache w !! cache_key lat lon) eqn:Hhit; simpl; [paced_leaf|].
  destruct (nominatim net (geo_calls w) lat lon) as [e|status text json]; simpl;
    [paced_leaf|].
  destruct (Z.eqb status 200); simpl; [|paced_leaf].
  destruct json as [e|data]; simpl; [paced_leaf|].
  destruct (build_location_info data) as [e|info]; simpl; paced_leaf.
Qed.

(** X5: what one reverse-geocoding call costs.  Served from the cache,
    it leaves the world as it is.  Otherwise it sends exactly one request
    to the service; it sleeps one second when the service answered,
    whatever the status, and not at all when the request raised; and the
    cache is left alone or gains the entry of these coordinates. *)
Theorem geocoder_call_accounting lat lon w :
  let w' := snd (reverse_geocode_nominatim net lat lon w) in
  match cache w !! cache_key lat lon with
  | Some _ => w' = w
  | None =>
      geo_calls w' = S (geo_calls w)
      /\ slept w' = (slept w
                     + match nominatim net (geo_calls w) lat lon with
                       | HttpRaises _ => 0
                       | HttpResponse _ _ _ => 1
                       end)%nat
      /\ (cache w' = cache w
          \/ exists info, cache w' = <[cache_key lat lon := info]> (cache w))
  end.
Proof.
  unfold reverse_geocode_nominatim. run_M.
  destruct (cache w !! cache_key lat lon) eqn:Hhit; simpl; [done|].
  destruct (nominatim net (geo_calls w) lat lon) as [e|status text json]; simpl.
  { split_and!; [done|lia|by left]. }
  destruct (Z.eqb status 200); simpl; [|by split_and!; [| |left]].
  destruct json as [e|data]; simpl; [by split_and!; [| |left]|].
  destruct (build_location_info data) as [e|info]; simpl.
  - by split_and!; [| |left].
  - split_and!; [done|done|right; eauto].
Qed.

Lemma paced_any n w : paced n w w.
Proof. eapply paced_weaken; [|apply paced_refl]. lia. Qed.

Lemma paced_step {A B} (m : M A) (f : A -> M B) n w :
  paced 0 w (snd (m w)) ->
  (forall a w1, m w = (Ret a, w1) -> paced n w1 (snd (f a w1))) ->
  paced n w (snd ((m ≫= f) w)).
Proof. intros Hm Hf. by apply (paced_bind m f 0 n). Qed.

Lemma paced_lift_bind {A B} (x : exn A) (f : A -> M B) n w :
  (forall a, x = inr a -> paced n w (snd (f a w))) ->
  paced n w (snd ((lift x ≫= f) w)).
Proof.
  intros Hf. destruct x as [e|a]; [apply paced_any|]. by apply Hf.
Qed.

Lemma process_location_paced sites site_id device w :
  paced (if geocodable device then 1 else 0)%nat w
        (snd (process_location net sites site_id device w)).
Proof.
  unfold process_location, geocodable.
  apply paced_lift_bind. intros coords Hc. rewrite Hc. destruct coords.
  - rewrite bool_decide_eq_true_2 by done.
    apply paced_lift_bind; intros lat _.
    apply paced_lift_bind; intros lon _.
    apply paced_lift_bind; intros gps _.
    apply paced_step; [apply paced_print|]. intros _ w1 _.
    apply (paced_bind _ _ 1 0); [apply reverse_geocode_paced|].
    intros g w2 _.
    apply paced_lift_bind. intros [[k s] sites'] _. apply paced_refl.
  - rewrite bool_decide_eq_false_2 by done. apply paced_refl.
Qed.

Lemma process_device_paced total sites i device w :
  paced (if geocodable device then 1 else 0)%nat w
        (snd (process_device net total sites i device w)).
Proof.
  unfold process_device.
  apply paced_lift_bind; intros site_id _.
  apply paced_lift_bind; intros shown _.
  apply paced_step; [apply paced_print|]. intros _ w1 _.
  do 7 (apply paced_lift_bind; intros ? _).
  replace (if geocodable device then 1 else 0)%nat
    with ((if geocodable device then 1 else 0) + 0)%nat by lia.
  apply paced_bind; [apply process_location_paced|].
  intros [sites' loc] w2 _.
  apply paced_lift_bind; intros sites2 _.
  apply paced_lift_bind. intros [[k s] sites3] _. apply paced_refl.
Qed.

Lemma process_devices_paced total sites i items w :
  paced (length (filter (fun dv => geocodable dv = true) items)) w
        (snd (process_devices net total sites i items w)).
Proof.
  revert sites i w. induction items as [|device rest IH]; intros sites i w.
  - apply paced_refl.
  - simpl process_devices. rewrite filter_cons.
    destruct (decide (geocodable device = true)) as [Hg|Hg].
    + apply (paced_bind _ _ 1); [|intros; apply IH].
      generalize (process_device_paced total sites i device w). by rewrite Hg.
    + apply paced_step; [|intros; apply IH].
      generalize (process_device_paced total sites i device w).
      by destruct (geocodable device).
Qed.

Lemma get_devices_world w a w' :
  get_devices net w = (Ret a, w') ->
  w' = w /\ (a = PNone \/ exists status text,
               devices_response net = HttpResponse status text (inr a)
               /\ Z.eqb status 200 = true).
Proof.
  unfold get_devices. run_M.
  destruct (devices_response net) as [e|status text json]; simpl; [done|].
  destruct (Z.eqb status 200) eqn:Hs; simpl.
  - destruct json as [e|data]; simpl; [done|]. intros [= <- <-]. eauto 6.
  - intros [= <- <-]. eauto.
Qed.

Lemma get_tloc_data_paced w : paced 0 w (snd (get_tloc_data net w)).
Proof.
  unfold get_tloc_data. apply paced_step; [apply paced_http|].
  intros [[status text] json] w1 _.
  destruct (Z.eqb status 200); [apply paced_lift|apply paced_refl].
Qed.

Lemma get_devices_paced w : paced 0 w (snd (get_devices net w)).
Proof.
  unfold get_devices. apply paced_step; [apply paced_http|].
  intros [[status text] json] w1 _.
  destruct (Z.eqb status 200); [apply paced_lift|apply paced_refl].
Qed.

(** The pace of the whole extraction, whatever its outcome. *)
Lemma extraction_paced w :
  paced (length (filter (fun dv => geocodable dv = true)
                        (default [] (fetched_devices net))))
        w (snd (extract_sites_with_geocoding net w)).
Proof.
  unfold extract_sites_with_geocoding.
  apply paced_step; [apply paced_print|]. intros _ w1 _.
  apply paced_step; [apply get_devices_paced|]. intros devices_data w2 Hget.
  apply get_devices_world in Hget as [-> Hdata].
  apply paced_lift_bind. intros unusable Hu. destruct unusable.
  { apply paced_step; [apply paced_print|]. intros. apply paced_any. }
  apply paced_step; [apply paced_print|]. intros _ w3 _.
  apply paced_step; [apply get_tloc_data_paced|]. intros tloc_data w4 _.
  apply paced_step; [apply paced_print|]. intros _ w5 _.
  apply paced_lift_bind. intros data Hd.
  apply paced_lift_bind. intros items Hitems.
  destruct Hdata as [->|(status & text & Hresp & Hs)]; [done|].
  unfold fetched_devices. rewrite Hresp, Hs.
  unfold mbind, exn_mbind, exn_bind. rewrite Hd, Hitems. simpl default.
  replace (length (filter (fun dv => geocodable dv = true) items))
    with (length (filter (fun dv => geocodable dv = true) items) + 0)%nat by lia.
  apply paced_bind; [apply process_devices_paced|]. intros sites w6 _.
  apply paced_lift_bind; intros index _.
  apply paced_lift_bind; intros sites' _. apply paced_refl.
Qed.

(** X6: however the extraction ends (with the mapping, with [None], or
    with an exception), it has sent the geocoding service at most one
    request for each device of the inventory that carries coordinates,
    and has slept at most one second for each request; it has only added
    entries to the cache and lines to the output, and has touched neither
    the session token nor the output file. *)
Theorem extraction_is_paced w :
  paced (length (filter (fun dv => geocodable dv = true)
                        (default [] (fetched_devices net))))
        w (snd (extract_sites_with_geocoding net w)).
Proof. apply extraction_paced. Qed.

End Pacing.

Section Address.
Context `{PyRuntime}.

Lemma first_truthy_cons d k rest :
  first_truthy d (k :: rest)
  = if truthy (default PNone (assoc k d)) then Some (default PNone (assoc k d))
    else first_truthy d rest.
Proof. simpl. by destruct (assoc k d). Qed.

Lemma first_truthy_truthy d keys v :
  first_truthy d keys = Some v -> truthy v = true.
Proof.
  induction keys as [|k rest IH]; [done|]. rewrite first_truthy_cons.
  destruct (truthy (default PNone (assoc k d))) eqn:Ht; [|done].
  by intros [= <-].
Qed.

Lemma format_address_parts d :
  _format_address (PDict d)
  = match address_parts d with
    | [] => inr (PStr "Unknown Location")
    | parts => py_join ", " parts
    end.
Proof.
  unfold _format_address, address_parts, py_or, py_get_none, py_get.
  run_exn. cbn [omap list_omap].
  rewrite !first_truthy_cons. cbn [first_truthy exn_bind].
  destruct (truthy (default PNone (assoc "city" d))) eqn:H1;
  destruct (truthy (default PNone (assoc "town" d))) eqn:H2;
  destruct (truthy (default PNone (assoc "village" d))) eqn:H3;
  destruct (truthy (default PNone (assoc "hamlet" d))) eqn:H4;
  destruct (truthy (default PNone (assoc "state" d))) eqn:H5;
  destruct (truthy (default PNone (assoc "province" d))) eqn:H6;
  destruct (truthy (default PNone (assoc "country" d))) eqn:H7;
  simpl; rewrite ?H1, ?H2, ?H3, ?H4, ?H5, ?H6, ?H7; reflexivity.
Qed.

Lemma py_join_items_strings i parts ss :
  py_join_items i parts = inr ss -> parts = PStr <$> ss.
Proof.
  revert i ss. induction parts as [|p parts IH]; intros i ss; simpl.
  - by intros [= <-].
  - destruct p; try done.
    destruct (py_join_items (S i) parts) as [e|ss'] eqn:Hrest; simpl; [done|].
    intros [= <-]. simpl. f_equal. by eapply IH.
Qed.

Lemma join_str_nonempty sep t ts : t <> "" -> join_str sep (t :: ts) <> "".
Proof.
  unfold join_str. destruct t as [|a t]; [done|]. intros _.
  simpl. by destruct ts.
Qed.

(** X7: when [_format_address] returns, its argument is an object and
    the result is a text that is never empty: "Unknown Location" when
    the address has no truthy place, region or country, and otherwise the
    chosen components, all of them non-empty texts, joined by ", ", the
    place being the first truthy of city, town, village and hamlet and
    the region the first truthy of state and province. *)
Theorem formatted_address_is_text address v :
  _format_address address = inr v ->
  exists d, address = PDict d
    /\ v <> PStr ""
    /\ match address_parts d with
       | [] => v = PStr "Unknown Location"
       | parts =>
           exists names, parts = PStr <$> names
             /\ Forall (fun t => t <> "") names
             /\ v = PStr (join_str ", " names)
       end.
Proof.
  destruct address as [| | | | | |d]; try done.
  rewrite format_address_parts. intros Hrun. exists d. split; [done|].
  assert (Htruthy : Forall (fun p => truthy p = true) (address_parts d)).
  { unfold address_parts. apply Forall_forall. intros p Hp.
    apply list_elem_of_omap in Hp as (keys & _ & Hp).
    by eapply first_truthy_truthy. }
  destruct (address_parts d) as [|p parts] eqn:Hparts.
  { injection Hrun as <-. done. }
  unfold py_join in Hrun.
  destruct (py_join_items 0 (p :: parts)) as [e|names] eqn:Hitems; [done|].
  simpl in Hrun. injection Hrun as <-.
  apply py_join_items_strings in Hitems.
  assert (Hnames : Forall (fun t => t <> "") names).
  { rewrite Hitems in Htruthy. apply Forall_fmap in Htruthy.
    eapply Forall_impl; [exact Htruthy|]. intros t; simpl.
    destruct t; [done|]. by intros _. }
  split.
  - destruct names as [|t ts]; [done|]. intros [= Hj].
    apply Forall_cons in Hnames as [Ht _]. by eapply join_str_nonempty.
  - eauto.
Qed.

End Address.

Section Output.
Context `{PyRuntime} (net : network).

Lemma print_all_paced lines w : paced 0 w (snd (print_all lines w)).
Proof.
  revert w. induction lines as [|l rest IH]; intros w; [apply paced_refl|].
  simpl. apply paced_step; [apply paced_print|]. intros. apply IH.
Qed.

Lemma print_city_paced geo w : paced 0 w (snd (print_city geo w)).
Proof.
  unfold print_city.
  do 4 (apply paced_lift_bind; intros ? _).
  apply paced_step; [apply paced_print|]. intros _ w1 _.
  apply paced_lift_bind; intros postcode _.
  destruct (truthy postcode); [|apply paced_refl].
  apply paced_lift_bind; intros ? _. apply paced_print.
Qed.

Lemma print_control_site_paced entry w :
  paced 0 w (snd (print_control_site entry w)).
Proof.
  destruct entry as [k s]. unfold print_control_site, print_site_header.
  apply paced_step; [apply paced_print|]. intros _ w1 _.
  apply paced_step; [|intros; apply print_all_paced].
  destruct (geocoded_location s) as [geo|]; [|apply paced_refl].
  destruct (truthy geo); [|apply paced_refl].
  apply paced_lift_bind; intros ? _.
  apply paced_step; [apply paced_print|]. intros _ w2 _.
  apply paced_step; [apply print_city_paced|]. intros _ w3 _.
  apply paced_lift_bind; intros ? _. apply paced_print.
Qed.

Lemma print_branch_site_paced entry w :
  paced 0 w (snd (print_branch_site entry w)).
Proof.
  destruct entry as [k s]. unfold print_branch_site, print_site_header.
  apply paced_step; [apply paced_print|]. intros _ w1 _.
  apply paced_step; [|intros; apply print_all_paced].
  destruct (geocoded_location s) as [geo|]; [|apply paced_refl].
  destruct (truthy geo); [|apply paced_refl].
  apply paced_lift_bind; intros ? _.
  apply paced_lift_bind; intros ? _.
  apply paced_step; [apply paced_print|]. intros _ w2 _.
  apply paced_step; [apply print_city_paced|]. intros _ w3 _.
  apply paced_print.
Qed.

Lemma for_each_paced {A} (body : A -> M unit) items w :
  (forall x w, paced 0 w (snd (body x w))) ->
  paced 0 w (snd (for_each body items w)).
Proof.
  intros Hbody. revert w. induction items as [|x rest IH]; intros w;
    [apply paced_refl|].
  simpl. apply paced_step; [apply Hbody|]. intros. apply IH.
Qed.

Lemma report_paced sites w :
  paced 0 w (snd (print_geocoded_site_report sites w)).
Proof.
  unfold print_geocoded_site_report.
  do 6 (apply paced_step; [apply paced_print|]; intros _ ? _).
  apply paced_step.
  - destruct (filter _ sites); [apply paced_refl|].
    do 2 (apply paced_step; [apply paced_print|]; intros _ ? _).
    apply for_each_paced, print_control_site_paced.
  - intros _ ? _. destruct (filter _ sites); [apply paced_refl|].
    do 2 (apply paced_step; [apply paced_print|]; intros _ ? _).
    apply for_each_paced, print_branch_site_paced.
Qed.

Lemma summary_paced sites w :
  paced 0 w (snd (generate_location_summary sites w)).
Proof.
  unfold generate_location_summary.
  do 2 (apply paced_step; [apply paced_print|]; intros _ ? _).
  apply paced_lift_bind; intros [countries cities] _.
  apply paced_step; [apply paced_print|]; intros _ ? _.
  apply paced_lift_bind; intros ? _.
  apply paced_step; [apply print_all_paced|]; intros _ ? _.
  apply paced_step; [apply paced_print|]; intros _ ? _.
  apply paced_lift_bind; intros ? _.
  apply print_all_paced.
Qed.

Lemma guide_paced w : paced 0 w (snd (print_api_usage_guide w)).
Proof.
  unfold print_api_usage_guide.
  do 3 (apply paced_step; [apply paced_print|]; intros _ ? _).
  apply paced_print.
Qed.

Lemma paced_written n w w' : paced n w w' -> written w' = written w.
Proof. by intros (_ & _ & _ & _ & _ & _ & ?). Qed.

(** The outcome of a sequence, from the outcome of its first part. *)
Lemma bind_post {A B} (Q : outcome B * world -> Prop) (m : M A) (f : A -> M B) w :
  (forall e w1, m w = (Raise e, w1) -> Q (Raise e, w1)) ->
  (forall c w1, m w = (Exit c, w1) -> Q (Exit c, w1)) ->
  (forall a w1, m w = (Ret a, w1) -> Q (f a w1)) ->
  Q ((m ≫= f) w).
Proof.
  intros He Hc Hr. unfold mbind, M_bind.
  destruct (m w) as [[a|e|c] w1]; eauto.
Qed.

Lemma authenticate_written w : written (snd (authenticate net w)) = written w.
Proof.
  unfold authenticate. unfold mbind, mret, M_bind, M_ret, http, raise, set_token.
  destruct (login_response net) as [e|s1 t1 j1]; simpl; [done|].
  destruct (Z.eqb s1 200); [|done].
  destruct (token_response net) as [e|s2 t2 j2]; simpl; [done|].
  by destruct (Z.eqb s2 200).
Qed.

Lemma authenticate_cases w b w' :
  authenticate net w = (Ret b, w') ->
  (b = false /\ w' = w)
  \/ (b = true
      /\ exists t1 j1 text json,
           login_response net = HttpResponse 200 t1 j1
           /\ token_response net = HttpResponse 200 text json
           /\ w' = {| stdout := stdout w; cache := cache w;
                      geo_calls := geo_calls w; slept := slept w;
                      token := Some text; written := written w |}).
Proof.
  unfold authenticate. unfold mbind, mret, M_bind, M_ret, http, raise, set_token.
  destruct (login_response net) as [e|s1 t1 j1]; simpl; [done|].
  destruct (Z.eqb_spec s1 200) as [->|]; [|intros [= <- <-]; by left].
  destruct (token_response net) as [e|s2 t2 j2]; simpl; [done|].
  destruct (Z.eqb_spec s2 200) as [->|]; [|intros [= <- <-]; by left].
  intros [= <- <-]. right. split; [done|]. by exists t1, j1, t2, j2.
Qed.

Lemma authenticate_kept w x w' :
  authenticate net w = (x, w') -> written w' = written w.
Proof.
  intros Hrun. pose proof (authenticate_written w) as Hauth.
  by rewrite Hrun in Hauth.
Qed.

Lemma results_written w : exported net w (main net w).
Proof.
  unfold main.
  assert (Hkeep : forall {A} (m : M A) n w0 x w1,
             paced n w0 (snd (m w0)) -> m w0 = (x, w1) ->
             written w1 = written w0).
  { intros A m n w0 x w1 Hp Hrun. rewrite Hrun in Hp.
    by apply paced_written in Hp. }
  apply bind_post; [by intros e w1 [=]|by intros c w1 [=]|].
  intros [] w1 Hw1. unfold print in Hw1. injection Hw1 as <-.
  apply bind_post; [by intros e ? [=]|by intros c ? [=]|].
  intros [] w2 Hw2. unfold print in Hw2. injection Hw2 as <-.
  apply bind_post; [by intros e ? [=]|by intros c ? [=]|].
  intros [] w3 Hw3. unfold print in Hw3. injection Hw3 as <-.
  cbn [stdout cache geo_calls slept token written].
  apply bind_post.
  { intros e w4 Hrun%authenticate_kept. by left. }
  { intros c w4 Hrun%authenticate_kept. by left. }
  intros authenticated w4 Hrun.
  apply authenticate_cases in Hrun
    as [[-> ->]|[-> (t1 & j1 & text & json & Hlogin & Htoken & ->)]].
  { unfold mbind at 1, M_bind at 1. unfold mbind at 1, M_bind at 1.
    unfold print at 1, sys_exit. by left. }
  apply bind_post; [by intros e ? [=]|by intros c ? [=]|].
  intros [] w5 Hw5. injection Hw5 as <-.
  apply bind_post; [by intros e ? [=]|by intros c ? [=]|].
  intros [] w6 Hw6. unfold print in Hw6. injection Hw6 as <-.
  apply bind_post; [by intros e ? [=]|by intros c ? [=]|].
  intros [] w7 Hw7. unfold print in Hw7. injection Hw7 as <-.
  cbn [stdout cache geo_calls slept token written].
  match goal with |- exported _ _ (mbind _ _ ?w0) =>
    assert (Hstart : w0 = extraction_start w text)
      by (unfold extraction_start; f_equal; by rewrite <- !app_assoc);
    rewrite Hstart; clear Hstart end.
  pose proof (extraction_paced net (extraction_start w text)) as Hext.
  apply bind_post.
  { intros e w8 Hrun. rewrite Hrun in Hext. apply paced_written in Hext.
    by left. }
  { intros c w8 Hrun. rewrite Hrun in Hext. apply paced_written in Hext.
    by left. }
  intros sites w8 Hrun. pose proof Hext as Hw8. rewrite Hrun in Hw8.
  apply paced_written in Hw8. simpl in Hw8.
  destruct sites as [[|entry entries]|]; [by left| |by left].
  apply bind_post.
  { intros e w9 Hw9%(Hkeep _ _ 0%nat); [|apply report_paced].
    left. simpl. congruence. }
  { intros c w9 Hw9%(Hkeep _ _ 0%nat); [|apply report_paced].
    left. simpl. congruence. }
  intros _ w9 Hw9%(Hkeep _ _ 0%nat); [|apply report_paced].
  apply bind_post.
  { intros e w10 Hw10%(Hkeep _ _ 0%nat); [|apply summary_paced].
    left. simpl. congruence. }
  { intros c w10 Hw10%(Hkeep _ _ 0%nat); [|apply summary_paced].
    left. simpl. congruence. }
  intros _ w10 Hw10%(Hkeep _ _ 0%nat); [|apply summary_paced].
  assert (Hw10' : written w10 = written w) by congruence.
  unfold save_results.
  destruct (open_output net) as [e|] eqn:Hopen.
  { unfold mbind, M_bind, raise. left. simpl. done. }
  right. unfold mbind, M_bind, write_file, print, print_api_usage_guide.
  simpl. split; [done|]. split; [done|].
  exists t1, j1, text, json, (entry :: entries), w8.
  split; [done|]. split; [done|]. split; [done|]. split; [done|].
  by rewrite Hw10'.
Qed.

(** X9: a run of [main] writes at most one file.  Either the files are
    left as they were, or the run returned normally and appended one
    file: the output file, holding the non-empty mapping that this run's
    own call of the extraction returned, in the world the run had reached
    after a successful authentication.  So a run whose extraction
    returns no site (it raises, returns None or the empty mapping) writes
    nothing, and neither does a run that does not return normally
    (failed authentication, report, summary or opening of the file). *)
Theorem results_written_once w :
  (written (snd (main net w)) = written w
   \/ (fst (main net w) = Ret tt
       /\ open_output net = None
       /\ exists t1 j1 text json sites w1,
            login_response net = HttpResponse 200 t1 j1
            /\ token_response net = HttpResponse 200 text json
            /\ extract_sites_with_geocoding net (extraction_start w text)
               = (Ret (Some sites), w1)
            /\ sites <> []
            /\ written (snd (main net w))
               = (written w ++ [(output_file, sites)])%list))
  /\ ((forall text json sites w1,
         token_response net = HttpResponse 200 text json ->
         extract_sites_with_geocoding net (extraction_start w text)
           = (Ret (Some sites), w1) ->
         sites = []) ->
      written (snd (main net w)) = written w)
  /\ (fst (main net w) <> Ret tt -> written (snd (main net w)) = written w).
Proof.
  pose proof (results_written w) as Hmain. split; [exact Hmain|]. split.
  - intros Hnone.
    destruct Hmain as [Hsame|(_ & _ & t1 & j1 & text & json & sites & w1
                              & _ & Htoken & Hrun & Hne & _)]; [done|].
    by specialize (Hnone text json sites w1 Htoken Hrun).
  - intros Hfail. by destruct Hmain as [Hsame|[Hret _]].
Qed.

Lemma get_tloc_data_pure w w0 :
  get_tloc_data net w = (fst (get_tloc_data net w0), w).
Proof.
  unfold get_tloc_data, mbind, mret, M_bind, M_ret, http, lift, raise.
  destruct (tloc_response net) as [e|status text json]; simpl; [done|].
  destruct (Z.eqb status 200); [|done]. by destruct json.
Qed.

Lemma fetched_devices_usable items :
  fetched_devices net = Some items ->
  exists text data,
    devices_response net = HttpResponse 200 text (inr data)
    /\ truthy data = true
    /\ py_contains data "data" = inr true
    /\ py_getitem data "data" ≫= py_iter = inr items.
Proof.
  unfold fetched_devices.
  destruct (devices_response net) as [e|status text [e|data]]; try done.
  destruct (Z.eqb_spec status 200) as [->|]; [|done].
  destruct (py_getitem data "data" ≫= py_iter) as [e|items'] eqn:Hitems;
    [done|].
  intros [= ->]. exists text, data. split; [done|].
  unfold mbind, exn_mbind, exn_bind in Hitems.
  destruct data as [| | | | | |d]; try done. simpl in *.
  destruct (assoc "data" d) as [x|] eqn:Hx; [|done].
  split; [by destruct d|]. by split.
Qed.

(** X8: an inventory that is fetched and holds no device is reported as
    a failure: after a successful authentication, and when the topology
    fetch and the topology index go through, [main] prints "ERROR: Failed
    to extract site hierarchy" instead of an empty report, writes no file
    and returns normally. *)
Theorem empty_inventory_reported w t1 j1 t2 j2 tloc_data index :
  login_response net = HttpResponse 200 t1 j1 ->
  token_response net = HttpResponse 200 t2 j2 ->
  fetched_devices net = Some [] ->
  fst (get_tloc_data net w) = Ret tloc_data ->
  build_tloc_index tloc_data = inr index ->
  main net w = (Ret tt,
    {| stdout := stdout w ++ banner ++
         ["Getting TLOC data...";
          "Processing devices and geocoding locations...";
          "ERROR: Failed to extract site hierarchy"];
       cache := cache w; geo_calls := geo_calls w; slept := slept w;
       token := Some t2; written := written w |}).
Proof.
  intros Hlogin Htoken (text & data & Hdev & Htruthy & Hin & Hitems)%fetched_devices_usable
    Htloc Hindex.
  unfold main, authenticate, extract_sites_with_geocoding, get_devices.
  rewrite Hlogin, Htoken, Hdev.
  unfold mbind, mret, M_bind, M_ret, http, lift, raise, print, set_token,
    sys_exit; simpl.
  rewrite Htruthy. simpl. rewrite Hin. simpl.
  rewrite (get_tloc_data_pure _ w), Htloc.
  unfold mbind, exn_mbind, exn_bind in Hitems.
  destruct (py_getitem data "data") as [e|x]; [done|]. simpl in *.
  rewrite Hitems. simpl. rewrite Hindex. simpl.
  by rewrite <- !app_assoc.
Qed.

End Output.

Section Reporting.
Context `{PyRuntime} (net : network).

Lemma geocode_populated lat lon w v w' :
  cache_populated w ->
  reverse_geocode_nominatim net lat lon w = (Ret v, w') ->
  populated v /\ cache_populated w'.
Proof.
  intros Hw. destruct (cache w !! cache_key lat lon) as [v0|] eqn:Hc.
  { rewrite (geocode_hit _ _ _ _ _ Hc). intros [= <- <-]. eauto. }
  destruct (lookup_classify (nominatim net (geo_calls w) lat lon))
    as [[info Hs]|[oe Hf]].
  - rewrite (geocode_miss_success _ _ _ _ _ Hc Hs). intros [= <- <-].
    destruct Hs as (text & data & _ & Hb).
    split; [by eapply build_location_info_populated|].
    intros k v. simpl. rewrite lookup_insert. case_decide.
    + intros [= <-]. by eapply build_location_info_populated.
    + apply Hw.
  - destruct (geocode_miss_failure _ _ _ _ _ Hc Hf) as (w0 & Hrun & Hsame & _).
    rewrite Hrun. intros [= <- <-].
    split; [apply fallback_location_populated|].
    intros k v. rewrite Hsame. apply Hw.
Qed.

Lemma sites_find_Forall (P : site -> Prop) k sites s :
  Forall (fun e => P (snd e)) sites -> sites_find k sites = Some s -> P s.
Proof.
  induction 1 as [|[stored s0] rest Hs _ IH]; simpl; [done|].
  destruct (same_key k stored); [by intros [= <-]|done].
Qed.

Lemma sites_alter_Forall (P : site -> Prop) f k sites :
  (forall s, P s -> P (f s)) ->
  Forall (fun e => P (snd e)) sites ->
  Forall (fun e => P (snd e)) (sites_alter f k sites).
Proof.
  intros Hf. induction 1 as [|[stored s0] rest Hs Hrest IH]; simpl;
    [constructor|].
  destruct (same_key k stored); constructor; simpl in *; auto.
Qed.

Lemma sites_getitem_Forall (P : site -> Prop) sites site_id k s sites' :
  P default_site ->
  Forall (fun e => P (snd e)) sites ->
  sites_getitem sites site_id = inr (k, s, sites') ->
  P s /\ Forall (fun e => P (snd e)) sites'.
Proof.
  intros Hd Hsites. unfold sites_getitem. run_exn.
  destruct (dict_key site_id) as [e|k0]; [done|]. simpl.
  destruct (sites_find k0 sites) as [s0|] eqn:Hfind; intros [= <- <- <-].
  - split; [by eapply sites_find_Forall|done].
  - split; [done|]. apply Forall_app. split; [done|]. by constructor.
Qed.

Lemma default_site_reportable : reportable default_site.
Proof. done. Qed.

Lemma process_location_reportable sites site_id device w sites' loc w' :
  process_location net sites site_id device w = (Ret (sites', loc), w') ->
  cache_populated w ->
  Forall (fun e => reportable (snd e)) sites ->
  cache_populated w' /\ Forall (fun e => reportable (snd e)) sites'.
Proof.
  unfold process_location. intros Hrun Hw Hsites.
  apply bind_Ret_inv in Hrun as (coords & w1 & Hc & Hrun).
  apply lift_Ret_inv in Hc as [_ ->].
  destruct coords; [|by injection Hrun as <- <- <-].
  apply bind_Ret_inv in Hrun as (lat & w1 & Hlat & Hrun).
  apply lift_Ret_inv in Hlat as [_ ->].
  apply bind_Ret_inv in Hrun as (lon & w1 & Hlon & Hrun).
  apply lift_Ret_inv in Hlon as [_ ->].
  apply bind_Ret_inv in Hrun as (gps & w1 & Hgps & Hrun).
  apply lift_Ret_inv in Hgps as [_ ->].
  apply bind_Ret_inv in Hrun as ([] & w1 & Hprint & Hrun).
  assert (Hw1 : cache_populated w1).
  { unfold print in Hprint. injection Hprint as <-. exact Hw. }
  apply bind_Ret_inv in Hrun as (geo & w2 & Hgeo & Hrun).
  destruct (geocode_populated _ _ _ _ _ Hw1 Hgeo) as [Hpop Hw2].
  apply bind_Ret_inv in Hrun as ([[k s] sites0] & w3 & Hget & Hrun).
  apply lift_Ret_inv in Hget as [Hget ->].
  destruct (sites_getitem_Forall reportable _ _ _ _ _ default_site_reportable
              Hsites Hget) as [Hs Hsites0].
  injection Hrun as <- <- <-. split; [done|].
  destruct (location s); [done|].
  apply sites_alter_Forall; [|done].
  intros s0 _. unfold reportable. simpl. eauto.
Qed.

Lemma classify_site_reportable sites site_id device sites' :
  classify_site sites site_id device = inr sites' ->
  Forall (fun e => reportable (snd e)) sites ->
  Forall (fun e => reportable (snd e)) sites'.
Proof.
  unfold classify_site. run_exn. intros Hrun Hsites.
  destruct (py_get_none device "device-type") as [e|ty]; [done|]. simpl in Hrun.
  destruct (sites_getitem sites site_id) as [e|[[k s] sites0]] eqn:Hget;
    [by destruct (is_control_type ty)|].
  destruct (sites_getitem_Forall reportable _ _ _ _ _ default_site_reportable
              Hsites Hget) as [Hs Hsites0].
  destruct (is_control_type ty); simpl in Hrun.
  - injection Hrun as <-. by apply sites_alter_Forall.
  - destruct (String.eqb (site_type s) "unknown"); injection Hrun as <-;
      [by apply sites_alter_Forall|done].
Qed.

Lemma process_device_reportable total sites i device w sites' w' :
  process_device net total sites i device w = (Ret sites', w') ->
  cache_populated w ->
  Forall (fun e => reportable (snd e)) sites ->
  cache_populated w' /\ Forall (fun e => reportable (snd e)) sites'.
Proof.
  unfold process_device. intros Hrun Hw Hsites.
  apply bind_Ret_inv in Hrun as (site_id & w1 & Hx & Hrun).
  apply lift_Ret_inv in Hx as [_ ->].
  apply bind_Ret_inv in Hrun as (shown & w1 & Hx & Hrun).
  apply lift_Ret_inv in Hx as [_ ->].
  apply bind_Ret_inv in Hrun as ([] & w1 & Hprint & Hrun).
  assert (Hw1 : cache_populated w1).
  { unfold print in Hprint. injection Hprint as <-. exact Hw. }
  do 7 (apply bind_Ret_inv in Hrun as (? & ? & Hx & Hrun);
        apply lift_Ret_inv in Hx as [_ ->]).
  apply bind_Ret_inv in Hrun as ([sites1 loc] & w2 & Hloc & Hrun).
  destruct (process_location_reportable _ _ _ _ _ _ _ Hloc Hw1 Hsites)
    as [Hw2 Hsites1].
  apply bind_Ret_inv in Hrun as (sites2 & w3 & Hcls & Hrun).
  apply lift_Ret_inv in Hcls as [Hcls ->].
  pose proof (classify_site_reportable _ _ _ _ Hcls Hsites1) as Hsites2.
  apply bind_Ret_inv in Hrun as ([[k s] sites3] & w4 & Hget & Hrun).
  apply lift_Ret_inv in Hget as [Hget ->].
  destruct (sites_getitem_Forall reportable _ _ _ _ _ default_site_reportable
              Hsites2 Hget) as [Hs Hsites3].
  injection Hrun as <- <-. split; [done|].
  by apply sites_alter_Forall.
Qed.

Lemma process_devices_reportable total sites i items w sites' w' :
  process_devices net total sites i items w = (Ret sites', w') ->
  cache_populated w ->
  Forall (fun e => reportable (snd e)) sites ->
  cache_populated w' /\ Forall (fun e => reportable (snd e)) sites'.
Proof.
  revert sites i w. induction items as [|device rest IH]; intros sites i w; simpl.
  - by intros [= <- <-].
  - intros Hrun Hw Hsites.
    apply bind_Ret_inv in Hrun as (sites1 & w1 & Hstep & Hrun).
    destruct (process_device_reportable _ _ _ _ _ _ _ Hstep Hw Hsites).
    by eapply IH.
Qed.

Lemma attach_tloc_sites_reportable index sites sites' :
  attach_tloc_sites index sites = inr sites' ->
  Forall (fun e => reportable (snd e)) sites ->
  Forall (fun e => reportable (snd e)) sites'.
Proof.
  revert sites'. induction sites as [|[stored s] rest IH]; intros sites';
    simpl; run_exn.
  - by intros [= <-].
  - destruct (attach_tloc_devices index (devices s)) as [e|ds]; [done|].
    destruct (attach_tloc_sites index rest) as [e|rest']; [done|].
    intros [= <-] [Hs Hrest]%Forall_cons. constructor; [done|by apply IH].
Qed.

Lemma extract_reportable w sites w' :
  cache_populated w ->
  extract_sites_with_geocoding net w = (Ret (Some sites), w') ->
  Forall (fun e => reportable (snd e)) sites.
Proof.
  unfold extract_sites_with_geocoding. intros Hw Hrun.
  apply bind_Ret_inv in Hrun as ([] & w1 & Hp & Hrun).
  unfold print in Hp. injection Hp as <-.
  apply bind_Ret_inv in Hrun as (devices_data & w2 & Hdev & Hrun).
  apply get_devices_world in Hdev as [-> _].
  apply bind_Ret_inv in Hrun as (unusable & w3 & Hun & Hrun).
  apply lift_Ret_inv in Hun as [Hun ->].
  destruct unusable.
  { apply bind_Ret_inv in Hrun as ([] & w4 & _ & Hrun). by inversion Hrun. }
  apply bind_Ret_inv in Hrun as ([] & w4 & Hp & Hrun).
  unfold print in Hp. injection Hp as <-.
  apply bind_Ret_inv in Hrun as (tloc_data & w5 & Htloc & Hrun).
  rewrite (get_tloc_data_pure net _ w) in Htloc. injection Htloc as _ <-.
  apply bind_Ret_inv in Hrun as ([] & w6 & Hp & Hrun).
  unfold print in Hp. injection Hp as <-.
  apply bind_Ret_inv in Hrun as (data & w7 & Hdata & Hrun).
  apply lift_Ret_inv in Hdata as [Hdata ->].
  apply bind_Ret_inv in Hrun as (items & w8 & Hitems & Hrun).
  apply lift_Ret_inv in Hitems as [Hitems ->].
  apply bind_Ret_inv in Hrun as (sites0 & w9 & Hloop & Hrun).
  apply bind_Ret_inv in Hrun as (index & w10 & Hindex & Hrun).
  apply lift_Ret_inv in Hindex as [Hindex ->].
  apply bind_Ret_inv in Hrun as (sites1 & w11 & Hatt & Hrun).
  apply lift_Ret_inv in Hatt as [Hatt ->].
  injection Hrun as <- <-.
  eapply attach_tloc_sites_reportable; [exact Hatt|].
  eapply process_devices_reportable; [exact Hloop|exact Hw|constructor].
Qed.

Lemma populated_getitem geo k :
  populated geo -> k ∈ geo_fields -> exists v, py_getitem geo k = inr v.
Proof.
  intros (d & -> & Hd) Hk. simpl.
  destruct (assoc k d) as [v|] eqn:Ha; [eauto|]. exfalso.
  rewrite <- Hd in Hk. clear Hd. induction d as [|[k0 v0] d IH]; simpl in *.
  - by apply elem_of_nil in Hk.
  - destruct (String.eqb_spec k0 k) as [->|Hne]; [done|].
    apply elem_of_cons in Hk as [->|Hk]; [done|]. by apply IH.
Qed.

Lemma print_city_returns geo w :
  populated geo -> exists w', print_city geo w = (Ret tt, w').
Proof.
  intros Hgeo. unfold print_city.
  destruct (populated_getitem geo "city" Hgeo) as [city Hcity];
    [unfold geo_fields; set_solver|].
  destruct (populated_getitem geo "state" Hgeo) as [state Hstate];
    [unfold geo_fields; set_solver|].
  destruct (populated_getitem geo "country" Hgeo) as [country Hcountry];
    [unfold geo_fields; set_solver|].
  destruct (populated_getitem geo "country_code" Hgeo) as [code Hcode];
    [unfold geo_fields; set_solver|].
  destruct (populated_getitem geo "postcode" Hgeo) as [postcode Hpost];
    [unfold geo_fields; set_solver|].
  rewrite Hcity, Hstate, Hcountry, Hcode, Hpost.
  unfold mbind, mret, M_bind, M_ret, lift, print. simpl.
  destruct (truthy postcode); eauto.
Qed.

Lemma print_control_site_returns entry w :
  reportable (snd entry) -> exists w', print_control_site entry w = (Ret tt, w').
Proof.
  destruct entry as [k s]. unfold reportable, print_control_site,
    print_site_header, site_location. simpl.
  unfold mbind at 1, M_bind at 1, print at 1.
  destruct (geocoded_location s) as [geo|].
  - intros [Hgeo [l Hl]]. rewrite Hl.
    destruct (truthy geo).
    + destruct (populated_getitem geo "formatted_address" Hgeo) as [fa Hfa];
        [unfold geo_fields; set_solver|].
      rewrite Hfa. unfold mbind, M_bind, print, lift, mret, M_ret. simpl.
      edestruct (print_city_returns geo) as [w1 ->]; [done|]. simpl.
      rewrite print_all_spec. eauto.
    + unfold mbind, M_bind, mret, M_ret. rewrite print_all_spec. eauto.
  - intros _. unfold mbind, M_bind, mret, M_ret. rewrite print_all_spec. eauto.
Qed.

Lemma print_branch_site_returns entry w :
  reportable (snd entry) -> exists w', print_branch_site entry w = (Ret tt, w').
Proof.
  destruct entry as [k s]. unfold reportable, print_branch_site,
    print_site_header, site_location. simpl.
  unfold mbind at 1, M_bind at 1, print at 1.
  destruct (geocoded_location s) as [geo|].
  - intros [Hgeo [l Hl]]. rewrite Hl.
    destruct (truthy geo).
    + destruct (populated_getitem geo "formatted_address" Hgeo) as [fa Hfa];
        [unfold geo_fields; set_solver|].
      rewrite Hfa. unfold mbind, M_bind, print, lift, mret, M_ret. simpl.
      edestruct (print_city_returns geo) as [w1 ->]; [done|]. simpl.
      rewrite print_all_spec. eauto.
    + unfold mbind, M_bind, mret, M_ret. rewrite print_all_spec. eauto.
  - intros _. unfold mbind, M_bind, mret, M_ret. rewrite print_all_spec. eauto.
Qed.

Lemma for_each_returns {A} (body : A -> M unit) (P : A -> Prop) items w :
  (forall x w, P x -> exists w', body x w = (Ret tt, w')) ->
  Forall P items ->
  exists w', for_each body items w = (Ret tt, w').
Proof.
  intros Hbody Hitems. revert w.
  induction Hitems as [|x rest Hx _ IH]; intros w; simpl; [eauto|].
  destruct (Hbody x w Hx) as [w1 Hrun].
  unfold mbind, M_bind. rewrite Hrun. apply IH.
Qed.

Lemma Forall_filter_keep {A} (P Q : A -> Prop) `{!forall x, Decision (Q x)} l :
  Forall P l -> Forall P (filter Q l).
Proof.
  rewrite !Forall_forall. intros Hl x [_ Hx]%list_elem_of_filter. by apply Hl.
Qed.

Lemma seq_returns (m : M unit) (f : unit -> M unit) w :
  (exists w1, m w = (Ret tt, w1)) ->
  (forall w1, exists w2, f tt w1 = (Ret tt, w2)) ->
  exists w2, (m ≫= f) w = (Ret tt, w2).
Proof.
  intros [w1 Hm] Hf. unfold mbind, M_bind. rewrite Hm. apply Hf.
Qed.

Lemma report_returns sites w :
  Forall (fun e => reportable (snd e)) sites ->
  exists w', print_geocoded_site_report sites w = (Ret tt, w').
Proof.
  intros Hsites. unfold print_geocoded_site_report. cbv zeta.
  do 6 (apply seq_returns; [by eexists|]; intros ?).
  apply seq_returns.
  - match goal with
    | |- context [for_each _ ?l] =>
        destruct l as [|e es] eqn:Hf; [by eexists|]
    end.
    do 2 (apply seq_returns; [by eexists|]; intros ?).
    eapply for_each_returns.
    + intros x wx Hx. apply print_control_site_returns, Hx.
    + rewrite <- Hf. by apply Forall_filter_keep.
  - intros ?. match goal with
    | |- context [for_each _ ?l] =>
        destruct l as [|e es] eqn:Hf; [by eexists|]
    end.
    do 2 (apply seq_returns; [by eexists|]; intros ?).
    eapply for_each_returns.
    + intros x wx Hx. apply print_branch_site_returns, Hx.
    + rewrite <- Hf. by apply Forall_filter_keep.
Qed.

(** X10: the report never fails on what the extraction returns.  When
    the cache holds populated entries only, as it does when the run
    starts, every site of the returned mapping that has a geocoded
    location has one with the seven fields and has a location; on such a
    mapping [print_geocoded_site_report] raises no KeyError or TypeError
    and returns. *)
Theorem report_completes w sites w' w1 :
  cache_populated w ->
  extract_sites_with_geocoding net w = (Ret (Some sites), w') ->
  fst (print_geocoded_site_report sites w1) = Ret tt.
Proof.
  intros Hw Hrun.
  destruct (report_returns sites w1) as [w2 ->]; [|done].
  by eapply extract_reportable.
Qed.

Lemma collect_groups_returns sites c0 t0 :
  Forall (fun e => summarisable (snd e)) sites ->
  string_keyed c0 -> string_keyed t0 ->
  exists c t, collect_groups sites c0 t0 = inr (c, t)
              /\ string_keyed c /\ string_keyed t.
Proof.
  intros Hsites. revert c0 t0.
  induction Hsites as [|[site_id s] rest Hs _ IH]; intros c0 t0 Hc Ht; simpl;
    [by eauto|].
  unfold summarisable, summary_geo in Hs. simpl in Hs.
  destruct (geocoded_location s) as [geo|]; [|by apply IH].
  destruct (truthy geo); [|by apply IH].
  destruct Hs as [Hgeo [name Hcountry]].
  destruct (populated_getitem geo "city" Hgeo) as [city Hcity];
    [unfold geo_fields; set_solver|].
  destruct (populated_getitem geo "state" Hgeo) as [state Hstate];
    [unfold geo_fields; set_solver|].
  run_exn. rewrite Hcountry, Hcity, Hstate. simpl.
  apply IH; by apply group_append_string_keyed.
Qed.

(** X11: the summary returns when every site with a truthy geocoded
    location has the seven fields there and a text as country: no
    KeyError, no unhashable key and no comparison between keys of
    different types stops it. *)
Theorem summary_completes sites w :
  Forall (fun e => summarisable (snd e)) sites ->
  fst (generate_location_summary sites w) = Ret tt.
Proof.
  intros Hsites. unfold generate_location_summary.
  destruct (collect_groups_returns sites [] [] Hsites)
    as (c & t & Hrun & Hc & Ht); [constructor..|].
  destruct (py_sorted_ok c Hc) as [c' Hc'].
  destruct (py_sorted_ok t Ht) as [t' Ht'].
  rewrite Hrun. unfold mbind, mret, M_bind, M_ret, lift, print. simpl.
  rewrite Hc'. simpl. rewrite print_all_spec. simpl.
  rewrite Ht'. simpl. by rewrite print_all_spec.
Qed.

End Reporting.

(** * The theorems at work on the examples *)

Section Runs.
Import Examples.

(** Two routers make site 100 a branch; the manager that follows makes it
    control_plane, and the router after it leaves it so. *)
Lemma control_plane_is_sticky_witness :
  process_devices sf_net 4 [] 0 ([r1; r2] ++ manager :: [r3]) initial_world
    = (Ret mixed_sites, snd mixed_run)
  /\ device_key manager = inr (KStr "100")
  /\ is_control manager = true
  /\ site_type <$> sites_find (KStr "100") mixed_sites = Some "control_plane".
Proof.
  assert (Hrun : process_devices sf_net 4 [] 0 ([r1; r2] ++ manager :: [r3])
                   initial_world = (Ret mixed_sites, snd mixed_run))
    by reflexivity.
  split; [exact Hrun|]. split; [reflexivity|]. split; [reflexivity|].
  exact (control_plane_is_sticky sf_net 4 [] 0 [r1; r2] manager [r3]
           initial_world mixed_sites (snd mixed_run) (KStr "100")
           Hrun eq_refl eq_refl).
Defined.

(** The scenario of the specification: site 100 takes the location of
    [r1], the only device with coordinates. *)
Lemma site_location_first_wins_witness :
  extract_sites_with_geocoding sf_net initial_world
    = (Ret (Some sf_sites), snd sf_run)
  /\ fetched_devices sf_net = Some [r1; r2]
  /\ sites_find (KStr "100") sf_sites = Some sf_site
  /\ (Forall2 records
        (filter (fun dv => of_site (KStr "100") dv = true) [r1; r2])
        (devices sf_site)
      /\ location sf_site = head (omap dev_location (devices sf_site))
      /\ geocoded_location sf_site = geocoded <$> location sf_site).
Proof.
  assert (Hrun : extract_sites_with_geocoding sf_net initial_world
                 = (Ret (Some sf_sites), snd sf_run)) by reflexivity.
  assert (Hitems : fetched_devices sf_net = Some [r1; r2]) by reflexivity.
  assert (Hsite : sites_find (KStr "100") sf_sites = Some sf_site)
    by reflexivity.
  split; [exact Hrun|]. split; [exact Hitems|]. split; [exact Hsite|].
  exact (site_location_first_wins sf_net initial_world sf_sites (snd sf_run)
           [r1; r2] (KStr "100") sf_site Hrun Hitems Hsite).
Defined.

(** A lookup that times out: the placeholder is returned, the warning is
    printed and the cache stays empty. *)
Lemma geocode_failure_absorbed_witness :
  cache initial_world !! cache_key sf_lat sf_lon = None
  /\ lookup_failure (nominatim geocoder_timeout (geo_calls initial_world) sf_lat sf_lon)
       (Some (RequestException "Read timed out."))
  /\ exists w',
       reverse_geocode_nominatim geocoder_timeout sf_lat sf_lon initial_world
         = (Ret (fallback_location sf_lat sf_lon), w')
       /\ stdout w'
          = ["WARNING: Geocoding failed for 37.7749,-122.4194: Read timed out."]
       /\ cache w' = cache initial_world.
Proof.
  assert (Hmiss : cache initial_world !! cache_key sf_lat sf_lon = None)
    by reflexivity.
  assert (Hfail : lookup_failure
                    (nominatim geocoder_timeout (geo_calls initial_world)
                       sf_lat sf_lon)
                    (Some (RequestException "Read timed out.")))
    by apply transport_error.
  split; [exact Hmiss|]. split; [exact Hfail|].
  destruct (geocode_failure_absorbed geocoder_timeout sf_lat sf_lon
              initial_world _ Hmiss Hfail)
    as (w' & Hrun & _ & _ & Hout & Hcache & _).
  exists w'. split; [exact Hrun|]. split; [exact Hout|exact Hcache].
Defined.

(** San Francisco is resolved, Rome is looked up in between, and the
    second lookup of San Francisco is served from the cache. *)
Lemma cache_hit_after_success_witness :
  cache initial_world !! cache_key sf_lat sf_lon = None
  /\ lookup_success (nominatim sf_net (geo_calls initial_world) sf_lat sf_lon)
       sf_info
  /\ let first := reverse_geocode_nominatim sf_net sf_lat sf_lon initial_world in
     let w2 := run_calls sf_net [(rome_lat, rome_lon)] (snd first) in
     fst first = Ret sf_info
     /\ reverse_geocode_nominatim sf_net sf_lat sf_lon w2 = (Ret sf_info, w2)
     /\ geo_calls (snd (reverse_geocode_nominatim sf_net sf_lat sf_lon w2))
        = geo_calls w2.
Proof.
  assert (Hmiss : cache initial_world !! cache_key sf_lat sf_lon = None)
    by reflexivity.
  assert (Hok : lookup_success
                  (nominatim sf_net (geo_calls initial_world) sf_lat sf_lon)
                  sf_info).
  { exists "", sf_body. split; reflexivity. }
  split; [exact Hmiss|]. split; [exact Hok|].
  destruct (cache_hit_after_success sf_net sf_lat sf_lon initial_world sf_info
              [(rome_lat, rome_lon)] Hmiss Hok) as (H1 & H2 & H3 & _).
  split; [exact H1|]. split; [exact H2|exact H3].
Defined.

(** The first lookup of a run starts from an empty, hence populated,
    cache. *)
Lemma geocode_result_populated_witness :
  cache_populated initial_world
  /\ exists v w',
       reverse_geocode_nominatim sf_net sf_lat sf_lon initial_world = (Ret v, w')
       /\ populated v /\ cache_populated w'.
Proof.
  split; [exact initial_cache_populated|].
  exact (proj1 (geocode_result_populated sf_net sf_lat sf_lon initial_world
                  initial_cache_populated)).
Defined.




(** A device on the equator, whose latitude is the number 0. *)
Lemma falsy_coordinates_ignored_witness :
  (truthy (default PNone (assoc "latitude" equator_fields)) = false
   \/ truthy (default PNone (assoc "longitude" equator_fields)) = false)
  /\ has_coordinates (PDict equator_fields) = inr false
  /\ process_device sf_net 1 [] 0 (PDict equator_fields) initial_world
     = process_device sf_net 1 [] 0
         (PDict (strip_coordinates equator_fields)) initial_world.
Proof.
  assert (Hfalsy : truthy (default PNone (assoc "latitude" equator_fields)) = false
                   \/ truthy (default PNone (assoc "longitude" equator_fields))
                      = false) by (left; reflexivity).
  split; [exact Hfalsy|].
  destruct (falsy_coordinates_ignored sf_net 1 [] 0 equator_fields
              initial_world Hfalsy) as (H1 & H2 & _).
  split; [exact H1|exact H2].
Defined.


(** ** Where the specification and the program part *)

(** C3: the geocoder answers 503; the placeholder is returned and
    nothing at all is printed. *)
Lemma non_success_status_logs_nothing :
  lookup_failure (nominatim geocoder_503 0 sf_lat sf_lon) None
  /\ fst (reverse_geocode_nominatim geocoder_503 sf_lat sf_lon initial_world)
     = Ret (fallback_location sf_lat sf_lon)
  /\ stdout (snd (reverse_geocode_nominatim geocoder_503 sf_lat sf_lon
                    initial_world)) = [].
Proof.
  split; [by apply non_success_status|]. split; reflexivity.
Qed.

(** C5: country_code and postcode are empty in the placeholder returned
    after a timeout, and also after a successful lookup whose address
    has no such components. *)
Lemma fallback_fields_can_be_empty :
  fst (reverse_geocode_nominatim geocoder_timeout sf_lat sf_lon initial_world)
    = Ret (fallback_location sf_lat sf_lon)
  /\ py_getitem (fallback_location sf_lat sf_lon) "country_code" = inr (PStr "")
  /\ py_getitem (fallback_location sf_lat sf_lon) "postcode" = inr (PStr "")
  /\ fst (reverse_geocode_nominatim geocoder_bare sf_lat sf_lon initial_world)
     = Ret bare_info
  /\ py_getitem bare_info "country_code" = inr (PStr "")
  /\ py_getitem bare_info "postcode" = inr (PStr "").
Proof. repeat split; reflexivity. Qed.

(** C6: a refused connection leaves each of the three operations as an
    exception, not as false or None. *)
Lemma transport_error_raises :
  authenticate login_refused initial_world
    = (Raise (RequestException "Connection refused"), initial_world)
  /\ get_devices inventory_refused initial_world
     = (Raise (RequestException "Connection refused"), initial_world)
  /\ get_tloc_data tloc_refused initial_world
     = (Raise (RequestException "Connection refused"), initial_world).
Proof. repeat split; reflexivity. Qed.




(** A router and a manager share site 100, a router is alone in site 200:
    the mapping has exactly these two sites, the first typed
    control_plane and the second branch. *)
Lemma sites_typed_by_devices_witness :
  extract_sites_with_geocoding campus_net initial_world
    = (Ret (Some campus_sites), snd campus_run)
  /\ fetched_devices campus_net = Some [r1; manager; milan]
  /\ map fst campus_sites = [PStr "100"; PStr "200"]
  /\ site_type <$> sites_find (KStr "100") campus_sites = Some "control_plane"
  /\ site_type <$> sites_find (KStr "200") campus_sites = Some "branch"
  /\ (forall k,
        match sites_find k campus_sites with
        | None => filter (fun dv => of_site k dv = true) [r1; manager; milan] = []
        | Some s =>
            filter (fun dv => of_site k dv = true) [r1; manager; milan] <> []
            /\ devices s <> []
            /\ site_type s = expected_type k [r1; manager; milan]
            /\ site_type s <> "unknown"
        end)
  /\ NoDup (site_keys campus_sites)
  /\ Forall (fun e =>
               exists k, dict_key (fst e) = inr k
                 /\ sites_find k campus_sites = Some (snd e)
                 /\ filter (fun dv => of_site k dv = true) [r1; manager; milan]
                    <> []
                 /\ devices (snd e) <> []
                 /\ site_type (snd e) = expected_type k [r1; manager; milan]
                 /\ site_type (snd e) <> "unknown") campus_sites.
Proof.
  assert (Hrun : extract_sites_with_geocoding campus_net initial_world
                 = (Ret (Some campus_sites), snd campus_run)) by reflexivity.
  assert (Hitems : fetched_devices campus_net = Some [r1; manager; milan])
    by reflexivity.
  split; [exact Hrun|]. split; [exact Hitems|].
  split; [reflexivity|]. split; [reflexivity|]. split; [reflexivity|].
  exact (sites_typed_by_devices campus_net initial_world campus_sites
           (snd campus_run) [r1; manager; milan] Hrun Hitems).
Defined.

(** Four topology records: the two of 10.0.0.1 are filed under it in
    their order, the one without a system IP is skipped. *)
Lemma tloc_index_groups_by_ip_witness :
  build_tloc_index topology = inr topology_index
  /\ tloc_find (KStr "10.0.0.1") topology_index
     = Some [ {| color := PStr "mpls"; control_connections_up := PInt 2;
                 bfd_sessions_up := PInt 4 |};
              {| color := PStr "biz-internet";
                 control_connections_up := PInt 0;
                 bfd_sessions_up := PInt 0 |} ]
  /\ tloc_find (KStr "10.0.0.1") topology_index
     = match links_of (KStr "10.0.0.1") link_records with
       | [] => None
       | links => Some links
       end.
Proof.
  assert (Hindex : build_tloc_index topology = inr topology_index)
    by reflexivity.
  split; [exact Hindex|]. split; [reflexivity|].
  exact (tloc_index_groups_by_ip topology link_records topology_index
           (KStr "10.0.0.1") Hindex eq_refl eq_refl eq_refl).
Defined.

(** The topology phase on the two routers of site 300. *)
Lemma topology_only_adds_links_witness :
  attach_tloc_sites topology_index edge_sites = inr edge_linked
  /\ Forall2 (site_linked topology_index) edge_sites edge_linked.
Proof.
  assert (Hrun : attach_tloc_sites topology_index edge_sites = inr edge_linked)
    by reflexivity.
  split; [exact Hrun|].
  exact (topology_only_adds_links topology_index edge_sites edge_linked Hrun).
Defined.

(** A topology answer that is an empty object. *)
Lemma no_topology_no_links_witness :
  truthy (obj []) = false
  /\ build_tloc_index (obj []) = inr []
  /\ (hashable_ips edge_sites -> attach_tloc_sites [] edge_sites = inr edge_sites)
  /\ (~ hashable_ips edge_sites ->
      exists e, attach_tloc_sites [] edge_sites = inl e).
Proof.
  split; [reflexivity|].
  exact (no_topology_no_links (obj []) edge_sites (or_introl eq_refl)).
Defined.

(** The address of San Francisco: city, state and country, joined. *)
Lemma formatted_address_is_text_witness :
  _format_address sf_address
    = inr (PStr "San Francisco, California, United States")
  /\ exists d, sf_address = PDict d
       /\ PStr "San Francisco, California, United States" <> PStr ""
       /\ match address_parts d with
          | [] => PStr "San Francisco, California, United States"
                  = PStr "Unknown Location"
          | parts =>
              exists names, parts = PStr <$> names
                /\ Forall (fun t => t <> "") names
                /\ PStr "San Francisco, California, United States"
                   = PStr (join_str ", " names)
          end.
Proof.
  assert (Hrun : _format_address sf_address
                 = inr (PStr "San Francisco, California, United States"))
    by reflexivity.
  split; [exact Hrun|].
  exact (formatted_address_is_text sf_address _ Hrun).
Defined.

(** A controller without devices: the run ends with the error line. *)
Lemma empty_inventory_reported_witness :
  fetched_devices empty_net = Some []
  /\ main empty_net initial_world = (Ret tt,
       {| stdout := stdout initial_world ++ banner ++
            ["Getting TLOC data...";
             "Processing devices and geocoding locations...";
             "ERROR: Failed to extract site hierarchy"];
          cache := cache initial_world; geo_calls := geo_calls initial_world;
          slept := slept initial_world;
          token := Some "A1B2C3"; written := written initial_world |}).
Proof.
  assert (Hitems : fetched_devices empty_net = Some []) by reflexivity.
  split; [exact Hitems|].
  exact (empty_inventory_reported empty_net initial_world "" no_body
           "A1B2C3" no_body (obj [("data", PList [])]) []
           eq_refl eq_refl Hitems eq_refl eq_refl).
Defined.

(** The report on the two routers of San Francisco completes. *)
Lemma report_completes_witness :
  cache_populated initial_world
  /\ extract_sites_with_geocoding sf_net initial_world
     = (Ret (Some sf_sites), snd sf_run)
  /\ fst (print_geocoded_site_report sf_sites (snd sf_run)) = Ret tt.
Proof.
  assert (Hrun : extract_sites_with_geocoding sf_net initial_world
                 = (Ret (Some sf_sites), snd sf_run)) by reflexivity.
  split; [exact initial_cache_populated|]. split; [exact Hrun|].
  exact (report_completes sf_net initial_world sf_sites (snd sf_run)
           (snd sf_run) initial_cache_populated Hrun).
Defined.

(** The two Italian sites have a text as country. *)
Lemma italy_summarisable :
  Forall (fun e => summarisable (snd e)) italy_sites.
Proof.
  constructor; [|constructor; [|constructor]];
    (split; [eexists; split; reflexivity|by eexists]).
Qed.

(** The summary of the two Italian sites completes. *)
Lemma summary_completes_witness :
  Forall (fun e => summarisable (snd e)) italy_sites
  /\ fst (generate_location_summary italy_sites initial_world) = Ret tt.
Proof.
  split; [exact italy_summarisable|].
  exact (summary_completes italy_sites initial_world italy_summarisable).
Defined.

(** The run on the two routers of San Francisco returns and writes the
    extracted mapping, once. *)
Lemma results_written_once_witness :
  main sf_net initial_world = sf_main
  /\ fst sf_main = Ret tt
  /\ written (snd sf_main) = [(output_file, sf_sites)]
  /\ (written (snd (main sf_net initial_world)) = written initial_world
      \/ (fst (main sf_net initial_world) = Ret tt
          /\ open_output sf_net = None
          /\ exists t1 j1 text json sites w1,
               login_response sf_net = HttpResponse 200 t1 j1
               /\ token_response sf_net = HttpResponse 200 text json
               /\ extract_sites_with_geocoding sf_net
                    (extraction_start initial_world text)
                  = (Ret (Some sites), w1)
               /\ sites <> []
               /\ written (snd (main sf_net initial_world))
                  = (written initial_world ++ [(output_file, sites)])%list)).
Proof.
  split; [reflexivity|]. split; [reflexivity|]. split; [reflexivity|].
  exact (proj1 (results_written_once sf_net initial_world)).
Defined.

End Runs.
